(** * mne_bids/utils.py: BIDS names and BrainVision copies

    A shallow embedding of the naming helpers ([make_bids_filename],
    [make_bids_folders], [_check_types], [_check_key_val], [_mkdir_p]) and of
    [copyfile_brainvision], followed by the properties proved about them.

    Conventions of the embedding:
    - a Python [str] is a [string] whose characters are code points below 256;
    - the values a parameter may carry are [None], a [str] or an [int]
      (the types the docstrings name); the flags [make_dir], [overwrite] and
      [verbose], which the code only tests with [is True], are [bool];
    - a raising function returns [Raise e], a returning one [Ok v];
    - functions that touch the file system or the console thread a [world];
    - a file holds the characters of its text, decoded; reading it in text
      mode turns every line end (CR LF or a lone CR) into a line feed, and
      writing stores the characters as they are given (the line separator of
      the platform is the line feed, as its path separator is the slash);
      the choice of an encoding is not part of the model. *)

From Stdlib Require Import ZArith Ascii DecimalString DecimalPos.
From stdpp Require Import gmap strings list.

Local Open Scope Z_scope.

(** ** Python values and exceptions *)

Inductive value : Type :=
  | VNone
  | VStr (s : string)
  | VInt (n : Z).

Global Instance value_eq_dec : EqDecision value.
Proof. solve_decision. Defined.

Inductive errno : Type := EEXIST | ENOENT | ENOTDIR | EISDIR.

Global Instance errno_eq_dec : EqDecision errno.
Proof. solve_decision. Defined.

Inductive exn : Type :=
  | ValueError (msg : string)
  | TypeError (msg : string)
  | IOError (msg : string)
  | OSError (code : errno) (filename : string)
  | SameFileError (msg : string).

Inductive res (A : Type) : Type :=
  | Ok (a : A)
  | Raise (e : exn).
Arguments Ok {A} a.
Arguments Raise {A} e.

Global Instance res_bind : MBind res := λ A B k r,
  match r with
  | Ok a => k a
  | Raise e => Raise e
  end.

Global Instance res_fmap : FMap res := λ A B f r,
  match r with
  | Ok a => Ok (f a)
  | Raise e => Raise e
  end.

(** [isinstance(v, string_types)] and [v is None]. *)
Definition isinstance_str (v : value) : bool :=
  match v with VStr _ => true | _ => false end.

Definition is_None (v : value) : bool :=
  match v with VNone => true | _ => false end.

(** ** Strings *)

Definition LF : ascii := "010"%char.
Definition CR : ascii := "013"%char.
Definition nl : string := String LF "".

Definition is_empty (s : string) : bool :=
  match s with "" => true | _ => false end.

Fixpoint replicate_char (n : nat) (c : ascii) : string :=
  match n with
  | O => ""
  | S k => String c (replicate_char k c)
  end.

(** [str(n)] for an [int]. *)
Definition str_int (n : Z) : string := NilZero.string_of_int (Z.to_int n).

(** [format(n, '0<w>')]: the sign, then the digits filled with zeros on the
    left until sign and digits together are [w] characters wide. *)
Definition format_zero_width (w : nat) (n : Z) : string :=
  let sign := if n <? 0 then "-" else "" in
  let digits := str_int (Z.abs n) in
  sign +:+
  replicate_char (w - String.length sign - String.length digits) "0" +:+
  digits.

(** ['{:02}'.format(n)] *)
Definition format_02 (n : Z) : string := format_zero_width 2 n.

(** [type(v)] as ['%s'] prints it, and its bare name. *)
Definition type_name (v : value) : string :=
  match v with
  | VNone => "NoneType"
  | VStr _ => "str"
  | VInt _ => "int"
  end.

Definition type_repr (v : value) : string :=
  "<class '" +:+ type_name v +:+ "'>".

(** ['%s' % v] *)
Definition str (v : value) : string :=
  match v with
  | VNone => "None"
  | VStr s => s
  | VInt n => str_int n
  end.

(** [sub in s] on strings. *)
Fixpoint contains (sub s : string) : bool :=
  match s with
  | "" => is_empty sub
  | String _ s' => String.prefix sub s || contains sub s'
  end.

(** [sep.join(l)] *)
Definition join (sep : string) (l : list string) : string :=
  String.concat sep l.

(** [s.split(sep)] for a one-character separator. *)
Fixpoint split (sep : ascii) (s : string) : list string :=
  match s with
  | "" => [""]
  | String c s' =>
      if decide (c = sep) then "" :: split sep s'
      else match split sep s' with
           | [] => [String c ""]
           | p :: ps => String c p :: ps
           end
  end.

Definition startswith (s pre : string) : bool := String.prefix pre s.

Fixpoint endswith_char (s : string) (c : ascii) : bool :=
  match s with
  | "" => false
  | String a "" => bool_decide (a = c)
  | String _ s' => endswith_char s' c
  end.

(** [os.sep] and [os.path.join] (posixpath). *)
Definition os_sep : ascii := "/"%char.

Definition join_step (path b : string) : string :=
  if startswith b (String os_sep "") then b
  else if is_empty path || endswith_char path os_sep then path +:+ b
  else path +:+ String os_sep b.

Definition os_path_join (a : string) (p : list string) : string :=
  fold_left join_step p a.

(** ** An [OrderedDict] with string keys *)

Definition odict : Type := list (string * value).

Definition keys (d : odict) : list string := d.*1.
Definition values (d : odict) : list value := d.*2.

(** [d[k]] for a key that is present; [None] stands for a missing key. *)
Fixpoint getitem (d : odict) (k : string) : value :=
  match d with
  | [] => VNone
  | (k', v) :: d' => if decide (k' = k) then v else getitem d' k
  end.

(** [d[k] = v]: an existing key keeps its position, a new one goes last. *)
Fixpoint setitem (d : odict) (k : string) (v : value) : odict :=
  match d with
  | [] => [(k, v)]
  | (k', v') :: d' =>
      if decide (k' = k) then (k, v) :: d' else (k', v') :: setitem d' k v
  end.

(** ** Checks *)

(** [_check_types]: every variable is a [str] or [None]. *)
Fixpoint _check_types (variables : list value) : res unit :=
  match variables with
  | [] => Ok tt
  | var :: rest =>
      if negb (isinstance_str var || is_None var) then
        Raise (ValueError ("All values must be either None or strings. "
                           +:+ "Found type " +:+ type_repr var +:+ "."))
      else _check_types rest
  end.

Definition unallowed : list string := ["-"; "_"; "/"].

Definition key_val_msg (key : string) (val : value) : string :=
  "Unallowed `-`, `_`, or `/` found in key/value pair"
  +:+ " " +:+ key +:+ ": " +:+ str val.

(** [_check_key_val]: [ii in val] needs an iterable [val]. *)
Definition _check_key_val (key : string) (val : value)
  : res (string * value) :=
  match val with
  | VStr s =>
      if existsb (λ ii, contains ii s) unallowed then
        Raise (ValueError (key_val_msg key val))
      else Ok (key, val)
  | _ =>
      Raise (TypeError ("argument of type '" +:+ type_name val
                        +:+ "' is not iterable"))
  end.

(** ** [make_bids_filename] *)

(** The loop over [order.items()], appending to [filename]. *)
Fixpoint filename_tokens (items : odict) (filename : list string)
  : res (list string) :=
  match items with
  | [] => Ok filename
  | (key, val) :: rest =>
      if negb (is_None val) then
        _check_key_val key val ;;
        filename_tokens rest (filename ++ [key +:+ "-" +:+ str val])
      else filename_tokens rest filename
  end.

Definition make_bids_filename
  (subject session task acquisition run processing recording space
     suffix prefix : value) : res string :=
  let order : odict :=
    [("sub", subject); ("ses", session); ("task", task);
     ("acq", acquisition); ("run", run); ("proc", processing);
     ("space", space); ("recording", recording)] in
  let order :=
    match getitem order "run" with
    | VInt n => setitem order "run" (VStr (format_02 n))
    | _ => order
    end in
  _check_types (values order) ;;
  if negb (existsb (λ ii, isinstance_str (VStr ii)) (keys order)) then
    Raise (ValueError "At least one parameter must be given.")
  else
    filename ← filename_tokens order [];
    let filename :=
      match suffix with
      | VStr s => filename ++ [s]
      | _ => filename
      end in
    let filename := join "_" filename in
    let filename :=
      match prefix with
      | VStr p => os_path_join p [filename]
      | _ => filename
      end in
    Ok filename.

(** A call [make_bids_filename(k1=v1, ..., kn=vn)]: the keyword arguments
    are bound to the parameters by name, a parameter that is not named takes
    its default [None], and a keyword that is no parameter is refused. *)
Definition parameters : list string :=
  ["subject"; "session"; "task"; "acquisition"; "run"; "processing";
   "recording"; "space"; "suffix"; "prefix"].

Definition argument (kwargs : list (string * value)) (name : string) : value :=
  default VNone ((list_to_map kwargs : gmap string value) !! name).

Definition call_make_bids_filename (kwargs : list (string * value))
  : res string :=
  match list_find (λ k, k ∉ parameters) kwargs.*1 with
  | Some (_, k) =>
      Raise (TypeError ("make_bids_filename() got an unexpected keyword "
                        +:+ "argument '" +:+ k +:+ "'"))
  | None =>
      let arg := argument kwargs in
      make_bids_filename (arg "subject") (arg "session") (arg "task")
        (arg "acquisition") (arg "run") (arg "processing") (arg "recording")
        (arg "space") (arg "suffix") (arg "prefix")
  end.

(** ** The file system and the console *)

(** A path names a node of a tree of directories and text files. The tree is
    kept as a finite map from resolved paths (the list of components below
    the working directory, which is also the root) to nodes. *)
Inductive node : Type :=
  | File (content : string)
  | Dir.

Record world : Type := World {
  files : gmap (list string) node;
  stdout : list string
}.

Definition set_files (f : gmap (list string) node → gmap (list string) node)
  (w : world) : world :=
  {| files := f (files w); stdout := stdout w |}.

(** [print(line)] *)
Definition print (line : string) (w : world) : world :=
  {| files := files w; stdout := stdout w ++ [line] |}.

(** A path is resolved from its text: empty pieces and [.] are passed over,
    [..] drops the piece before it. The file system agrees whenever the
    pieces that a [..] follows name directories. *)
Definition resolve_step (acc : list string) (c : string) : list string :=
  if decide (c = "" ∨ c = ".") then acc
  else if decide (c = "..") then removelast acc
  else acc ++ [c].

Definition resolve (p : string) : list string :=
  fold_left resolve_step (split os_sep p) [].

Definition lookup_key (w : world) (key : list string) : option node :=
  match key with
  | [] => Some Dir
  | _ => files w !! key
  end.

Definition lookup_path (w : world) (p : string) : option node :=
  if is_empty p then None else lookup_key w (resolve p).

(** [os.path.exists], [os.path.isdir] *)
Definition os_path_exists (w : world) (p : string) : bool :=
  bool_decide (is_Some (lookup_path w p)).

Definition os_path_isdir (w : world) (p : string) : bool :=
  match lookup_path w p with
  | Some Dir => true
  | _ => false
  end.

(** The characters a file holds: what a read yields before any conversion
    of line ends, and what a write has stored. *)
Definition read_text (w : world) (p : string) : res string :=
  match lookup_path w p with
  | Some (File content) => Ok content
  | Some Dir => Raise (OSError EISDIR p)
  | None => Raise (OSError ENOENT p)
  end.

(** What stands in the way of creating an entry at [key]. *)
Definition parent_error (w : world) (key : list string) : option errno :=
  match lookup_key w (removelast key) with
  | Some Dir => None
  | Some (File _) => Some ENOTDIR
  | None => Some ENOENT
  end.

(** [open(p, 'w')]: the file is created or truncated; the handle is the
    resolved path. *)
Definition open_w (p : string) (w : world) : world * res (list string) :=
  let key := resolve p in
  match lookup_path w p with
  | Some Dir => (w, Raise (OSError EISDIR p))
  | Some (File _) => (set_files (insert key (File "")) w, Ok key)
  | None =>
      if is_empty p then (w, Raise (OSError ENOENT p))
      else match parent_error w key with
           | Some code => (w, Raise (OSError code p))
           | None => (set_files (insert key (File "")) w, Ok key)
           end
  end.

(** [f.write(s)] on a handle opened for writing. *)
Definition append_node (s : string) (n : node) : node :=
  match n with
  | File content => File (content +:+ s)
  | Dir => Dir
  end.

Definition write (f : list string) (s : string) (w : world) : world :=
  set_files (alter (append_node s) f) w.

(** Reading in text mode ([open(p, 'r')], universal newlines): every CR LF
    and every lone CR of the file comes out as one line feed. [after_cr]
    says that the character before was a CR, whose line feed is out
    already. *)
Fixpoint translate_newlines (after_cr : bool) (s : string) : string :=
  match s with
  | "" => ""
  | String c s' =>
      if decide (c = CR) then String LF (translate_newlines true s')
      else if decide (c = LF) then
        if after_cr then translate_newlines false s'
        else String LF (translate_newlines false s')
      else String c (translate_newlines false s')
  end.

Definition universal_newlines (s : string) : string :=
  translate_newlines false s.

(** [f.readlines()]: the text cut after every line feed. *)
Fixpoint readlines (s : string) : list string :=
  match s with
  | "" => []
  | String c s' =>
      if decide (c = LF) then nl :: readlines s'
      else match readlines s' with
           | [] => [String c ""]
           | l :: ls => String c l :: ls
           end
  end.

(** [shutil.copyfile] *)
Definition sh_copyfile (src dest : string) (w : world) : world * res unit :=
  if bool_decide (is_Some (lookup_path w dest))
     && bool_decide (resolve src = resolve dest) then
    (w, Raise (SameFileError
                 ("'" +:+ src +:+ "' and '" +:+ dest
                  +:+ "' are the same file")))
  else
    match read_text w src with
    | Raise e => (w, Raise e)
    | Ok content =>
        match open_w dest w with
        | (w', Raise e) => (w', Raise e)
        | (w', Ok f) => (write f content w', Ok tt)
        end
    end.

(** [os.mkdir(name)], for a [name] that resolves to [key]: the error names
    the path as it was passed. *)
Definition os_mkdir (name : string) (key : list string) (w : world)
  : world * res unit :=
  match lookup_key w key with
  | Some _ => (w, Raise (OSError EEXIST name))
  | None =>
      match parent_error w key with
      | Some code => (w, Raise (OSError code name))
      | None => (set_files (insert key Dir) w, Ok tt)
      end
  end.

(** [os.makedirs]: the missing ancestors are made from the top down, then
    the leaf. [name_of] gives the name under which a directory is handed to
    [os.mkdir]. *)
Fixpoint makedirs_from (name_of : list string → string)
  (done todo : list string) (w : world) : world * res unit :=
  match todo with
  | [] => os_mkdir (name_of done) done w
  | [c] => os_mkdir (name_of (done ++ [c])) (done ++ [c]) w
  | c :: rest =>
      let key := done ++ [c] in
      match lookup_key w key with
      | Some _ => makedirs_from name_of key rest w
      | None =>
          match os_mkdir (name_of key) key w with
          | (w', Ok _) => makedirs_from name_of key rest w'
          | (w', Raise e) => (w', Raise e)
          end
      end
  end.

(** The leading parts of a path, cut after each of its pieces: the heads
    that repeated [os.path.split] leaves. *)
Definition leading_parts (p : string) : list string :=
  (λ n, join (String os_sep "") (take n (split os_sep p)))
    <$> seq 1 (length (split os_sep p)).

(** The leaf goes to [os.mkdir] under the name [os.makedirs] was given, an
    ancestor under the shortest leading part of that name that resolves to
    it. *)
Definition makedirs_name (p : string) (key : list string) : string :=
  if decide (key = resolve p) then p
  else default (join (String os_sep "") key)
         (head (filter (λ s, resolve s = key) (leading_parts p))).

Definition os_makedirs (p : string) (w : world) : world * res unit :=
  if is_empty p then (w, Raise (OSError ENOENT p))
  else makedirs_from (makedirs_name p) [] (resolve p) w.

(** [shutil.rmtree]: the directory and all below it go. *)
Definition sh_rmtree (p : string) (w : world) : world :=
  set_files (filter (λ kv, ¬ (resolve p `prefix_of` kv.1))) w.

(** ** [_mkdir_p] *)
Definition _mkdir_p (path : string) (overwrite verbose : bool) (w : world)
  : world * res unit :=
  let w :=
    if overwrite && os_path_isdir w path then
      let w := sh_rmtree path w in
      if verbose then print ("Overwriting path: " +:+ path) w else w
    else w in
  match os_makedirs path w with
  | (w', Ok _) =>
      (if verbose then print ("Creating folder: " +:+ path) w' else w', Ok tt)
  | (w', Raise (OSError code name)) =>
      if bool_decide (code = EEXIST) && os_path_isdir w' path then (w', Ok tt)
      else (w', Raise (OSError code name))
  | (w', Raise e) => (w', Raise e)
  end.

(** ** [make_bids_folders] *)

(** [os.path.join] applied to the unpacked list [path]. *)
Definition os_path_join_list (path : list string) : res string :=
  match path with
  | a :: p => Ok (os_path_join a p)
  | [] => Raise (TypeError "join() missing 1 required positional argument: 'a'")
  end.

Definition folder_segments (subject session kind : value) : list string :=
  let path := ["sub-" +:+ str subject] in
  let path :=
    match session with
    | VStr s => path ++ ["ses-" +:+ s]
    | _ => path
    end in
  match kind with
  | VStr k => path ++ [k]
  | _ => path
  end.

Definition make_bids_folders (subject session kind root : value)
  (make_dir overwrite verbose : bool) (w : world) : world * res string :=
  let checked :=
    _check_types [subject; kind; session; root] ;;
    if negb (is_None session) then _check_key_val "ses" session ;; Ok tt
    else Ok tt in
  match checked ;; os_path_join_list (folder_segments subject session kind) with
  | Raise e => (w, Raise e)
  | Ok path =>
      let path :=
        match root with
        | VStr r => os_path_join r [path]
        | _ => path
        end in
      if make_dir then
        match _mkdir_p path overwrite verbose w with
        | (w', Ok _) => (w', Ok path)
        | (w', Raise e) => (w', Raise e)
        end
      else (w, Ok path)
  end.

(** ** [str.strip] and [str.replace] *)

(** The code points below 256 that [str.isspace] accepts. *)
Definition is_space (c : ascii) : bool :=
  let n := N_of_ascii c in
  ((9 <=? n) && (n <=? 13) || (28 <=? n) && (n <=? 32)
   || (n =? 133) || (n =? 160))%N.

Fixpoint lstrip (s : string) : string :=
  match s with
  | "" => ""
  | String c s' => if is_space c then lstrip s' else s
  end.

Fixpoint rstrip (s : string) : string :=
  match s with
  | "" => ""
  | String c s' =>
      let r := rstrip s' in
      if is_space c && is_empty r then "" else String c r
  end.

Definition strip (s : string) : string := rstrip (lstrip s).

(** [replace_from old new skip s]: [s] with the occurrences of a non-empty
    [old] replaced from left to right; [skip] counts the characters of an
    occurrence just replaced that are still to be passed over. *)
Fixpoint replace_from (old new : string) (skip : nat) (s : string) : string :=
  match s with
  | "" => ""
  | String c s' =>
      match skip with
      | S k => replace_from old new k s'
      | O =>
          if String.prefix old s then
            new +:+ replace_from old new (String.length old - 1) s'
          else String c (replace_from old new O s')
      end
  end.

(** With an empty [old], [new] goes before every character and at the end. *)
Fixpoint interleave (new s : string) : string :=
  match s with
  | "" => new
  | String c s' => new +:+ String c (interleave new s')
  end.

(** [s.replace(old, new)] *)
Definition replace (s old new : string) : string :=
  if is_empty old then interleave new s else replace_from old new O s.

(** ** [copyfile_brainvision] *)

(** [repr] of a list of plain strings, as ['{}'.format] prints it. *)
Definition repr_list (l : list string) : string :=
  "[" +:+ join ", " ((λ s, "'" +:+ s +:+ "'") <$> l) +:+ "]".

Definition bv_ext : list string := [".eeg"; ".vhdr"; ".vmrk"].

Definition search_lines (basename_src : string) : list string :=
  ["DataFile=" +:+ basename_src +:+ ".eeg";
   "MarkerFile=" +:+ basename_src +:+ ".vmrk"].

(** The body of the loop over [lines]: what is written for one line. *)
Definition new_line (basename_src basename_dest line : string) : string :=
  if bool_decide (strip line ∈ search_lines basename_src) then
    replace line basename_src basename_dest
  else line.

(** [fname.split(os.sep)[-1]] *)
Definition basename (fname : string) : string :=
  List.last (split os_sep fname) "".

Section copyfile.

(** [_parse_ext] comes from [mne_bids.io], which is not part of this file:
    it cuts a file name into its name and its extension. *)
Variable _parse_ext : string → string * string.

Definition copyfile_brainvision (src dest : string) (w : world)
  : world * res unit :=
  if negb (os_path_exists w src) then
    (w, Raise (IOError ("File does not exist: " +:+ src +:+ nl)))
  else
    let '(fname_src, ext_src) := _parse_ext src in
    let '(fname_dest, ext_dest) := _parse_ext dest in
    if negb (bool_decide (ext_src = ext_dest)) then
      (w, Raise (ValueError ("Need to move data with same extension"
                             +:+ " but got " +:+ ext_src +:+ ", "
                             +:+ ext_dest)))
    else
      let ext := ext_src in
      if negb (bool_decide (ext ∈ bv_ext)) then
        (w, Raise (ValueError ("Expecting file ending in one of "
                               +:+ repr_list bv_ext +:+ ","
                               +:+ " but got " +:+ ext)))
      else if bool_decide (ext = ".eeg") then sh_copyfile src dest w
      else
        let basename_src := basename fname_src in
        let basename_dest := basename fname_dest in
        match read_text w src with
        | Raise e => (w, Raise e)
        | Ok content =>
            let lines := readlines (universal_newlines content) in
            match open_w dest w with
            | (w', Raise e) => (w', Raise e)
            | (w', Ok f) =>
                (fold_left
                   (λ w line, write f (new_line basename_src basename_dest
                                         line) w)
                   lines w',
                 Ok tt)
            end
        end.

End copyfile.

(** [os.path.splitext] (posixpath): the extension starts at the last dot of
    the last component, unless that dot leads the component. *)
Fixpoint rfind_dot (s : string) : option nat :=
  match s with
  | "" => None
  | String c s' =>
      match rfind_dot s' with
      | Some i => Some (S i)
      | None => if decide (c = "."%char) then Some O else None
      end
  end.

Fixpoint all_dots (s : string) : bool :=
  match s with
  | "" => true
  | String c s' => bool_decide (c = "."%char) && all_dots s'
  end.

Definition os_path_splitext (p : string) : string * string :=
  let name := basename p in
  let head := (String.length p - String.length name)%nat in
  match rfind_dot name with
  | Some i =>
      if all_dots (String.substring 0 (S i) name) then (p, "")
      else (String.substring 0 (head + i) p,
            String.substring (head + i) (String.length name - i) p)%nat
  | None => (p, "")
  end.

(** ** Vocabulary of the statements *)

(** A value holds one of the characters that [_check_key_val] refuses. *)
Definition has_unallowed (s : string) : bool :=
  existsb (λ ii, contains ii s) unallowed.

(** The entities in the order of the table of [make_bids_filename]. *)
Definition canonical
  (subject session task acquisition run processing recording space : value)
  : odict :=
  [("sub", subject); ("ses", session); ("task", task);
   ("acq", acquisition); ("run", run); ("proc", processing);
   ("space", space); ("recording", recording)].

(** The value of [run] once line 122 has formatted it. *)
Definition normalize_run (run : value) : value :=
  match run with
  | VInt n => VStr (format_02 n)
  | v => v
  end.

(** The token of an entity: none for [None], [key-value] otherwise. *)
Definition token (kv : string * value) : option string :=
  match kv.2 with
  | VNone => None
  | v => Some (kv.1 +:+ "-" +:+ str v)
  end.

Definition entity_tokens (items : odict) : list string := omap token items.

Definition suffix_tokens (suffix : value) : list string :=
  match suffix with
  | VStr s => [s]
  | _ => []
  end.

Definition with_prefix (prefix : value) (name : string) : string :=
  match prefix with
  | VStr p => os_path_join p [name]
  | _ => name
  end.

(** An entity value that passes both checks, and the same for [run], which
    may also be a natural number. *)
Definition entity_ok (v : value) : bool :=
  match v with
  | VNone => true
  | VStr s => negb (has_unallowed s)
  | VInt _ => false
  end.

Definition run_ok (v : value) : bool :=
  match v with
  | VInt n => 0 <=? n
  | v => entity_ok v
  end.

Definition str_or_None (v : value) : bool := isinstance_str v || is_None v.

(** The first entity, in the order of the table, whose value is refused. *)
Fixpoint first_unallowed (items : odict) : option (string * string) :=
  match items with
  | [] => None
  | (k, VStr s) :: rest =>
      if has_unallowed s then Some (k, s) else first_unallowed rest
  | _ :: rest => first_unallowed rest
  end.

(** A character occurs in a string; all characters satisfy a test. *)
Fixpoint occurs (c : ascii) (s : string) : bool :=
  match s with
  | "" => false
  | String a s' => bool_decide (a = c) || occurs c s'
  end.

Fixpoint all_chars (P : ascii → bool) (s : string) : bool :=
  match s with
  | "" => true
  | String a s' => P a && all_chars P s'
  end.

Definition is_digit (c : ascii) : bool :=
  let n := N_of_ascii c in ((48 <=? n) && (n <=? 57))%N.


(** [dest] can be opened for writing: it is a file already, or it is free
    and its parent is a directory. *)
Definition can_open_w (w : world) (p : string) : bool :=
  match lookup_path w p with
  | Some (File _) => true
  | Some Dir => false
  | None => negb (is_empty p) && bool_decide (parent_error w (resolve p) = None)
  end.

(** The shape of a line as [readlines] gives it: it ends in its only line
    feed, or (the last line of a text that does not end in a line feed) it
    is not empty and holds no line feed. *)
Fixpoint terminated (l : string) : bool :=
  match l with
  | "" => false
  | String c l' =>
      if is_empty l' then bool_decide (c = LF)
      else negb (bool_decide (c = LF)) && terminated l'
  end.

Definition unterminated (l : string) : bool :=
  negb (is_empty l) && negb (occurs LF l).

Fixpoint lines_wf (ls : list string) : bool :=
  match ls with
  | [] => true
  | l :: ls' =>
      match ls' with
      | [] => terminated l || unterminated l
      | _ => terminated l && lines_wf ls'
      end
  end.

(** [ls] are the lines of the text [s]: put end to end they give [s], and
    each ends at its only line feed, but for a last line without one. *)
Definition lines_of (s : string) (ls : list string) : Prop :=
  String.concat "" ls = s ∧ lines_wf ls = true.

(** A segment that [os.path.join] joins with exactly one separator. *)
Definition plain_segment (s : string) : bool :=
  negb (is_empty s) && negb (startswith s (String os_sep ""))
  && negb (endswith_char s os_sep).

(** The optional segments of a folder path. *)
Definition optional_segment (pre : string) (v : value) : list string :=
  match v with
  | VStr s => [pre +:+ s]
  | _ => []
  end.

(** ** Sample recordings *)

(** A text given by its lines, each closed by a line feed. *)
Definition text (lines : list string) : string :=
  String.concat "" ((λ l, l +:+ nl) <$> lines).

(** The header and the marker file of a recording [foo], as
    [make_test_brainvision_data] writes them, in a directory [rec] next to
    an empty directory [out]. *)
Definition header_foo : string :=
  text ["Brain Vision Data Exchange Header File Version 1.0"; "";
        "[Common Infos]"; "DataFile=foo.eeg"; "MarkerFile=foo.vmrk";
        "DataFormat=BINARY"].

Definition markers_foo : string :=
  text ["Brain Vision Data Exchange Marker File, Version 1.0"; "";
        "[Common Infos]"; "DataFile=foo.eeg"; ""; "[Marker Infos]";
        "Mk1=Stimulus,S1,500,1,0"].

Definition recording_foo : world :=
  {| files := <[ ["rec"; "foo.vhdr"] := File header_foo ]>
              (<[ ["rec"; "foo.vmrk"] := File markers_foo ]>
               (<[ ["rec"] := Dir ]> (<[ ["out"] := Dir ]> ∅)));
     stdout := [] |}.

(** A header whose data line is indented and followed by a blank, and a
    marker file that names itself. *)
Definition padded_header : world :=
  {| files := <[ ["foo.vhdr"] := File (text ["  DataFile=foo.eeg "]) ]> ∅;
     stdout := [] |}.

(** A header written with CR LF line ends. *)
Definition crlf : string := String CR (String LF "").

Definition crlf_header : world :=
  {| files := <[ ["foo.vhdr"] :=
                   File ("[Common Infos]" +:+ crlf
                         +:+ "DataFile=foo.eeg" +:+ crlf
                         +:+ "MarkerFile=foo.vmrk" +:+ crlf) ]> ∅;
     stdout := [] |}.

Definition self_naming_markers : world :=
  {| files := <[ ["foo.vmrk"] :=
                   File (text ["DataFile=foo.eeg"; "MarkerFile=foo.vmrk"]) ]> ∅;
     stdout := [] |}.

(** ** Vocabulary of the further properties *)

(** Reading a name back: the tokens between [_], each cut at [-]. *)
Definition parse_bids_filename (name : string) : list (list string) :=
  split "-" <$> split "_" name.

(** The key and the value of every entity that is given. *)
Definition given (items : odict) : list (list string) :=
  omap (λ kv, match kv.2 with
              | VNone => None
              | v => Some [kv.1; str v]
              end) items.

(** The directories above [done ++ todo] that [os.makedirs] looks at, when
    it has come as far as [done]. *)
Fixpoint ancestors_from (done todo : list string) : list (list string) :=
  match todo with
  | [] => []
  | c :: rest =>
      match rest with
      | [] => []
      | _ => (done ++ [c]) :: ancestors_from (done ++ [c]) rest
      end
  end.

Definition ancestors (key : list string) : list (list string) :=
  ancestors_from [] key.

(** [s[n:]] *)
Fixpoint skip_chars (n : nat) (s : string) : string :=
  match n, s with
  | S k, String _ s' => skip_chars k s'
  | _, _ => s
  end.

(** The fixed text of the two reference lines. A basename is plain when
    its first character is no white space and occurs nowhere in that text,
    and when it holds no line feed: [replace] then finds it in a reference
    line at its own place only. *)
Definition fixed_chars : string :=
  "DataFile=" +:+ ".eeg" +:+ "MarkerFile=" +:+ ".vmrk".

Definition plain_basename (b : string) : bool :=
  match b with
  | "" => false
  | String a _ => negb (occurs a fixed_chars) && negb (is_space a)
  end && negb (occurs LF b).

(** ** [make_dataset_description] and [_write_json] *)

(** A field of the description: [None], a string or a list of strings. *)
Inductive field : Type :=
  | FNone
  | FStr (s : string)
  | FList (l : list string).

Global Instance field_eq_dec : EqDecision field.
Proof. solve_decision. Defined.

(** [s.split(sep)] for a separator that is not empty: the pieces between
    the occurrences of [sep], found from left to right; [skip] counts the
    characters of an occurrence still to be passed over. *)
Fixpoint split_from (sep : string) (skip : nat) (s : string) : list string :=
  match s with
  | "" => [""]
  | String c s' =>
      match skip with
      | S k => split_from sep k s'
      | O =>
          if String.prefix sep s then
            "" :: split_from sep (String.length sep - 1) s'
          else match split_from sep O s' with
               | [] => [String c ""]
               | p :: ps => String c p :: ps
               end
      end
  end.

Definition split_str (s sep : string) : list string := split_from sep O s.

(** A string argument becomes the list of its pieces (lines 249 to 254). *)
Definition split_field (v : field) : field :=
  match v with
  | FStr s => FList (split_str s ", ")
  | _ => v
  end.

(** An [OrderedDict] of fields and [d.pop(key)]. *)
Definition fdict : Type := list (string * field).

Fixpoint pop (d : fdict) (key : string) : fdict :=
  match d with
  | [] => []
  | (k, v) :: d' => if decide (k = key) then d' else (k, v) :: pop d' key
  end.

Section description.

(** [BIDS_VERSION] comes from [mne_bids.config]; [json_dumps d] stands for
    [json.dumps(d, indent=4)] of the standard library. *)
Variable BIDS_VERSION : string.
Variable json_dumps : fdict → string.

Definition _write_json (dictionary : fdict) (fname : string) (verbose : bool)
  (w : world) : world * res unit :=
  let json_output := json_dumps dictionary in
  match open_w fname w with
  | (w', Raise e) => (w', Raise e)
  | (w', Ok fid) =>
      let w' := write fid json_output w' in
      let w' := write fid nl w' in
      let w' :=
        if verbose then
          print json_output
            (print (nl +:+ "Writing '" +:+ fname +:+ "'..." +:+ nl) w')
        else w' in
      (w', Ok tt)
  end.

Definition description_table
  (name data_license authors acknowledgements how_to_acknowledge funding
     references_and_links doi : field) : fdict :=
  [("Name", name); ("BIDSVersion", FStr BIDS_VERSION);
   ("License", data_license); ("Authors", authors);
   ("Acknowledgements", acknowledgements);
   ("HowToAcknowledge", how_to_acknowledge); ("Funding", funding);
   ("ReferencesAndLinks", references_and_links); ("DatasetDOI", doi)].

Definition make_dataset_description (path : string)
  (name data_license authors acknowledgements how_to_acknowledge funding
     references_and_links doi : field) (verbose : bool) (w : world)
  : world * res unit :=
  let authors := split_field authors in
  let funding := split_field funding in
  let references_and_links := split_field references_and_links in
  let fname := os_path_join path ["dataset_description.json"] in
  let description :=
    description_table name data_license authors acknowledgements
      how_to_acknowledge funding references_and_links doi in
  let pop_keys := (filter (λ kv, kv.2 = FNone) description).*1 in
  let description := fold_left pop pop_keys description in
  _write_json description fname verbose w.

End description.

(** [json.dumps(d, indent=4)] for a dictionary of fields, as Python 3
    prints it: the keys and strings between double quotes, with the
    characters outside the printable ASCII range, the double quote and the
    backslash escaped; a list with one item a line. *)
Definition hex_digit (n : N) : ascii :=
  match String.get (N.to_nat n) "0123456789abcdef" with
  | Some c => c
  | None => "0"%char
  end.

Definition json_escape (c : ascii) : string :=
  let n := N_of_ascii c in
  let backslash := "092"%char in
  if (n =? 34)%N then String backslash (String "034" "")
  else if (n =? 92)%N then String backslash (String backslash "")
  else if (n =? 8)%N then String backslash "b"
  else if (n =? 12)%N then String backslash "f"
  else if (n =? 10)%N then String backslash "n"
  else if (n =? 13)%N then String backslash "r"
  else if (n =? 9)%N then String backslash "t"
  else if ((32 <=? n) && (n <=? 126))%N then String c ""
  else String backslash
         ("u00" +:+ String (hex_digit (n / 16)) (String (hex_digit (n mod 16)) "")).

Fixpoint json_escape_all (s : string) : string :=
  match s with
  | "" => ""
  | String c s' => json_escape c +:+ json_escape_all s'
  end.

Definition json_str (s : string) : string :=
  String "034" (json_escape_all s +:+ String "034" "").

Definition json_field (v : field) : string :=
  match v with
  | FNone => "null"
  | FStr s => json_str s
  | FList [] => "[]"
  | FList l =>
      "[" +:+ nl +:+ "        "
      +:+ join ("," +:+ nl +:+ "        ") (json_str <$> l)
      +:+ nl +:+ "    " +:+ "]"
  end.

Definition json_dumps_indent4 (d : fdict) : string :=
  match d with
  | [] => "{}"
  | _ =>
      "{" +:+ nl +:+ "    "
      +:+ join ("," +:+ nl +:+ "    ")
            ((λ kv, json_str kv.1 +:+ ": " +:+ json_field kv.2) <$> d)
      +:+ nl +:+ "}"
  end.

(** ** [print_dir_tree] *)

(** [n * s] *)
Fixpoint repeat_str (n : nat) (s : string) : string :=
  match n with
  | O => ""
  | S k => s +:+ repeat_str k s
  end.

(** [print(a, b)] *)
Definition print2 (a b : string) (w : world) : world :=
  print (a +:+ " " +:+ b) w.

(** The number of times a character occurs. *)
Fixpoint count_char (c : ascii) (s : string) : nat :=
  match s with
  | "" => O
  | String a s' => (if decide (a = c) then 1 else 0) + count_char c s'
  end.

Section tree.

(** [os_walk w dir] stands for the triples [(root, dirs, files)] that
    [os.walk(dir)] yields in the world [w]; their order is the one of the
    operating system. *)
Variable os_walk : world → string → list (string * list string * list string).

Definition print_dir_tree (dir : string) (w : world) : world :=
  fold_left
    (λ w '(root, dirs, files),
       let path := split os_sep root in
       let w := print2 (repeat_str (length path - 1) "-----")
                  (basename root) w in
       fold_left
         (λ w file, print2 (repeat_str (length path) "-----") file w)
         files w)
    (os_walk w dir) w.

End tree.

(** The lines that [print_dir_tree] prints for one directory of the walk. *)
Definition tree_lines (entry : string * list string * list string)
  : list string :=
  let '(root, _, files) := entry in
  let depth := count_char os_sep root in
  (repeat_str depth "-----" +:+ " " +:+ basename root)
  :: ((λ file, repeat_str (S depth) "-----" +:+ " " +:+ file) <$> files).
(** ** The embedding on concrete inputs *)

Example format_02_values :
  format_02 0 = "00" ∧ format_02 7 = "07" ∧ format_02 42 = "42"
  ∧ format_02 100 = "100" ∧ format_02 (-7) = "-7".
Proof. by repeat split. Qed.

Example strip_values :
  strip ("  DataFile=foo.eeg " +:+ nl) = "DataFile=foo.eeg"
  ∧ strip "DataFile = foo.eeg" = "DataFile = foo.eeg"
  ∧ strip nl = "".
Proof. by repeat split. Qed.

Example replace_values :
  replace "DataFile=foo.eeg" "foo" "bar" = "DataFile=bar.eeg"
  ∧ replace "foofoo.foo" "foo" "x" = "xx.x"
  ∧ replace "aaaa" "aa" "b" = "bb"
  ∧ replace "fofoo" "foo" "bar" = "fobar"
  ∧ replace "abc" "" "-" = "-a-b-c-".
Proof. by repeat split. Qed.

Example readlines_values :
  readlines ("a" +:+ nl +:+ nl +:+ "b") = ["a" +:+ nl; nl; "b"]
  ∧ readlines ("a" +:+ nl) = ["a" +:+ nl]
  ∧ readlines "" = [].
Proof. by repeat split. Qed.

Example universal_newlines_values :
  universal_newlines ("a" +:+ crlf +:+ "b" +:+ nl) = "a" +:+ nl +:+ "b" +:+ nl
  ∧ universal_newlines
      (String "a" (String CR (String "b" (String CR (String CR (String LF
         (String "c" (String LF (String CR (String "d" ""))))))))))
    = "a" +:+ nl +:+ "b" +:+ nl +:+ nl +:+ "c" +:+ nl +:+ nl +:+ "d"
  ∧ readlines (universal_newlines ("a" +:+ crlf +:+ "b"))
    = ["a" +:+ nl; "b"].
Proof. by repeat split. Qed.

Example split_values :
  split os_sep "a/b//c" = ["a"; "b"; ""; "c"]
  ∧ basename "path/to/foo" = "foo" ∧ basename "foo" = "foo"
  ∧ basename "path/" = "".
Proof. by repeat split. Qed.

Example os_path_join_values :
  os_path_join "proj" ["sub-01"; "ses-s1"; "meg"] = "proj/sub-01/ses-s1/meg"
  ∧ os_path_join "proj/" ["sub-01"] = "proj/sub-01"
  ∧ os_path_join "" ["sub-01"] = "sub-01"
  ∧ os_path_join "proj" ["/abs"; "meg"] = "/abs/meg".
Proof. by repeat split. Qed.

Example os_path_splitext_values :
  os_path_splitext "rec/foo.vhdr" = ("rec/foo", ".vhdr")
  ∧ os_path_splitext "rec.d/foo" = ("rec.d/foo", "")
  ∧ os_path_splitext "foo.tar.gz" = ("foo.tar", ".gz")
  ∧ os_path_splitext ".hidden" = (".hidden", "").
Proof. by repeat split. Qed.

Example make_bids_filename_values :
  make_bids_filename (VStr "test") (VStr "two") (VStr "mytask") VNone VNone
    VNone VNone VNone (VStr "data.csv") VNone
  = Ok "sub-test_ses-two_task-mytask_data.csv"
  ∧ make_bids_filename (VStr "01") VNone VNone VNone (VInt 3) VNone
      (VStr "rec") (VStr "mni") VNone (VStr "proj/")
    = Ok "proj/sub-01_run-03_space-mni_recording-rec"
  ∧ make_bids_filename (VInt 1) VNone VNone VNone VNone VNone VNone VNone
      VNone VNone
    = Raise (ValueError ("All values must be either None or strings. "
                         +:+ "Found type <class 'int'>."))
  ∧ make_bids_filename (VStr "a") VNone VNone VNone (VInt (-7)) VNone VNone
      VNone VNone VNone
    = Raise (ValueError ("Unallowed `-`, `_`, or `/` found in key/value pair"
                         +:+ " run: -7")).
Proof. by repeat split. Qed.

Example make_bids_folders_values :
  (make_bids_folders (VStr "01") (VStr "s1") (VStr "meg") (VStr "proj")
     true true true recording_foo).2 = Ok "proj/sub-01/ses-s1/meg"
  ∧ os_path_isdir
      (make_bids_folders (VStr "01") (VStr "s1") (VStr "meg") (VStr "proj")
         true true true recording_foo).1 "proj/sub-01/ses-s1/meg" = true
  ∧ stdout
      (make_bids_folders (VStr "01") (VStr "s1") (VStr "meg") (VStr "proj")
         true true true recording_foo).1
    = ["Creating folder: proj/sub-01/ses-s1/meg"]
  ∧ (make_bids_folders (VStr "01") (VStr "my_session") VNone VNone
       false true false recording_foo).2
    = Raise (ValueError ("Unallowed `-`, `_`, or `/` found in key/value pair"
                         +:+ " ses: my_session")).
Proof. by vm_compute. Qed.

Example _mkdir_p_values :
  files (_mkdir_p "rec" true true recording_foo).1
  = <[ ["rec"] := Dir ]> (<[ ["out"] := Dir ]> ∅)
  ∧ stdout (_mkdir_p "rec" true true recording_foo).1
    = ["Overwriting path: rec"; "Creating folder: rec"]
  ∧ _mkdir_p "rec" false true recording_foo = (recording_foo, Ok tt)
  ∧ (_mkdir_p "rec/foo.vhdr" false false recording_foo).2
    = Raise (OSError EEXIST "rec/foo.vhdr")
  ∧ (_mkdir_p "rec/foo.vhdr/sub" false false recording_foo).2
    = Raise (OSError ENOTDIR "rec/foo.vhdr/sub")
  ∧ (_mkdir_p "./rec/foo.vhdr" false false recording_foo).2
    = Raise (OSError EEXIST "./rec/foo.vhdr")
  ∧ (_mkdir_p "./rec//foo.vhdr/sub/./x" false false recording_foo).2
    = Raise (OSError ENOTDIR "./rec//foo.vhdr/sub").
Proof. by vm_compute. Qed.

Example copyfile_brainvision_values :
  read_text
    (copyfile_brainvision os_path_splitext "rec/foo.vmrk" "out/bar.vmrk"
       recording_foo).1 "out/bar.vmrk"
  = Ok (text ["Brain Vision Data Exchange Marker File, Version 1.0"; "";
              "[Common Infos]"; "DataFile=bar.eeg"; ""; "[Marker Infos]";
              "Mk1=Stimulus,S1,500,1,0"])
  ∧ (copyfile_brainvision os_path_splitext "rec/foo.vmrk" "new/bar.vmrk"
       recording_foo).2
    = Raise (OSError ENOENT "new/bar.vmrk")
  ∧ (copyfile_brainvision os_path_splitext "rec/foo.vhdr" "rec/foo.vhdr"
       recording_foo).2 = Ok tt
  ∧ read_text
      (copyfile_brainvision os_path_splitext "foo.vhdr" "bar.vhdr"
         crlf_header).1 "bar.vhdr"
    = Ok (text ["[Common Infos]"; "DataFile=bar.eeg"; "MarkerFile=bar.vmrk"]).
Proof. by vm_compute. Qed.

(** ** Lemmas on strings *)

Lemma app_String (c : ascii) (s t : string) :
  String c s +:+ t = String c (s +:+ t).
Proof. reflexivity. Qed.

Lemma app_empty_l (s : string) : "" +:+ s = s.
Proof. reflexivity. Qed.

Lemma app_empty_r (s : string) : s +:+ "" = s.
Proof. induction s as [|c s IH]; [done|]. by rewrite app_String, IH. Qed.

Lemma app_assoc_s (s t u : string) : (s +:+ t) +:+ u = s +:+ t +:+ u.
Proof.
  induction s as [|c s IH]; [done|]. by rewrite !app_String, IH.
Qed.

Lemma length_app_s (s t : string) :
  String.length (s +:+ t) = (String.length s + String.length t)%nat.
Proof.
  induction s as [|c s IH]; [done|]. rewrite app_String. cbn. by rewrite IH.
Qed.

Lemma prefix_char (c a : ascii) (s : string) :
  String.prefix (String c "") (String a s) = bool_decide (a = c).
Proof.
  simpl. destruct (ascii_dec c a) as [->|Hne].
  - rewrite bool_decide_eq_true_2 by done. by destruct s.
  - by rewrite bool_decide_eq_false_2 by congruence.
Qed.

Lemma contains_char (c : ascii) (s : string) :
  contains (String c "") s = occurs c s.
Proof.
  induction s as [|a s IH]; [done|].
  cbn [contains occurs]. by rewrite prefix_char, IH.
Qed.

Lemma has_unallowed_occurs (s : string) :
  has_unallowed s = occurs "-" s || occurs "_" s || occurs "/" s.
Proof.
  unfold has_unallowed, unallowed. cbn [existsb].
  rewrite !contains_char. by rewrite orb_false_r, orb_assoc.
Qed.

Lemma occurs_app (c : ascii) (s t : string) :
  occurs c (s +:+ t) = occurs c s || occurs c t.
Proof.
  induction s as [|a s IH]; [done|].
  rewrite app_String. cbn [occurs]. by rewrite IH, orb_assoc.
Qed.

Lemma occurs_all_chars (P : ascii → bool) (c : ascii) (s : string) :
  P c = false → all_chars P s = true → occurs c s = false.
Proof.
  intros Hc. induction s as [|a s IH]; [done|].
  cbn [all_chars occurs]. intros [Ha Hs]%andb_prop.
  rewrite IH, orb_false_r by done.
  apply bool_decide_eq_false_2. intros ->. congruence.
Qed.

Lemma string_of_uint_digits (d : Decimal.uint) :
  all_chars is_digit (NilEmpty.string_of_uint d) = true.
Proof. induction d; simpl; auto. Qed.

Lemma str_int_digits (n : Z) : 0 ≤ n → all_chars is_digit (str_int n) = true.
Proof.
  intros Hn. unfold str_int. destruct n as [|p|p]; [done| |lia].
  simpl. destruct (Pos.to_uint p) eqn:E; try apply string_of_uint_digits.
  reflexivity.
Qed.

Lemma all_chars_app (P : ascii → bool) (s t : string) :
  all_chars P (s +:+ t) = all_chars P s && all_chars P t.
Proof.
  induction s as [|a s IH]; [done|].
  rewrite app_String. cbn [all_chars]. by rewrite IH, andb_assoc.
Qed.

Lemma all_chars_replicate (P : ascii → bool) (k : nat) (c : ascii) :
  P c = true → all_chars P (replicate_char k c) = true.
Proof. intros Hc. induction k as [|k IH]; [done|]. simpl. by rewrite Hc. Qed.

Lemma format_02_nonneg (n : Z) :
  0 ≤ n →
  format_02 n
  = replicate_char (2 - String.length (str_int n)) "0" +:+ str_int n.
Proof.
  intros Hn. unfold format_02, format_zero_width.
  destruct (Z.ltb_spec n 0) as [?|_]; [lia|].
  rewrite Z.abs_eq by done. reflexivity.
Qed.

Lemma format_02_digits (n : Z) :
  0 ≤ n → all_chars is_digit (format_02 n) = true.
Proof.
  intros Hn. rewrite format_02_nonneg by done.
  rewrite all_chars_app, all_chars_replicate by done.
  by apply str_int_digits.
Qed.

Lemma digits_allowed (s : string) :
  all_chars is_digit s = true → has_unallowed s = false.
Proof.
  intros Hs. rewrite has_unallowed_occurs.
  by rewrite !(occurs_all_chars is_digit _ s) by done.
Qed.

Lemma run_ok_normalize (run : value) :
  run_ok run = true → entity_ok (normalize_run run) = true.
Proof.
  destruct run as [|s|n]; [done..|].
  unfold run_ok, normalize_run, entity_ok. intros Hn%Z.leb_le.
  by rewrite digits_allowed by (by apply format_02_digits).
Qed.

(** ** Lemmas on the checks and on the loop of [make_bids_filename] *)

Lemma check_types_ok (variables : list value) :
  Forall (λ v, str_or_None v = true) variables →
  _check_types variables = Ok tt.
Proof.
  induction 1 as [|v vs Hv _ IH]; [done|].
  cbn [_check_types]. unfold str_or_None in Hv. by rewrite Hv.
Qed.

Lemma check_types_raise (variables : list value) :
  Exists (λ v, str_or_None v = false) variables →
  ∃ v, v ∈ variables ∧
       _check_types variables
       = Raise (ValueError ("All values must be either None or strings. "
                            +:+ "Found type " +:+ type_repr v +:+ ".")).
Proof.
  induction variables as [|v vs IH]; intros Hex; [by inversion Hex|].
  cbn [_check_types]. destruct (str_or_None v) eqn:Hv.
  - unfold str_or_None in Hv. rewrite Hv. cbn [negb].
    destruct IH as (v' & Hin & ->).
    + inversion Hex; subst; [unfold str_or_None in *; congruence|done].
    + exists v'. split; [by right|done].
  - unfold str_or_None in Hv. rewrite Hv. exists v. split; [by left|done].
Qed.

Lemma entity_ok_str_or_None (v : value) :
  entity_ok v = true → str_or_None v = true.
Proof. by destruct v. Qed.

Lemma check_key_val_ok (key s : string) :
  has_unallowed s = false → _check_key_val key (VStr s) = Ok (key, VStr s).
Proof. unfold has_unallowed, _check_key_val. by intros ->. Qed.

Lemma check_key_val_raise (key s : string) :
  has_unallowed s = true →
  _check_key_val key (VStr s) = Raise (ValueError (key_val_msg key (VStr s))).
Proof. unfold has_unallowed, _check_key_val. by intros ->. Qed.

Lemma filename_tokens_ok (items : odict) (filename : list string) :
  Forall (λ kv, entity_ok kv.2 = true) items →
  filename_tokens items filename = Ok (filename ++ entity_tokens items).
Proof.
  intros Hall. revert filename.
  induction Hall as [|[k v] rest Hv _ IH]; intros filename.
  - by rewrite app_nil_r.
  - cbn [filename_tokens]. destruct v as [|s|n]; cbn in Hv; [|..|done].
    + apply IH.
    + apply negb_true_iff in Hv. cbn [is_None negb].
      rewrite check_key_val_ok by done. cbn [mbind res_bind].
      rewrite IH. by rewrite <- app_assoc.
Qed.

Lemma filename_tokens_raise (items : odict) (filename : list string)
    (k s : string) :
  Forall (λ kv, str_or_None kv.2 = true) items →
  first_unallowed items = Some (k, s) →
  filename_tokens items filename
  = Raise (ValueError (key_val_msg k (VStr s))).
Proof.
  intros Hall. revert filename.
  induction Hall as [|[k' v] rest Hv _ IH]; intros filename Hfirst; [done|].
  cbn [filename_tokens first_unallowed] in *.
  destruct v as [|s'|n]; [by apply IH| |done].
  cbn [is_None negb]. destruct (has_unallowed s') eqn:Hs'.
  - injection Hfirst as -> ->. by rewrite check_key_val_raise.
  - rewrite check_key_val_ok by done. cbn [mbind res_bind]. by apply IH.
Qed.

Lemma first_unallowed_Some (items : odict) (key s : string) :
  (key, VStr s) ∈ items → has_unallowed s = true →
  ∃ k' s', first_unallowed items = Some (k', s')
           ∧ (k', VStr s') ∈ items ∧ has_unallowed s' = true.
Proof.
  intros Hin Hs. induction items as [|[k v] rest IH]; [by inversion Hin|].
  cbn [first_unallowed].
  assert (Hrest : (key, VStr s) ∈ rest →
    ∃ k' s', first_unallowed rest = Some (k', s')
             ∧ (k', VStr s') ∈ (k, v) :: rest ∧ has_unallowed s' = true).
  { intros H. destruct (IH H) as (k' & s' & ? & ? & ?).
    exists k', s'. repeat split; [done|by right|done]. }
  destruct v as [|s0|n].
  - apply Hrest. by inversion Hin; subst.
  - destruct (has_unallowed s0) eqn:Hs0.
    + exists k, s0. repeat split; [by left|done].
    + apply Hrest. inversion Hin; subst; [congruence|done].
  - apply Hrest. by inversion Hin; subst.
Qed.

Lemma check_types_cases (variables : list value) :
  _check_types variables = Ok tt
  ∨ ∃ v, _check_types variables
         = Raise (ValueError ("All values must be either None or strings. "
                              +:+ "Found type " +:+ type_repr v +:+ ".")).
Proof.
  induction variables as [|v vs IH]; [by left|].
  cbn [_check_types]. destruct (negb _); [right; by exists v|done].
Qed.

Lemma filename_tokens_cases (items : odict) (filename : list string) :
  (∃ tokens, filename_tokens items filename = Ok tokens)
  ∨ (∃ k v, filename_tokens items filename
            = Raise (ValueError (key_val_msg k v)))
  ∨ (∃ msg, filename_tokens items filename = Raise (TypeError msg)).
Proof.
  revert filename. induction items as [|[k v] rest IH]; intros filename.
  - left. by eexists.
  - cbn [filename_tokens]. destruct v as [|s|n]; cbn [is_None negb].
    + apply IH.
    + unfold _check_key_val. destruct (existsb _ _).
      * right. left. by exists k, (VStr s).
      * cbn [mbind res_bind]. apply IH.
    + right. right. by eexists.
Qed.

(** The function in terms of its table, once [run] is formatted. *)
Lemma make_bids_filename_unfold
    (subject session task acquisition run processing recording space
       suffix prefix : value) :
  make_bids_filename subject session task acquisition run processing
    recording space suffix prefix
  = let order := canonical subject session task acquisition
                   (normalize_run run) processing recording space in
    _check_types (values order) ;;
    filename ← filename_tokens order [];
    Ok (with_prefix prefix (join "_" (filename ++ suffix_tokens suffix))).
Proof.
  unfold make_bids_filename, canonical.
  destruct run as [|s|n]; cbn -[_check_types filename_tokens join format_02];
    (destruct (_check_types _); [|done]);
    cbn -[filename_tokens join format_02];
    (destruct (filename_tokens _ _); [|done]);
    cbn -[join format_02];
    destruct suffix, prefix; cbn -[join format_02];
    by rewrite ?app_nil_r.
Qed.

Lemma make_bids_filename_ok
    (subject session task acquisition run processing recording space
       suffix prefix : value) :
  Forall (λ v, entity_ok v = true)
    [subject; session; task; acquisition; processing; recording; space] →
  run_ok run = true →
  make_bids_filename subject session task acquisition run processing
    recording space suffix prefix
  = Ok (with_prefix prefix
          (join "_"
             (entity_tokens
                (canonical subject session task acquisition
                   (normalize_run run) processing recording space)
              ++ suffix_tokens suffix))).
Proof.
  intros Hall Hrun. apply run_ok_normalize in Hrun.
  rewrite !Forall_cons in Hall.
  destruct Hall as (? & ? & ? & ? & ? & ? & ? & _).
  rewrite make_bids_filename_unfold. cbv zeta.
  rewrite check_types_ok.
  2:{ unfold canonical, values. cbn [fmap list_fmap snd].
      repeat (apply Forall_cons; split; [by apply entity_ok_str_or_None|]).
      apply Forall_nil_2. }
  cbn [mbind res_bind]. rewrite filename_tokens_ok.
  2:{ unfold canonical. repeat (apply Forall_cons; split; [done|]).
      apply Forall_nil_2. }
  reflexivity.
Qed.

(** ** Lemmas on the padding of [run] *)

Lemma str_int_small (n : Z) : 0 ≤ n < 10 → String.length (str_int n) = 1%nat.
Proof.
  intros Hn.
  assert (n = 0 ∨ n = 1 ∨ n = 2 ∨ n = 3 ∨ n = 4 ∨ n = 5 ∨ n = 6 ∨ n = 7
          ∨ n = 8 ∨ n = 9) as Hcases by lia.
  repeat (destruct Hcases as [->|Hcases]; [reflexivity|]).
  by subst.
Qed.

Lemma str_int_large (n : Z) : 10 ≤ n → (2 ≤ String.length (str_int n))%nat.
Proof.
  intros Hn. destruct n as [|p|p]; [lia| |lia].
  unfold str_int. cbn [Z.to_int NilZero.string_of_int].
  pose proof (DecimalPos.Unsigned.of_to p) as Hp.
  destruct (Pos.to_uint p) as [|d|d|d|d|d|d|d|d|d|d] eqn:E;
    [by destruct p|..];
    (destruct d;
       [cbn in Hp; first [discriminate Hp|injection Hp as <-; lia]
       |cbn; lia..]).
Qed.

Lemma format_02_small (n : Z) : 0 ≤ n < 10 → format_02 n = "0" +:+ str_int n.
Proof.
  intros Hn. rewrite format_02_nonneg by lia.
  by rewrite str_int_small by done.
Qed.

Lemma format_02_large (n : Z) : 10 ≤ n → format_02 n = str_int n.
Proof.
  intros Hn. rewrite format_02_nonneg by lia.
  pose proof (str_int_large n Hn) as Hlen.
  by replace (2 - String.length (str_int n))%nat with 0%nat by lia.
Qed.

Lemma format_02_length (n : Z) : (2 ≤ String.length (format_02 n))%nat.
Proof.
  destruct (Z.lt_ge_cases n 0) as [Hneg|Hpos].
  - unfold format_02, format_zero_width.
    destruct (Z.ltb_spec n 0) as [_|?]; [|lia].
    rewrite !length_app_s. cbn [String.length].
    assert (1 ≤ String.length (str_int (Z.abs n)))%nat; [|lia].
    destruct (Z.lt_ge_cases (Z.abs n) 10).
    + rewrite str_int_small; lia.
    + pose proof (str_int_large (Z.abs n)). lia.
  - destruct (Z.lt_ge_cases n 10).
    + rewrite format_02_small, length_app_s by lia.
      rewrite str_int_small by lia. cbn. lia.
    + rewrite format_02_large by done. by apply str_int_large.
Qed.

(** ** Lemmas on keyword arguments *)

Lemma argument_Permutation (kwargs kwargs' : list (string * value))
    (name : string) :
  NoDup kwargs.*1 → kwargs ≡ₚ kwargs' →
  argument kwargs' name = argument kwargs name.
Proof.
  intros Hnodup Hperm. unfold argument.
  by rewrite (list_to_map_proper (M:=gmap string) kwargs kwargs').
Qed.

Lemma list_find_parameters (ks : list string) :
  Forall (λ k, k ∈ parameters) ks →
  list_find (λ k, k ∉ parameters) ks = None.
Proof.
  intros Hall. apply list_find_None.
  eapply Forall_impl; [exact Hall|]. intros k Hk Hn. by apply Hn.
Qed.

(** ** Lemmas on the file system *)

Lemma set_files_set_files (f g : gmap (list string) node → gmap (list string) node)
    (w : world) :
  set_files f (set_files g w) = set_files (f ∘ g) w.
Proof. reflexivity. Qed.

Lemma write_insert (f : list string) (c s : string) (w : world) :
  write f s (set_files (insert f (File c)) w)
  = set_files (insert f (File (c +:+ s))) w.
Proof.
  unfold write. rewrite set_files_set_files. unfold set_files. f_equal.
  cbn. by rewrite alter_insert_eq.
Qed.

Lemma fold_write (f : list string) (g : string → string) (lines : list string)
    (c : string) (w : world) :
  fold_left (λ w line, write f (g line) w) lines
    (set_files (insert f (File c)) w)
  = set_files (insert f (File (c +:+ String.concat "" (g <$> lines)))) w.
Proof.
  revert c. induction lines as [|l ls IH]; intros c.
  - cbn. by rewrite app_empty_r.
  - cbn [fold_left]. rewrite write_insert, IH. do 3 f_equal.
    rewrite app_assoc_s. f_equal.
    cbn [fmap list_fmap String.concat]. destruct (g <$> ls) eqn:E; [|done].
    by rewrite app_empty_r.
Qed.

Lemma can_open_w_resolve (w : world) (p : string) :
  can_open_w w p = true → is_empty p = false ∧ resolve p ≠ [].
Proof.
  unfold can_open_w, lookup_path, lookup_key.
  destruct (is_empty p) eqn:Hp; [done|].
  destruct (resolve p) eqn:Hr; [done|]. done.
Qed.

Lemma open_w_ok (w : world) (p : string) :
  can_open_w w p = true →
  open_w p w = (set_files (insert (resolve p) (File "")) w, Ok (resolve p)).
Proof.
  unfold can_open_w, open_w. destruct (lookup_path w p) as [[c|]|]; [done..|].
  intros [Hp Hparent]%andb_prop. apply negb_true_iff in Hp. rewrite Hp.
  apply bool_decide_eq_true_1 in Hparent. by rewrite Hparent.
Qed.

Lemma read_text_insert (w : world) (p content : string) :
  is_empty p = false → resolve p ≠ [] →
  read_text (set_files (insert (resolve p) (File content)) w) p = Ok content.
Proof.
  intros Hp Hr. unfold read_text, lookup_path, lookup_key. rewrite Hp.
  destruct (resolve p) as [|c key] eqn:E; [done|].
  cbn [files set_files]. by rewrite lookup_insert_eq.
Qed.

Lemma read_text_exists (w : world) (p content : string) :
  read_text w p = Ok content → os_path_exists w p = true.
Proof.
  unfold read_text, os_path_exists.
  destruct (lookup_path w p) as [[c|]|]; [|done..].
  intros _. by apply bool_decide_eq_true_2.
Qed.

(** ** Lemmas on [readlines] *)

Lemma is_empty_true (s : string) : is_empty s = true → s = "".
Proof. by destruct s. Qed.

Lemma is_empty_app (s t : string) :
  is_empty (s +:+ t) = is_empty s && is_empty t.
Proof. by destruct s. Qed.

Lemma terminated_nonempty (l : string) : terminated l = true → is_empty l = false.
Proof. by destruct l. Qed.

Lemma concat_cons (l : string) (ls : list string) :
  String.concat "" (l :: ls) = l +:+ String.concat "" ls.
Proof. destruct ls; cbn [String.concat]; [by rewrite app_empty_r|done]. Qed.

Lemma concat_readlines (s : string) : String.concat "" (readlines s) = s.
Proof.
  induction s as [|c s IH]; [done|]. cbn [readlines].
  destruct (decide (c = LF)) as [->|Hc].
  - by rewrite concat_cons, IH.
  - destruct (readlines s) as [|l ls]; [by rewrite <- IH|].
    rewrite concat_cons in *. by rewrite app_String, IH.
Qed.

Lemma readlines_terminated (l rest : string) :
  terminated l = true → readlines (l +:+ rest) = l :: readlines rest.
Proof.
  induction l as [|c l IH]; [done|]. cbn [terminated].
  rewrite app_String. cbn [readlines].
  destruct (is_empty l) eqn:Hl.
  - apply is_empty_true in Hl as ->. intros ->%bool_decide_eq_true_1.
    by rewrite decide_True by done.
  - intros [Hc Ht]%andb_prop. apply negb_true_iff, bool_decide_eq_false_1 in Hc.
    rewrite decide_False by done. by rewrite IH.
Qed.

Lemma readlines_unterminated (l : string) :
  unterminated l = true → readlines l = [l].
Proof.
  unfold unterminated. induction l as [|c l IH]; [done|].
  cbn [is_empty negb occurs andb readlines].
  intros [Hc Hl]%negb_true_iff%orb_false_elim.
  apply bool_decide_eq_false_1 in Hc. rewrite decide_False by done.
  destruct l as [|c' l']; [done|]. rewrite IH; [done|].
  cbn [is_empty negb andb]. by rewrite Hl.
Qed.

Lemma lines_wf_cons (l : string) (ls : list string) :
  lines_wf (l :: ls) = true →
  (ls = [] ∧ (terminated l = true ∨ unterminated l = true))
  ∨ (ls ≠ [] ∧ terminated l = true ∧ lines_wf ls = true).
Proof.
  cbn [lines_wf]. destruct ls as [|l' ls'].
  - intros [?|?]%orb_prop; left; auto.
  - intros [? ?]%andb_prop. right. auto.
Qed.

Lemma readlines_concat (ls : list string) :
  lines_wf ls = true → readlines (String.concat "" ls) = ls.
Proof.
  induction ls as [|l ls IH]; [done|].
  intros [[-> [Ht|Hu]]|(Hne & Ht & Hwf)]%lines_wf_cons.
  - cbn [String.concat]. rewrite <- (app_empty_r l) at 1.
    by rewrite readlines_terminated.
  - by apply readlines_unterminated.
  - rewrite concat_cons, readlines_terminated by done. by rewrite IH.
Qed.

Lemma readlines_wf (s : string) : lines_wf (readlines s) = true.
Proof.
  induction s as [|c s IH]; [done|]. cbn [readlines].
  destruct (decide (c = LF)) as [->|Hc].
  - cbn [lines_wf]. destruct (readlines s); [done|]. by rewrite IH.
  - destruct (readlines s) as [|l ls] eqn:E.
    + cbn. by rewrite bool_decide_eq_false_2.
    + apply lines_wf_cons in IH as [[-> [Ht|Hu]]|(Hne & Ht & Hwf)].
      * cbn [lines_wf terminated]. rewrite terminated_nonempty by done.
        rewrite bool_decide_eq_false_2 by done. by rewrite Ht.
      * cbn [lines_wf]. apply orb_true_intro. right.
        unfold unterminated in *. cbn [is_empty negb occurs andb].
        rewrite bool_decide_eq_false_2 by done. cbn [orb].
        by apply andb_prop in Hu as [_ ->].
      * cbn [lines_wf terminated]. rewrite terminated_nonempty by done.
        rewrite bool_decide_eq_false_2 by done. rewrite Ht.
        destruct ls; [done|]. by rewrite Hwf.
Qed.

Lemma lines_wf_fmap (g : string → string) (ls : list string) :
  (∀ l, terminated (g l) = terminated l) →
  (∀ l, unterminated (g l) = unterminated l) →
  lines_wf (g <$> ls) = lines_wf ls.
Proof.
  intros Ht Hu. induction ls as [|l ls IH]; [done|].
  destruct ls as [|l' ls'].
  - cbn. by rewrite Ht, Hu.
  - change (lines_wf (g <$> l :: l' :: ls'))
      with (terminated (g l) && lines_wf (g <$> l' :: ls')).
    by rewrite IH, Ht.
Qed.

Lemma lines_wf_terminated (ls : list string) :
  Forall (λ l, terminated l = true) ls → lines_wf ls = true.
Proof.
  induction 1 as [|l ls Hl _ IH]; [done|].
  destruct ls as [|l' ls']; cbn [lines_wf]; [by rewrite Hl|].
  rewrite Hl. exact IH.
Qed.

Lemma terminated_app (s t : string) :
  terminated (s +:+ t)
  = if is_empty t then terminated s else negb (occurs LF s) && terminated t.
Proof.
  induction s as [|c s IH].
  - rewrite app_empty_l. destruct (is_empty t) eqn:Ht; [|done].
    by apply is_empty_true in Ht as ->.
  - rewrite app_String. cbn [terminated occurs]. rewrite is_empty_app, IH.
    destruct (is_empty t) eqn:Ht.
    + by rewrite andb_true_r.
    + rewrite andb_false_r. rewrite negb_orb. by rewrite andb_assoc.
Qed.

Lemma unterminated_app (s t : string) :
  unterminated (s +:+ t)
  = negb (is_empty s && is_empty t) && negb (occurs LF s || occurs LF t).
Proof. unfold unterminated. by rewrite is_empty_app, occurs_app. Qed.

(** ** Lemmas on [strip] and [replace] *)

Lemma lstrip_split (s : string) :
  ∃ w1, s = w1 +:+ lstrip s ∧ all_chars is_space w1 = true.
Proof.
  induction s as [|c s (w1 & Hs & Hw1)]; [by exists ""|].
  cbn [lstrip]. destruct (is_space c) eqn:Hc.
  - exists (String c w1). rewrite app_String, <- Hs. split; [done|].
    cbn [all_chars]. by rewrite Hc.
  - by exists "".
Qed.

Lemma rstrip_split (s : string) :
  ∃ w2, s = rstrip s +:+ w2 ∧ all_chars is_space w2 = true.
Proof.
  induction s as [|c s (w2 & Hs & Hw2)]; [by exists ""|].
  cbn [rstrip]. destruct (is_space c && is_empty (rstrip s)) eqn:Hc.
  - apply andb_prop in Hc as [Hc Hr]. apply is_empty_true in Hr.
    rewrite Hr, app_empty_l in Hs. subst w2.
    exists (String c s). split; [done|]. cbn [all_chars]. by rewrite Hc.
  - exists w2. by rewrite app_String, <- Hs.
Qed.

Lemma strip_split (s : string) :
  ∃ w1 w2, s = w1 +:+ strip s +:+ w2
           ∧ all_chars is_space w1 = true ∧ all_chars is_space w2 = true.
Proof.
  destruct (lstrip_split s) as (w1 & Hs & Hw1).
  destruct (rstrip_split (lstrip s)) as (w2 & Hl & Hw2).
  exists w1, w2. unfold strip. by rewrite <- Hl, <- Hs.
Qed.

Lemma rstrip_app (s t : string) :
  rstrip t = t → is_empty t = false → rstrip (s +:+ t) = s +:+ t.
Proof.
  intros Ht Hne. induction s as [|c s IH]; [done|].
  rewrite app_String. cbn [rstrip]. rewrite IH, is_empty_app, Hne.
  by rewrite !andb_false_r.
Qed.

Lemma rstrip_spaces (t w : string) :
  rstrip t = t → all_chars is_space w = true → rstrip (t +:+ w) = t.
Proof.
  intros Ht Hw.
  assert (rstrip w = "") as Hrw.
  { induction w as [|c w IH]; [done|]. cbn [all_chars] in Hw.
    apply andb_prop in Hw as [Hc Hw]. cbn [rstrip]. by rewrite IH, Hc. }
  induction t as [|c t IH]; [by rewrite app_empty_l|].
  rewrite app_String. cbn [rstrip] in *.
  destruct (is_space c && is_empty (rstrip t)) eqn:Hc; [done|].
  injection Ht as Ht. rewrite (IH Ht). rewrite Ht in Hc. by rewrite Hc.
Qed.

Lemma lstrip_spaces (w t : string) :
  all_chars is_space w = true → lstrip (w +:+ t) = lstrip t.
Proof.
  induction w as [|c w IH]; [done|]. cbn [all_chars].
  intros [Hc Hw]%andb_prop. rewrite app_String. cbn [lstrip].
  rewrite Hc. by apply IH.
Qed.

(** A line that is a text [t] between white space strips to [t]. *)
Lemma strip_decorated (w1 t w2 : string) :
  all_chars is_space w1 = true → all_chars is_space w2 = true →
  lstrip t = t → rstrip t = t →
  strip (w1 +:+ t +:+ w2) = t.
Proof.
  intros Hw1 Hw2 Hl Hr. unfold strip. rewrite lstrip_spaces by done.
  destruct t as [|c t'].
  - rewrite app_empty_l.
    assert (lstrip w2 = "") as ->; [|done].
    clear -Hw2. induction w2 as [|c w IH]; [done|]. cbn [all_chars] in Hw2.
    apply andb_prop in Hw2 as [Hc Hw]. cbn [lstrip]. rewrite Hc. by apply IH.
  - assert (is_space c = false) as Hc.
    { cbn [lstrip] in Hl. destruct (is_space c) eqn:Hc; [|done].
      exfalso. destruct (lstrip_split t') as (w & Ht' & _).
      apply (f_equal String.length) in Hl, Ht'.
      rewrite length_app_s in Ht'. cbn [String.length] in Hl. lia. }
    rewrite app_String. cbn [lstrip]. rewrite Hc. rewrite <- app_String.
    by apply rstrip_spaces.
Qed.

Lemma prefix_space (a c : ascii) (old s : string) :
  is_space a = false → is_space c = true →
  String.prefix (String a old) (String c s) = false.
Proof.
  intros Ha Hc. cbn [String.prefix].
  destruct (ascii_dec a c) as [->|]; [congruence|done].
Qed.

Lemma replace_from_spaces (a : ascii) (old new w s : string) :
  is_space a = false → all_chars is_space w = true →
  replace_from (String a old) new 0 (w +:+ s)
  = w +:+ replace_from (String a old) new 0 s.
Proof.
  intros Ha. induction w as [|c w IH]; [done|]. cbn [all_chars].
  intros [Hc Hw]%andb_prop. rewrite !app_String. cbn [replace_from].
  rewrite prefix_space by done. by rewrite IH.
Qed.

Lemma replace_from_only_spaces (a : ascii) (old new w : string) :
  is_space a = false → all_chars is_space w = true →
  replace_from (String a old) new 0 w = w.
Proof.
  intros Ha Hw. rewrite <- (app_empty_r w) at 1.
  rewrite replace_from_spaces by done. cbn [replace_from].
  by rewrite app_empty_r.
Qed.

(** The two reference lines of [foo], copied to [bar]. *)
Lemma replace_DataFile (w1 w2 : string) :
  all_chars is_space w1 = true → all_chars is_space w2 = true →
  replace (w1 +:+ "DataFile=foo.eeg" +:+ w2) "foo" "bar"
  = w1 +:+ "DataFile=bar.eeg" +:+ w2.
Proof.
  intros Hw1 Hw2. unfold replace. cbn [is_empty].
  rewrite replace_from_spaces by done. f_equal.
  rewrite !app_String, !app_empty_l. cbn -[String.append].
  rewrite !app_String, !app_empty_l.
  by rewrite replace_from_only_spaces.
Qed.

Lemma replace_MarkerFile (w1 w2 : string) :
  all_chars is_space w1 = true → all_chars is_space w2 = true →
  replace (w1 +:+ "MarkerFile=foo.vmrk" +:+ w2) "foo" "bar"
  = w1 +:+ "MarkerFile=bar.vmrk" +:+ w2.
Proof.
  intros Hw1 Hw2. unfold replace. cbn [is_empty].
  rewrite replace_from_spaces by done. f_equal.
  rewrite !app_String, !app_empty_l. cbn -[String.append].
  rewrite !app_String, !app_empty_l.
  by rewrite replace_from_only_spaces.
Qed.

(** The lines of a text are those [readlines] gives, and no others. *)
Lemma lines_of_readlines (s : string) (ls : list string) :
  lines_of s ls ↔ ls = readlines s.
Proof.
  unfold lines_of. split.
  - intros [<- Hwf]. symmetry. by apply readlines_concat.
  - intros ->. split; [apply concat_readlines|apply readlines_wf].
Qed.

Lemma occurs_concat (c : ascii) (ls : list string) :
  occurs c (String.concat "" ls) = false
  ↔ Forall (λ l, occurs c l = false) ls.
Proof.
  induction ls as [|l ls IH].
  - split; [by constructor|done].
  - rewrite concat_cons, occurs_app, Forall_cons, orb_false_iff. by rewrite IH.
Qed.

(** ** Lemmas on reading in text mode *)

(** The text as read holds no CR. *)
Lemma translate_newlines_no_CR (after_cr : bool) (s : string) :
  occurs CR (translate_newlines after_cr s) = false.
Proof.
  revert after_cr. induction s as [|c s IH]; intros after_cr; [done|].
  cbn [translate_newlines]. destruct (decide (c = CR)) as [->|Hc].
  { cbn [occurs]. by rewrite IH. }
  destruct (decide (c = LF)) as [->|Hl].
  { destruct after_cr; [by apply IH|]. cbn [occurs]. by rewrite IH. }
  cbn [occurs]. rewrite IH. by rewrite bool_decide_eq_false_2.
Qed.

Lemma universal_newlines_no_CR (s : string) :
  occurs CR (universal_newlines s) = false.
Proof. apply translate_newlines_no_CR. Qed.

(** A text without CR is read as it is. *)
Lemma universal_newlines_id (s : string) :
  occurs CR s = false → universal_newlines s = s.
Proof.
  unfold universal_newlines. induction s as [|c s IH]; [done|].
  cbn [occurs translate_newlines].
  intros [Hc Hs]%orb_false_elim. apply bool_decide_eq_false in Hc.
  rewrite decide_False by done. rewrite (IH Hs).
  by destruct (decide (c = LF)) as [->|].
Qed.

Lemma universal_newlines_idemp (s : string) :
  universal_newlines (universal_newlines s) = universal_newlines s.
Proof. apply universal_newlines_id, universal_newlines_no_CR. Qed.

(** ** Lemmas on [copyfile_brainvision] *)

(** The copy of a text member: the destination holds the lines read from
    the source, each as the loop writes it. *)
Lemma copyfile_brainvision_text (_parse_ext : string → string * string)
    (src dest content fname_src fname_dest ext : string) (w : world) :
  read_text w src = Ok content →
  can_open_w w dest = true →
  _parse_ext src = (fname_src, ext) →
  _parse_ext dest = (fname_dest, ext) →
  ext = ".vhdr" ∨ ext = ".vmrk" →
  copyfile_brainvision _parse_ext src dest w
  = (set_files
       (insert (resolve dest)
          (File (String.concat ""
                   (new_line (basename fname_src) (basename fname_dest)
                      <$> readlines (universal_newlines content))))) w,
     Ok tt).
Proof.
  intros Hread Hopen Hsrc Hdest Hext. unfold copyfile_brainvision.
  rewrite (read_text_exists _ _ _ Hread). cbn [negb].
  rewrite Hsrc, Hdest. rewrite bool_decide_eq_true_2 by done. cbn [negb].
  assert (bool_decide (ext ∈ bv_ext) = true) as ->
    by (destruct Hext as [->| ->]; by vm_compute).
  assert (bool_decide (ext = ".eeg") = false) as ->
    by (destruct Hext as [->| ->]; by vm_compute).
  cbn [negb]. rewrite Hread, open_w_ok by done.
  by rewrite fold_write, app_empty_l.
Qed.

Lemma search_lines_foo :
  search_lines "foo" = ["DataFile=foo.eeg"; "MarkerFile=foo.vmrk"].
Proof. reflexivity. Qed.

Lemma new_line_match (basename_src basename_dest line : string) :
  strip line ∈ search_lines basename_src →
  new_line basename_src basename_dest line
  = replace line basename_src basename_dest.
Proof. intros H. unfold new_line. by rewrite bool_decide_eq_true_2. Qed.

Lemma new_line_other (basename_src basename_dest line : string) :
  strip line ∉ search_lines basename_src →
  new_line basename_src basename_dest line = line.
Proof. intros H. unfold new_line. by rewrite bool_decide_eq_false_2. Qed.

Lemma new_line_DataFile (w1 w2 : string) :
  all_chars is_space w1 = true → all_chars is_space w2 = true →
  new_line "foo" "bar" (w1 +:+ "DataFile=foo.eeg" +:+ w2)
  = w1 +:+ "DataFile=bar.eeg" +:+ w2.
Proof.
  intros Hw1 Hw2. rewrite new_line_match; [by apply replace_DataFile|].
  rewrite strip_decorated by done. rewrite search_lines_foo. by left.
Qed.

Lemma new_line_MarkerFile (w1 w2 : string) :
  all_chars is_space w1 = true → all_chars is_space w2 = true →
  new_line "foo" "bar" (w1 +:+ "MarkerFile=foo.vmrk" +:+ w2)
  = w1 +:+ "MarkerFile=bar.vmrk" +:+ w2.
Proof.
  intros Hw1 Hw2. rewrite new_line_match; [by apply replace_MarkerFile|].
  rewrite strip_decorated by done. rewrite search_lines_foo.
  right. by left.
Qed.

(** What the loop does to a line, by the line's trimmed content. *)
Lemma new_line_foo_cases (l : string) :
  (∃ w1 w2, all_chars is_space w1 = true ∧ all_chars is_space w2 = true
            ∧ strip l = "DataFile=foo.eeg"
            ∧ l = w1 +:+ "DataFile=foo.eeg" +:+ w2
            ∧ new_line "foo" "bar" l = w1 +:+ "DataFile=bar.eeg" +:+ w2)
  ∨ (∃ w1 w2, all_chars is_space w1 = true ∧ all_chars is_space w2 = true
              ∧ strip l = "MarkerFile=foo.vmrk"
              ∧ l = w1 +:+ "MarkerFile=foo.vmrk" +:+ w2
              ∧ new_line "foo" "bar" l = w1 +:+ "MarkerFile=bar.vmrk" +:+ w2)
  ∨ (strip l ≠ "DataFile=foo.eeg" ∧ strip l ≠ "MarkerFile=foo.vmrk"
     ∧ new_line "foo" "bar" l = l).
Proof.
  destruct (strip_split l) as (w1 & w2 & Hl & Hw1 & Hw2).
  destruct (decide (strip l = "DataFile=foo.eeg")) as [Hd|Hd].
  { left. exists w1, w2. rewrite Hd in Hl. repeat split; try done.
    rewrite Hl at 1. by apply new_line_DataFile. }
  destruct (decide (strip l = "MarkerFile=foo.vmrk")) as [Hm|Hm].
  { right. left. exists w1, w2. rewrite Hm in Hl. repeat split; try done.
    rewrite Hl at 1. by apply new_line_MarkerFile. }
  right. right. repeat split; try done. apply new_line_other.
  rewrite search_lines_foo. rewrite !elem_of_cons, elem_of_nil. tauto.
Qed.

Lemma new_line_foo_terminated (l : string) :
  terminated (new_line "foo" "bar" l) = terminated l.
Proof.
  destruct (new_line_foo_cases l)
    as [(w1 & w2 & _ & _ & _ & Hl & ->)|[(w1 & w2 & _ & _ & _ & Hl & ->)
       |(_ & _ & ->)]]; [| |done];
    rewrite Hl, !terminated_app, !is_empty_app;
    destruct (is_empty w2); reflexivity.
Qed.

Lemma new_line_foo_unterminated (l : string) :
  unterminated (new_line "foo" "bar" l) = unterminated l.
Proof.
  destruct (new_line_foo_cases l)
    as [(w1 & w2 & _ & _ & _ & Hl & ->)|[(w1 & w2 & _ & _ & _ & Hl & ->)
       |(_ & _ & ->)]]; [| |done];
    rewrite Hl, !unterminated_app, !is_empty_app, !occurs_app;
    destruct (is_empty w1), (is_empty w2); reflexivity.
Qed.

Lemma new_line_foo_occurs_CR (l : string) :
  occurs CR (new_line "foo" "bar" l) = occurs CR l.
Proof.
  destruct (new_line_foo_cases l)
    as [(w1 & w2 & _ & _ & _ & Hl & ->)|[(w1 & w2 & _ & _ & _ & Hl & ->)
       |(_ & _ & ->)]]; [| |done];
    rewrite Hl, !occurs_app; reflexivity.
Qed.

(** One line of [foo] and the line written for it in the copy to [bar]. *)
Lemma new_line_foo_line (l : string) :
  (l = "DataFile=foo.eeg" +:+ nl
   → new_line "foo" "bar" l = "DataFile=bar.eeg" +:+ nl)
  ∧ (l = "MarkerFile=foo.vmrk" +:+ nl
     → new_line "foo" "bar" l = "MarkerFile=bar.vmrk" +:+ nl)
  ∧ (strip l = "DataFile=foo.eeg"
     → strip (new_line "foo" "bar" l) = "DataFile=bar.eeg")
  ∧ (strip l = "MarkerFile=foo.vmrk"
     → strip (new_line "foo" "bar" l) = "MarkerFile=bar.vmrk")
  ∧ (strip l ≠ "DataFile=foo.eeg" → strip l ≠ "MarkerFile=foo.vmrk"
     → new_line "foo" "bar" l = l).
Proof.
  assert (all_chars is_space nl = true) as Hnl by done.
  assert (all_chars is_space "" = true) as Hnil by done.
  split; [|split].
  { intros ->. apply (new_line_DataFile "" nl Hnil Hnl). }
  { intros ->. apply (new_line_MarkerFile "" nl Hnil Hnl). }
  destruct (new_line_foo_cases l)
    as [(w1 & w2 & ? & ? & Hs & _ & ->)|[(w1 & w2 & ? & ? & Hs & _ & ->)
       |(? & ? & ->)]].
  - rewrite Hs. repeat split; [|done..]. intros _. by apply strip_decorated.
  - rewrite Hs. repeat split; [done| |done]. intros _. by apply strip_decorated.
  - by repeat split.
Qed.

Lemma lines_wf_new_line_foo (ls : list string) :
  lines_wf (new_line "foo" "bar" <$> ls) = lines_wf ls.
Proof.
  apply lines_wf_fmap;
    [apply new_line_foo_terminated|apply new_line_foo_unterminated].
Qed.

Lemma copyfile_brainvision_text_read (_parse_ext : string → string * string)
    (src dest content fname_src fname_dest ext : string) (w : world) :
  read_text w src = Ok content →
  can_open_w w dest = true →
  _parse_ext src = (fname_src, ext) →
  _parse_ext dest = (fname_dest, ext) →
  ext = ".vhdr" ∨ ext = ".vmrk" →
  ∃ w', copyfile_brainvision _parse_ext src dest w = (w', Ok tt)
        ∧ read_text w' dest
          = Ok (String.concat ""
                  (new_line (basename fname_src) (basename fname_dest)
                     <$> readlines (universal_newlines content))).
Proof.
  intros Hread Hopen Hsrc Hdest Hext. eexists. split.
  - by eapply copyfile_brainvision_text.
  - destruct (can_open_w_resolve _ _ Hopen). by apply read_text_insert.
Qed.

Lemma reference_line_strip (pre b post : string) (c d : ascii) :
  is_space c = false → is_space d = false →
  strip (String c pre +:+ b +:+ post +:+ String d "")
  = String c pre +:+ b +:+ post +:+ String d "".
Proof.
  intros Hc Hd. unfold strip. rewrite app_String. cbn [lstrip]. rewrite Hc.
  rewrite <- app_String, <- !app_assoc_s. apply rstrip_app; [|done].
  cbn. by rewrite Hd.
Qed.

Lemma search_lines_strip (basename_src ref : string) :
  ref ∈ search_lines basename_src → lstrip ref = ref ∧ rstrip ref = ref.
Proof.
  unfold search_lines. rewrite !elem_of_cons, elem_of_nil.
  intros [->|[->|[]]].
  - pose proof (reference_line_strip "ataFile=" basename_src ".ee" "D" "g"
                  eq_refl eq_refl) as H.
    split; [done|]. unfold strip in H. by rewrite app_String in H.
  - pose proof (reference_line_strip "arkerFile=" basename_src ".vmr" "M" "k"
                  eq_refl eq_refl) as H.
    split; [done|]. unfold strip in H. by rewrite app_String in H.
Qed.

(** ** Lemmas on [os.path.join] and [make_bids_folders] *)

Lemma endswith_char_app (s t : string) (c : ascii) :
  is_empty t = false → endswith_char (s +:+ t) c = endswith_char t c.
Proof.
  intros Ht. induction s as [|a s IH]; [done|].
  rewrite app_String. cbn [endswith_char]. rewrite IH.
  destruct (s +:+ t) eqn:E; [|done].
  apply (f_equal is_empty) in E. rewrite is_empty_app, Ht in E.
  by rewrite andb_false_r in E.
Qed.

Lemma plain_segment_inv (s : string) :
  plain_segment s = true →
  is_empty s = false ∧ startswith s (String os_sep "") = false
  ∧ endswith_char s os_sep = false.
Proof.
  unfold plain_segment. intros [[H1 H2]%andb_prop H3]%andb_prop.
  by rewrite !negb_true_iff in *.
Qed.

Lemma join_step_plain (a b : string) :
  is_empty a = false → endswith_char a os_sep = false →
  plain_segment b = true →
  join_step a b = a +:+ String os_sep b.
Proof.
  intros Ha Hend (_ & Hb & _)%plain_segment_inv.
  unfold join_step. by rewrite Hb, Ha, Hend.
Qed.

Lemma join_cons (a b : string) (p : list string) :
  join "/" (a :: b :: p) = a +:+ "/" +:+ join "/" (b :: p).
Proof. reflexivity. Qed.

Lemma os_path_join_plain (a : string) (p : list string) :
  is_empty a = false → endswith_char a os_sep = false →
  Forall (λ s, plain_segment s = true) p →
  os_path_join a p = join "/" (a :: p).
Proof.
  intros Ha Hend Hp. revert a Ha Hend.
  induction Hp as [|b p Hb _ IH]; intros a Ha Hend; [done|].
  unfold os_path_join. cbn [fold_left].
  rewrite join_step_plain by done. fold (os_path_join (a +:+ String os_sep b) p).
  destruct (plain_segment_inv _ Hb) as (Hbe & _ & Hbend).
  rewrite IH.
  - rewrite join_cons. destruct p as [|c p'].
    + reflexivity.
    + rewrite !join_cons. rewrite app_assoc_s. f_equal.
  - rewrite is_empty_app. by rewrite Ha.
  - rewrite endswith_char_app by done.
    cbn [endswith_char]. destruct b; [done|exact Hbend].
Qed.

Lemma startswith_join (a : string) (p : list string) :
  is_empty a = false →
  startswith (join "/" (a :: p)) (String os_sep "")
  = startswith a (String os_sep "").
Proof.
  destruct a as [|c a]; [done|]. intros _.
  destruct p as [|b p]; [done|]. rewrite join_cons, app_String.
  unfold startswith. cbn [String.prefix].
  destruct (ascii_dec os_sep c); [|done].
  by destruct a, (_ +:+ _).
Qed.

Lemma make_bids_folders_unfold (subject session kind root : value)
    (make_dir overwrite verbose : bool) (w : world) :
  Forall (λ v, str_or_None v = true) [subject; kind; session; root] →
  entity_ok session = true →
  make_bids_folders subject session kind root make_dir overwrite verbose w
  = let path :=
      with_prefix root
        (os_path_join ("sub-" +:+ str subject)
           (optional_segment "ses-" session ++ optional_segment "" kind)) in
    if make_dir then
      match _mkdir_p path overwrite verbose w with
      | (w', Ok _) => (w', Ok path)
      | (w', Raise e) => (w', Raise e)
      end
    else (w, Ok path).
Proof.
  intros Htyped Hses. unfold make_bids_folders.
  rewrite check_types_ok by done. cbn [mbind res_bind].
  assert ((if negb (is_None session)
           then _check_key_val "ses" session ;; Ok ()
           else Ok ()) = Ok ()) as ->.
  { destruct session as [|s|n]; [done| |done]. cbn [is_None negb].
    cbn [entity_ok] in Hses. apply negb_true_iff in Hses.
    by rewrite check_key_val_ok. }
  cbn [mbind res_bind].
  assert (folder_segments subject session kind
          = ("sub-" +:+ str subject)
            :: (optional_segment "ses-" session ++ optional_segment "" kind))
    as ->.
  { unfold folder_segments, optional_segment.
    destruct session, kind; reflexivity. }
  cbn [os_path_join_list]. unfold with_prefix. by destruct root.
Qed.

(** ** The further definitions on concrete inputs *)

Example split_str_values :
  split_str "a, b, c" ", " = ["a"; "b"; "c"]
  ∧ split_str "a,, b, " ", " = ["a,"; "b"; ""]
  ∧ split_str "" ", " = [""]
  ∧ split_str ", , " ", " = [""; ""; ""].
Proof. by repeat split. Qed.

Example json_dumps_values :
  let q := String "034" "" in
  json_dumps_indent4 [("Name", FStr "x"); ("Authors", FList ["a"; "b"]);
                      ("Funding", FList [])]
  = "{" +:+ nl
    +:+ "    " +:+ q +:+ "Name" +:+ q +:+ ": " +:+ q +:+ "x" +:+ q +:+ ","
    +:+ nl
    +:+ "    " +:+ q +:+ "Authors" +:+ q +:+ ": [" +:+ nl
    +:+ "        " +:+ q +:+ "a" +:+ q +:+ "," +:+ nl
    +:+ "        " +:+ q +:+ "b" +:+ q +:+ nl
    +:+ "    ]," +:+ nl
    +:+ "    " +:+ q +:+ "Funding" +:+ q +:+ ": []" +:+ nl
    +:+ "}"
  ∧ json_str (String "034" (String "092" (String "009" (String "233" ""))))
    = q +:+ String "092" q +:+ String "092" (String "092" "")
      +:+ String "092" "t" +:+ String "092" "u00e9" +:+ q.
Proof. by vm_compute. Qed.

Example print_dir_tree_values :
  stdout (print_dir_tree
            (λ _ _, [("rec", ["sub"], ["foo.vhdr"; "foo.vmrk"]);
                     ("rec/sub", [], ["x"])])
            "rec" recording_foo)
  = [" rec"; "----- foo.vhdr"; "----- foo.vmrk"; "----- sub";
     "---------- x"].
Proof. by vm_compute. Qed.

Example pop_values :
  pop [("Name", FNone); ("License", FStr "x")] "Name" = [("License", FStr "x")]
  ∧ pop [("Name", FNone); ("License", FStr "x")] "DOI"
    = [("Name", FNone); ("License", FStr "x")].
Proof. by repeat split. Qed.

(** ** Lemmas on [split] and [join] *)

Lemma split_nonempty (c : ascii) (s : string) : split c s ≠ [].
Proof.
  induction s as [|a s IH]; [done|]. cbn [split].
  destruct (decide (a = c)); [done|]. by destruct (split c s).
Qed.

Lemma split_no_sep (c : ascii) (s : string) :
  occurs c s = false → split c s = [s].
Proof.
  induction s as [|a s IH]; [done|]. cbn [occurs split].
  intros [Ha Hs]%orb_false_elim. apply bool_decide_eq_false_1 in Ha.
  rewrite decide_False by done. by rewrite IH.
Qed.

Lemma split_app_sep (c : ascii) (s t : string) :
  occurs c s = false →
  split c (s +:+ String c t) = s :: split c t.
Proof.
  induction s as [|a s IH].
  - intros _. rewrite app_empty_l. cbn [split]. by rewrite decide_True.
  - cbn [occurs]. intros [Ha Hs]%orb_false_elim.
    apply bool_decide_eq_false_1 in Ha.
    rewrite app_String. cbn [split]. rewrite decide_False by done.
    by rewrite IH.
Qed.

Lemma split_join (c : ascii) (l : list string) :
  l ≠ [] → Forall (λ s, occurs c s = false) l →
  split c (join (String c "") l) = l.
Proof.
  intros Hne Hall. induction Hall as [|a l Ha Hl IH]; [done|].
  destruct l as [|b l'].
  - by apply split_no_sep.
  - unfold join in *. cbn [String.concat].
    rewrite app_String, app_empty_l.
    rewrite split_app_sep by done. f_equal. by apply IH.
Qed.

Lemma last_cons_nonempty {A : Type} (a d : A) (l : list A) :
  l ≠ [] → List.last (a :: l) d = List.last l d.
Proof. by destruct l. Qed.

Lemma last_split_app_sep (c : ascii) (s t : string) :
  List.last (split c (s +:+ String c t)) "" = List.last (split c t) "".
Proof.
  induction s as [|a s IH].
  - rewrite app_empty_l. cbn [split]. rewrite decide_True by done.
    apply last_cons_nonempty, split_nonempty.
  - rewrite app_String. cbn [split]. destruct (decide (a = c)).
    + rewrite last_cons_nonempty by apply split_nonempty. apply IH.
    + destruct (split c (s +:+ String c t)) as [|p ps] eqn:E;
        [by apply split_nonempty in E|].
      destruct ps as [|p' ps'].
      * exfalso. clear IH. revert p E.
        induction s as [|b s IH]; intros p E.
        -- rewrite app_empty_l in E. cbn [split] in E.
           rewrite decide_True in E by done.
           injection E as _ E. by apply split_nonempty in E.
        -- rewrite app_String in E. cbn [split] in E.
           destruct (decide (b = c)).
           ++ injection E as _ E. by apply split_nonempty in E.
           ++ destruct (split c (s +:+ String c t)) as [|q qs] eqn:E';
                [by apply split_nonempty in E'|].
              injection E as _ ->. by eapply IH.
      * rewrite <- IH. done.
Qed.

Lemma endswith_char_inv (s : string) (c : ascii) :
  endswith_char s c = true → ∃ s', s = s' +:+ String c "".
Proof.
  induction s as [|a s IH]; [done|]. cbn [endswith_char].
  destruct s as [|b s'].
  - intros ->%bool_decide_eq_true_1. by exists "".
  - intros (s'' & ->)%IH. exists (String a s''). by rewrite app_String.
Qed.

Lemma basename_no_sep (s : string) : occurs os_sep s = false → basename s = s.
Proof. intros Hs. unfold basename. by rewrite split_no_sep. Qed.

Lemma basename_join_step (p name : string) :
  occurs os_sep name = false → basename (join_step p name) = name.
Proof.
  intros Hname. unfold join_step.
  assert (startswith name (String os_sep "") = false) as ->.
  { destruct name as [|a name']; [done|]. unfold startswith.
    rewrite prefix_char. cbn [occurs] in Hname.
    by apply orb_false_elim in Hname as [-> _]. }
  destruct (is_empty p) eqn:Hp.
  - apply is_empty_true in Hp as ->. by apply basename_no_sep.
  - cbn [orb]. destruct (endswith_char p os_sep) eqn:Hend.
    + apply endswith_char_inv in Hend as [p' ->].
      rewrite app_assoc_s, app_String, app_empty_l. unfold basename.
      rewrite last_split_app_sep. by rewrite split_no_sep.
    + unfold basename. rewrite last_split_app_sep. by rewrite split_no_sep.
Qed.

(** ** Lemmas on the tokens of a name *)

Lemma has_unallowed_false (s : string) :
  has_unallowed s = false →
  occurs "-" s = false ∧ occurs "_" s = false ∧ occurs "/" s = false.
Proof.
  rewrite has_unallowed_occurs.
  intros [[? ?]%orb_false_elim ?]%orb_false_elim. auto.
Qed.

Lemma occurs_join (c : ascii) (sep : string) (l : list string) :
  occurs c sep = false → Forall (λ s, occurs c s = false) l →
  occurs c (join sep l) = false.
Proof.
  intros Hsep Hall. unfold join.
  induction Hall as [|a l Ha _ IH]; [done|].
  destruct l as [|b l']; [done|].
  change (String.concat sep (a :: b :: l'))
    with (a +:+ sep +:+ String.concat sep (b :: l')).
  by rewrite !occurs_app, Ha, Hsep, IH.
Qed.

Lemma token_Some (k : string) (v : value) :
  entity_ok v = true → v ≠ VNone →
  ∃ s, v = VStr s ∧ has_unallowed s = false
       ∧ token (k, v) = Some (k +:+ "-" +:+ s).
Proof.
  destruct v as [|s|n]; [done| |done]. cbn [entity_ok].
  intros Hs%negb_true_iff _. by exists s.
Qed.

(** The tokens and the given entities of a table of sound entries. *)
Lemma entity_tokens_given (items : odict) :
  Forall (λ kv, has_unallowed kv.1 = false ∧ entity_ok kv.2 = true) items →
  Forall (λ t, occurs "_" t = false ∧ occurs "/" t = false ∧ t ≠ "")
    (entity_tokens items)
  ∧ split "-" <$> entity_tokens items = given items.
Proof.
  unfold entity_tokens, given.
  induction 1 as [|[k v] items [Hk Hv] _ [IH1 IH2]]; [done|].
  cbn [omap list_omap]. cbn [fst snd] in *.
  destruct (decide (v = VNone)) as [->|Hne]; [done|].
  destruct (token_Some k v Hv Hne) as (s & -> & Hs & ->).
  cbn [snd]. apply has_unallowed_false in Hk as (Hk1 & Hk2 & Hk3).
  apply has_unallowed_false in Hs as (Hs1 & Hs2 & Hs3). split.
  - apply Forall_cons. split; [|done].
    rewrite !occurs_app, Hk2, Hk3, Hs2, Hs3. repeat split; [done..|].
    destruct k; [|done]. by rewrite app_empty_l.
  - cbn [fmap list_fmap]. f_equal; [|done].
    rewrite app_String, app_empty_l, split_app_sep by done.
    by rewrite split_no_sep.
Qed.

Lemma given_nil (items : odict) :
  given items = [] ↔ entity_tokens items = [].
Proof.
  unfold given, entity_tokens, token.
  induction items as [|[k v] items IH]; [done|].
  cbn [omap list_omap snd]. by destruct v.
Qed.

Lemma parse_entity_tokens (items : odict) :
  Forall (λ kv, has_unallowed kv.1 = false ∧ entity_ok kv.2 = true) items →
  given items ≠ [] →
  parse_bids_filename (join "_" (entity_tokens items)) = given items.
Proof.
  intros Hall Hne. destruct (entity_tokens_given items Hall) as [Htok Hgiven].
  unfold parse_bids_filename. rewrite split_join; [done|..].
  - by rewrite <- given_nil.
  - eapply Forall_impl; [exact Htok|]. by intros t (? & _).
Qed.

Lemma join_empty (items : odict) :
  Forall (λ kv, has_unallowed kv.1 = false ∧ entity_ok kv.2 = true) items →
  join "_" (entity_tokens items) = "" → entity_tokens items = [].
Proof.
  intros Hall. destruct (entity_tokens_given items Hall) as [Htok _].
  destruct (entity_tokens items) as [|t l]; [done|].
  apply Forall_cons in Htok as [(_ & _ & Ht) _].
  unfold join. destruct l; cbn [String.concat]; [done|].
  destruct t; [done|]. by rewrite app_String.
Qed.

Lemma given_key (items : odict) (k s : string) :
  [k; s] ∈ given items → k ∈ items.*1.
Proof.
  unfold given. induction items as [|[k' v] items IH]; [by inversion 1|].
  cbn [omap list_omap snd fst fmap list_fmap].
  destruct v as [|s'|n]; rewrite ?elem_of_cons; [by right; apply IH|..];
    (intros [[= -> _]|H]; [by left|by right; apply IH]).
Qed.

(** Two tables with the same keys that give the same entities are equal. *)
Lemma given_inj (items items' : odict) :
  items.*1 = items'.*1 → NoDup items.*1 →
  Forall (λ kv, entity_ok kv.2 = true) items →
  Forall (λ kv, entity_ok kv.2 = true) items' →
  given items = given items' → items = items'.
Proof.
  revert items'. induction items as [|[k v] items IH];
    intros [|[k' v'] items'] Hkeys Hnodup Hok Hok' Hgiven; try done.
  rewrite !fmap_cons in Hkeys, Hnodup. cbn [fst] in Hkeys, Hnodup.
  injection Hkeys as <- Hkeys.
  apply NoDup_cons in Hnodup as [Hk Hnodup].
  apply Forall_cons in Hok as [Hv Hok].
  apply Forall_cons in Hok' as [Hv' Hok'].
  cbn [snd] in Hv, Hv'. unfold given in Hgiven.
  cbn [omap list_omap snd fst] in Hgiven. fold (given items) in Hgiven.
  fold (given items') in Hgiven.
  destruct v as [|s|n], v' as [|s'|n']; try done.
  - f_equal. by apply IH.
  - exfalso. apply Hk. apply (given_key items k s'). rewrite Hgiven.
    by left.
  - exfalso. apply Hk. rewrite Hkeys. apply (given_key items' k s).
    rewrite <- Hgiven. by left.
  - injection Hgiven as -> Hgiven. f_equal. by apply IH.
Qed.

Lemma canonical_sound
    (subject session task acquisition run processing recording space : value) :
  Forall (λ v, entity_ok v = true)
    [subject; session; task; acquisition; processing; recording; space] →
  run_ok run = true →
  Forall (λ kv, has_unallowed kv.1 = false ∧ entity_ok kv.2 = true)
    (canonical subject session task acquisition (normalize_run run)
       processing recording space).
Proof.
  intros Hall Hrun. apply run_ok_normalize in Hrun.
  rewrite !Forall_cons in Hall.
  destruct Hall as (? & ? & ? & ? & ? & ? & ? & _).
  unfold canonical. repeat (apply Forall_cons; split; [by split|]).
  apply Forall_nil_2.
Qed.

(** ** Lemmas on [os.mkdir] and [os.makedirs] *)

Lemma os_mkdir_cases (name : string) (key : list string) (w : world) :
  (os_mkdir name key w = (set_files (insert key Dir) w, Ok tt)
   ∧ key ≠ [] ∧ files w !! key = None)
  ∨ (∃ code, os_mkdir name key w = (w, Raise (OSError code name))).
Proof.
  unfold os_mkdir. destruct key as [|c key].
  - right. by eexists.
  - cbn [lookup_key]. destruct (files w !! (c :: key)) eqn:E.
    + right. by eexists.
    + destruct (parent_error w (c :: key)); [right; by eexists|by left].
Qed.

Lemma os_mkdir_exists (name : string) (key : list string) (w : world) :
  is_Some (lookup_key w key) →
  os_mkdir name key w = (w, Raise (OSError EEXIST name)).
Proof. unfold os_mkdir. by intros [n ->]. Qed.

(** What [os.makedirs] may change: it prints nothing, keeps every entry
    there is, touches only the path it makes and the directories above it,
    and on success the path is a directory. *)
Lemma makedirs_from_spec (name_of : list string → string)
    (done todo : list string) (w w' : world) (r : res unit) :
  makedirs_from name_of done todo w = (w', r) →
  stdout w' = stdout w
  ∧ (∀ k n, files w !! k = Some n → files w' !! k = Some n)
  ∧ (∀ k, ¬ k `prefix_of` (done ++ todo) → files w' !! k = files w !! k)
  ∧ (r = Ok tt → done ++ todo ≠ []
                 ∧ files w' !! (done ++ todo) = Some Dir)
  ∧ (∀ e, r = Raise e → ∃ code name, e = OSError code name).
Proof.
  assert (Hmk : ∀ name key w w' r, os_mkdir name key w = (w', r) →
    stdout w' = stdout w
    ∧ (∀ k n, files w !! k = Some n → files w' !! k = Some n)
    ∧ (∀ k, k ≠ key → files w' !! k = files w !! k)
    ∧ (r = Ok tt → key ≠ [] ∧ files w' !! key = Some Dir)
    ∧ (∀ e, r = Raise e → ∃ code name, e = OSError code name)).
  { intros name key w0 w0' r0 H.
    destruct (os_mkdir_cases name key w0) as [(Heq & Hne & Hnone)|[code Heq]];
      rewrite Heq in H; injection H as <- <-.
    - split; [done|]. cbn [files set_files]. split; [|split; [|split]].
      + intros k n Hk. rewrite lookup_insert_ne; [done|congruence].
      + intros k Hk. by rewrite lookup_insert_ne.
      + intros _. by rewrite lookup_insert_eq.
      + done.
    - repeat split; try done. intros e [= <-]. eauto. }
  revert done w w' r. induction todo as [|c rest IH]; intros done w w' r H.
  - cbn [makedirs_from] in H. rewrite app_nil_r.
    destruct (Hmk _ _ _ _ _ H) as (? & ? & Hother & ? & ?).
    repeat split; try done; try tauto.
    intros k Hk. apply Hother. by intros ->.
  - destruct rest as [|c' rest'].
    + cbn [makedirs_from] in H.
      destruct (Hmk _ _ _ _ _ H) as (? & ? & Hother & ? & ?).
      repeat split; try done; try tauto.
      intros k Hk. apply Hother. by intros ->.
    + assert (Hpre : ∀ k, ¬ k `prefix_of` done ++ c :: c' :: rest' →
                ¬ k `prefix_of` (done ++ [c]) ++ c' :: rest'
                ∧ k ≠ done ++ [c]).
      { intros k Hk. rewrite <- app_assoc. split; [done|]. intros ->.
        apply Hk. apply prefix_app, prefix_cons, prefix_nil. }
      replace (done ++ c :: c' :: rest') with ((done ++ [c]) ++ c' :: rest')
        by by rewrite <- app_assoc.
      change (makedirs_from name_of done (c :: c' :: rest') w)
        with (match lookup_key w (done ++ [c]) with
              | Some _ => makedirs_from name_of (done ++ [c]) (c' :: rest') w
              | None =>
                  match os_mkdir (name_of (done ++ [c])) (done ++ [c]) w with
                  | (w1, Ok _) =>
                      makedirs_from name_of (done ++ [c]) (c' :: rest') w1
                  | (w1, Raise e) => (w1, Raise e)
                  end
              end) in H.
      destruct (lookup_key w (done ++ [c])); [by apply IH|].
      destruct (os_mkdir (name_of (done ++ [c])) (done ++ [c]) w)
        as [w1 r1] eqn:E1.
      destruct (Hmk _ _ _ _ _ E1) as (Hout1 & Hkeep1 & Hother1 & _ & Herr1).
      destruct r1 as [[]|e1].
      * destruct (IH _ _ _ _ H) as (Hout & Hkeep & Hother & Hok & Herr).
        split; [congruence|]. split; [by eauto|]. split; [|by split].
        intros k Hk. rewrite <- app_assoc in Hk.
        destruct (Hpre k Hk) as [Hk1 Hk2].
        rewrite Hother by done. by apply Hother1.
      * injection H as <- <-. split; [done|]. split; [done|].
        split; [|split; [done|by intros e [= <-]; eauto]].
        intros k Hk. rewrite <- app_assoc in Hk.
        destruct (Hpre k Hk) as [_ Hk2]. by apply Hother1.
Qed.

Lemma makedirs_from_exists (name_of : list string → string)
    (done todo : list string) (w : world) :
  Forall (λ p, is_Some (files w !! p)) (ancestors_from done todo) →
  is_Some (lookup_key w (done ++ todo)) →
  makedirs_from name_of done todo w
  = (w, Raise (OSError EEXIST (name_of (done ++ todo)))).
Proof.
  revert done. induction todo as [|c rest IH]; intros done Hanc Hleaf.
  - rewrite app_nil_r in *. by apply os_mkdir_exists.
  - destruct rest as [|c' rest'].
    + by apply os_mkdir_exists.
    + cbn [ancestors_from] in Hanc. apply Forall_cons in Hanc as [Hc Hanc].
      replace (done ++ c :: c' :: rest') with ((done ++ [c]) ++ c' :: rest')
        in * by by rewrite <- app_assoc.
      change (makedirs_from name_of done (c :: c' :: rest') w)
        with (match lookup_key w (done ++ [c]) with
              | Some _ => makedirs_from name_of (done ++ [c]) (c' :: rest') w
              | None =>
                  match os_mkdir (name_of (done ++ [c])) (done ++ [c]) w with
                  | (w1, Ok _) =>
                      makedirs_from name_of (done ++ [c]) (c' :: rest') w1
                  | (w1, Raise e) => (w1, Raise e)
                  end
              end).
      assert (lookup_key w (done ++ [c]) = files w !! (done ++ [c])) as ->
        by by destruct done.
      destruct Hc as [n ->]. by apply IH.
Qed.

(** [os.makedirs] hands the leaf to [os.mkdir] under the name it was
    given. *)
Lemma makedirs_name_leaf (p : string) : makedirs_name p (resolve p) = p.
Proof. unfold makedirs_name. by rewrite decide_True. Qed.

Lemma os_path_isdir_print (line path : string) (w : world) :
  os_path_isdir (print line w) path = os_path_isdir w path.
Proof. reflexivity. Qed.

Lemma os_path_isdir_lookup (w : world) (path : string) :
  os_path_isdir w path = true →
  is_empty path = false ∧ lookup_key w (resolve path) = Some Dir.
Proof.
  unfold os_path_isdir, lookup_path. destruct (is_empty path); [done|].
  by destruct (lookup_key w (resolve path)) as [[]|].
Qed.

(** ** Lemmas on [_mkdir_p] *)

(** The world after the optional removal at the start of [_mkdir_p]. *)
Lemma mkdir_p_unfold (path : string) (overwrite verbose : bool) (w : world) :
  ∃ w1 w2 r,
    w1 = (if overwrite && os_path_isdir w path
          then let w := sh_rmtree path w in
               if verbose then print ("Overwriting path: " +:+ path) w else w
          else w)
    ∧ os_makedirs path w1 = (w2, r)
    ∧ ((r = Ok tt
        ∧ _mkdir_p path overwrite verbose w
          = (if verbose then print ("Creating folder: " +:+ path) w2 else w2,
             Ok tt))
       ∨ (∃ name, r = Raise (OSError EEXIST name)
                  ∧ os_path_isdir w2 path = true
                  ∧ _mkdir_p path overwrite verbose w = (w2, Ok tt))
       ∨ (∃ e, r = Raise e
               ∧ _mkdir_p path overwrite verbose w = (w2, Raise e))).
Proof.
  unfold _mkdir_p.
  set (w1 := if overwrite && os_path_isdir w path then _ else w).
  destruct (os_makedirs path w1) as [w2 r] eqn:E.
  exists w1, w2, r. split; [done|]. split; [done|].
  destruct r as [[]|e]; [by left|]. right.
  destruct e as [msg|msg|msg|code name|msg]; try (right; by eexists).
  destruct (bool_decide (code = EEXIST)) eqn:Hcode.
  - apply bool_decide_eq_true_1 in Hcode as ->.
    destruct (os_path_isdir w2 path) eqn:Hdir.
    + left. by exists name.
    + right. by eexists.
  - right. by eexists.
Qed.

Lemma os_makedirs_spec (path : string) (w w' : world) (r : res unit) :
  os_makedirs path w = (w', r) →
  stdout w' = stdout w
  ∧ (∀ k n, files w !! k = Some n → files w' !! k = Some n)
  ∧ (∀ k, ¬ k `prefix_of` resolve path → files w' !! k = files w !! k)
  ∧ (r = Ok tt → os_path_isdir w' path = true).
Proof.
  unfold os_makedirs. destruct (is_empty path) eqn:Hp.
  - intros [= <- <-]. by repeat split.
  - intros H. apply makedirs_from_spec in H
      as (Hout & Hkeep & Hother & Hok & _). cbn [app] in *.
    repeat split; try done. intros Hr. destruct (Hok Hr) as [Hne Hdir].
    unfold os_path_isdir, lookup_path. rewrite Hp.
    destruct (resolve path); [done|]. cbn [lookup_key]. by rewrite Hdir.
Qed.

(** ** Further lemmas on the file system *)

Lemma read_text_lookup (w : world) (p content : string) :
  read_text w p = Ok content →
  is_empty p = false ∧ resolve p ≠ []
  ∧ files w !! resolve p = Some (File content).
Proof.
  unfold read_text, lookup_path. destruct (is_empty p); [done|].
  destruct (resolve p) as [|c key]; [done|]. cbn [lookup_key].
  destruct (files w !! (c :: key)) as [[c'|]|]; [|done..].
  by intros [= ->].
Qed.

Lemma read_text_other (w : world) (p : string) (key : list string) (n : node) :
  resolve p ≠ key →
  read_text (set_files (insert key n) w) p = read_text w p.
Proof.
  intros Hne. unfold read_text, lookup_path, lookup_key.
  destruct (is_empty p); [done|]. destruct (resolve p) as [|c k]; [done|].
  cbn [files set_files]. by rewrite lookup_insert_ne.
Qed.

Lemma open_w_cases (p : string) (w : world) :
  (can_open_w w p = true
   ∧ open_w p w = (set_files (insert (resolve p) (File "")) w, Ok (resolve p)))
  ∨ (can_open_w w p = false
     ∧ ∃ code, open_w p w = (w, Raise (OSError code p))).
Proof.
  destruct (can_open_w w p) eqn:Hcan; [left; split; [done|by apply open_w_ok]|].
  right. split; [done|]. unfold can_open_w, open_w in *.
  destruct (lookup_path w p) as [[c|]|]; [done|by eexists|].
  destruct (is_empty p); [by eexists|]. cbn [negb andb] in Hcan.
  destruct (parent_error w (resolve p)); [by eexists|done].
Qed.

(** A copy, whatever its member and its outcome, prints nothing and touches
    no entry but the destination. *)
Lemma copyfile_brainvision_frame (_parse_ext : string → string * string)
    (src dest : string) (w w' : world) (r : res unit) :
  copyfile_brainvision _parse_ext src dest w = (w', r) →
  stdout w' = stdout w
  ∧ ∀ k, k ≠ resolve dest → files w' !! k = files w !! k.
Proof.
  assert (Hins : ∀ c, stdout (set_files (insert (resolve dest) (File c)) w)
                      = stdout w
    ∧ ∀ k, k ≠ resolve dest →
           files (set_files (insert (resolve dest) (File c)) w) !! k
           = files w !! k).
  { intros c. split; [done|]. intros k Hk. cbn [files set_files].
    by rewrite lookup_insert_ne. }
  unfold copyfile_brainvision.
  destruct (os_path_exists w src); cbn [negb]; [|by intros [= <- <-]].
  destruct (_parse_ext src) as [fname_src ext_src].
  destruct (_parse_ext dest) as [fname_dest ext_dest].
  destruct (bool_decide (ext_src = ext_dest)); cbn [negb];
    [|by intros [= <- <-]].
  destruct (bool_decide (ext_src ∈ bv_ext)); cbn [negb];
    [|by intros [= <- <-]].
  destruct (bool_decide (ext_src = ".eeg")).
  - unfold sh_copyfile. destruct (_ && _); [by intros [= <- <-]|].
    destruct (read_text w src) as [content|e]; [|by intros [= <- <-]].
    destruct (open_w_cases dest w) as [[_ ->]|[_ [code ->]]];
      [|by intros [= <- <-]].
    rewrite write_insert. intros [= <- <-]. apply Hins.
  - destruct (read_text w src) as [content|e]; [|by intros [= <- <-]].
    destruct (open_w_cases dest w) as [[_ ->]|[_ [code ->]]];
      [|by intros [= <- <-]].
    rewrite fold_write. intros [= <- <-]. apply Hins.
Qed.

(** ** Further lemmas on [replace] *)

Lemma replace_from_skip (old new : string) (k : nat) (s : string) :
  replace_from old new k s = replace_from old new 0 (skip_chars k s).
Proof.
  revert k. induction s as [|c s IH]; intros [|k]; try done.
  cbn [replace_from skip_chars]. apply IH.
Qed.

Lemma prefix_app (b s : string) : String.prefix b (b +:+ s) = true.
Proof.
  induction b as [|a b IH]; [by destruct s|].
  rewrite app_String. cbn [String.prefix].
  by destruct (ascii_dec a a).
Qed.

Lemma skip_chars_app (b s : string) :
  skip_chars (String.length b) (b +:+ s) = s.
Proof.
  induction b as [|a b IH]; [by destruct s|].
  rewrite app_String. cbn [String.length skip_chars]. apply IH.
Qed.

Lemma prefix_inv (b s : string) :
  String.prefix b s = true → ∃ t, s = b +:+ t.
Proof.
  revert s. induction b as [|a b IH]; intros s; [by exists s|].
  destruct s as [|c s]; [done|]. cbn [String.prefix].
  destruct (ascii_dec a c) as [->|]; [|done].
  intros [t ->]%IH. exists t. by rewrite app_String.
Qed.

Lemma replace_from_hit (a : ascii) (old new s : string) :
  replace_from (String a old) new 0 (String a old +:+ s)
  = new +:+ replace_from (String a old) new 0 s.
Proof.
  pose proof (prefix_app (String a old) s) as Hpre.
  rewrite app_String in *. cbn [replace_from]. rewrite Hpre.
  rewrite replace_from_skip.
  replace (String.length (String a old) - 1)%nat with (String.length old)
    by (cbn [String.length]; lia).
  by rewrite skip_chars_app.
Qed.

Lemma replace_from_miss (a : ascii) (old new pre s : string) :
  occurs a pre = false →
  replace_from (String a old) new 0 (pre +:+ s)
  = pre +:+ replace_from (String a old) new 0 s.
Proof.
  induction pre as [|c pre IH]; [done|]. cbn [occurs].
  intros [Hc Hpre]%orb_false_elim. apply bool_decide_eq_false_1 in Hc.
  rewrite !app_String. cbn [replace_from String.prefix].
  destruct (ascii_dec a c) as [->|_]; [done|]. by rewrite IH.
Qed.

Lemma replace_from_same (a : ascii) (old s : string) :
  replace_from (String a old) (String a old) 0 s = s.
Proof.
  remember (String.length s) as n eqn:Hn.
  revert s Hn. induction (lt_wf n) as [n _ IH]. intros s ->.
  destruct s as [|c s]; [done|].
  destruct (String.prefix (String a old) (String c s)) eqn:Hpre.
  - destruct (prefix_inv _ _ Hpre) as [t Ht]. rewrite Ht.
    rewrite replace_from_hit. f_equal. eapply IH; [|done].
    rewrite Ht, length_app_s. cbn [String.length]. lia.
  - cbn [replace_from]. rewrite Hpre. f_equal. eapply IH; [|done].
    cbn [String.length]. lia.
Qed.

Lemma replace_same (s b : string) : replace s b b = s.
Proof.
  unfold replace. destruct b as [|a b]; cbn [is_empty].
  - induction s as [|c s IH]; [done|]. cbn [interleave].
    by rewrite app_empty_l, IH.
  - apply replace_from_same.
Qed.

Lemma new_line_same (b l : string) : new_line b b l = l.
Proof. unfold new_line. destruct (bool_decide _); [apply replace_same|done]. Qed.

Lemma fmap_id_lines (g : string → string) (ls : list string) :
  Forall (λ l, g l = l) ls → g <$> ls = ls.
Proof.
  induction 1 as [|l ls Hl _ IH]; [done|]. cbn. by rewrite Hl, IH.
Qed.

(** ** Lemmas on plain basenames *)

Lemma plain_basename_inv (b : string) :
  plain_basename b = true →
  ∃ a b', b = String a b' ∧ is_space a = false
          ∧ occurs a "DataFile=" = false ∧ occurs a ".eeg" = false
          ∧ occurs a "MarkerFile=" = false ∧ occurs a ".vmrk" = false
          ∧ occurs LF b = false.
Proof.
  unfold plain_basename. destruct b as [|a b']; [done|].
  intros [[Hfixed Hspace]%andb_prop Hlf]%andb_prop.
  apply negb_true_iff in Hfixed, Hspace, Hlf.
  unfold fixed_chars in Hfixed. rewrite !occurs_app in Hfixed.
  apply orb_false_elim in Hfixed as [? [? [? ?]%orb_false_elim
    ]%orb_false_elim].
  exists a, b'. by repeat split.
Qed.

Lemma replace_reference (pre post b d w1 w2 : string) (a : ascii) (b' : string) :
  b = String a b' → is_space a = false →
  occurs a pre = false → occurs a post = false →
  all_chars is_space w1 = true → all_chars is_space w2 = true →
  replace (w1 +:+ (pre +:+ b +:+ post) +:+ w2) b d
  = w1 +:+ (pre +:+ d +:+ post) +:+ w2.
Proof.
  intros -> Ha Hpre Hpost Hw1 Hw2. unfold replace. cbn [is_empty].
  rewrite !app_assoc_s.
  rewrite replace_from_miss by by apply (occurs_all_chars is_space).
  rewrite replace_from_miss by done. rewrite replace_from_hit.
  rewrite <- (app_empty_r (post +:+ w2)) at 1.
  rewrite replace_from_miss.
  - cbn [replace_from]. by rewrite app_empty_r.
  - rewrite occurs_app, Hpost. by apply (occurs_all_chars is_space).
Qed.

Lemma new_line_plain (b d w1 w2 ref : string) :
  plain_basename b = true →
  all_chars is_space w1 = true → all_chars is_space w2 = true →
  (ref = "DataFile=" +:+ b +:+ ".eeg"
   → new_line b d (w1 +:+ ref +:+ w2)
     = w1 +:+ ("DataFile=" +:+ d +:+ ".eeg") +:+ w2)
  ∧ (ref = "MarkerFile=" +:+ b +:+ ".vmrk"
     → new_line b d (w1 +:+ ref +:+ w2)
       = w1 +:+ ("MarkerFile=" +:+ d +:+ ".vmrk") +:+ w2).
Proof.
  intros (a & b' & Hb & Ha & H1 & H2 & H3 & H4 & _)%plain_basename_inv Hw1 Hw2.
  split; intros ->.
  - rewrite new_line_match.
    + by eapply replace_reference.
    + destruct (search_lines_strip b ("DataFile=" +:+ b +:+ ".eeg")) as [? ?];
        [by left|]. rewrite strip_decorated by done. by left.
  - rewrite new_line_match.
    + by eapply replace_reference.
    + destruct (search_lines_strip b ("MarkerFile=" +:+ b +:+ ".vmrk"))
        as [? ?]; [right; by left|].
      rewrite strip_decorated by done. right. by left.
Qed.

(** What the loop does to a line when the source basename is plain. *)
Lemma new_line_plain_cases (b d l : string) :
  plain_basename b = true →
  (∃ w1 w2 pre post,
      all_chars is_space w1 = true ∧ all_chars is_space w2 = true
      ∧ ((pre = "DataFile=" ∧ post = ".eeg")
         ∨ (pre = "MarkerFile=" ∧ post = ".vmrk"))
      ∧ l = w1 +:+ (pre +:+ b +:+ post) +:+ w2
      ∧ new_line b d l = w1 +:+ (pre +:+ d +:+ post) +:+ w2)
  ∨ ((strip l ∉ search_lines b) ∧ new_line b d l = l).
Proof.
  intros Hb. destruct (strip_split l) as (w1 & w2 & Hl & Hw1 & Hw2).
  destruct (decide (strip l ∈ search_lines b)) as [Hin|Hnot];
    [|right; split; [done|by apply new_line_other]].
  left. destruct (new_line_plain b d w1 w2 (strip l) Hb Hw1 Hw2) as [HD HM].
  unfold search_lines in Hin. rewrite !elem_of_cons, elem_of_nil in Hin.
  destruct Hin as [Hs|[Hs|[]]].
  - exists w1, w2, "DataFile=", ".eeg". rewrite <- Hs, <- Hl.
    repeat split; try done; [by left|]. rewrite Hl at 1. by apply HD.
  - exists w1, w2, "MarkerFile=", ".vmrk". rewrite <- Hs, <- Hl.
    repeat split; try done; [by right|]. rewrite Hl at 1. by apply HM.
Qed.

Lemma new_line_plain_shape (b d l : string) :
  plain_basename b = true → occurs LF d = false →
  terminated (new_line b d l) = terminated l
  ∧ unterminated (new_line b d l) = unterminated l.
Proof.
  intros Hb Hd.
  destruct (plain_basename_inv b Hb) as (_ & _ & _ & _ & _ & _ & _ & _ & Hlf).
  destruct (new_line_plain_cases b d l Hb)
    as [(w1 & w2 & pre & post & _ & _ & Hpp & -> & ->)|[_ ->]]; [|done].
  assert (occurs LF pre = false ∧ occurs LF post = false
          ∧ is_empty post = false ∧ terminated post = false)
    as (Hpre & Hpost & Hpe & Hpt)
    by (destruct Hpp as [[-> ->]|[-> ->]]; by repeat split).
  split.
  - rewrite !terminated_app, !is_empty_app, !occurs_app, Hpe, Hpt, Hpre,
      Hpost, Hlf, Hd. by rewrite !andb_false_r.
  - rewrite !unterminated_app, !is_empty_app, !occurs_app, Hpe, Hpre, Hpost,
      Hlf, Hd. by rewrite !andb_false_r.
Qed.

(** ** Further lemmas on reading in text mode *)

Lemma translate_newlines_app (l t : string) :
  occurs CR l = false →
  translate_newlines false (l +:+ t) = l +:+ translate_newlines false t.
Proof.
  induction l as [|c l IH]; [by rewrite !app_empty_l|].
  cbn [occurs]. intros [Hc Hl]%orb_false_elim.
  apply bool_decide_eq_false in Hc.
  rewrite !app_String. cbn [translate_newlines].
  rewrite decide_False by done. rewrite (IH Hl).
  by destruct (decide (c = LF)) as [->|].
Qed.

Lemma translate_newlines_crlf (t : string) :
  translate_newlines false (crlf +:+ t) = nl +:+ translate_newlines false t.
Proof. reflexivity. Qed.

(** Lines that end in CR LF are read as lines that end in a line feed. *)
Lemma universal_newlines_crlf (ls : list string) :
  Forall (λ l, occurs CR l = false) ls →
  universal_newlines (String.concat "" ((λ l, l +:+ crlf) <$> ls)) = text ls.
Proof.
  unfold universal_newlines, text.
  induction 1 as [|l ls Hl _ IH]; [done|].
  rewrite !fmap_cons, !concat_cons, !app_assoc_s.
  rewrite translate_newlines_app by done. f_equal.
  by rewrite translate_newlines_crlf, IH.
Qed.

Lemma readlines_no_CR (s : string) :
  Forall (λ l, occurs CR l = false) (readlines (universal_newlines s)).
Proof.
  apply occurs_concat. rewrite concat_readlines.
  apply universal_newlines_no_CR.
Qed.

Lemma new_line_plain_no_CR (b d l : string) :
  plain_basename b = true → occurs CR d = false → occurs CR l = false →
  occurs CR (new_line b d l) = false.
Proof.
  intros Hb Hd.
  destruct (new_line_plain_cases b d l Hb)
    as [(w1 & w2 & pre & post & _ & _ & Hpp & -> & ->)|[_ ->]]; [|done].
  assert (occurs CR pre = false ∧ occurs CR post = false) as [Hpre Hpost]
    by (destruct Hpp as [[-> ->]|[-> ->]]; by split).
  rewrite !occurs_app, Hpre, Hpost, Hd.
  intros [H1 [[_ [H2 _]%orb_false_elim]%orb_false_elim H3]%orb_false_elim
    ]%orb_false_elim.
  by rewrite H1, H3.
Qed.

Lemma readlines_single (l : string) : terminated l = true → readlines l = [l].
Proof.
  intros Hl. rewrite <- (app_empty_r l) at 1.
  by rewrite readlines_terminated.
Qed.

(** A one-letter basename taken from [DataFile]: the letter is replaced
    wherever it stands in the reference line. *)
Example replace_letter_values :
  new_line "a" "b" ("DataFile=a.eeg" +:+ nl) = "DbtbFile=b.eeg" +:+ nl
  ∧ new_line "e" "rec" ("DataFile=e.eeg" +:+ nl)
    = "DataFilrec=rec.recrecg" +:+ nl.
Proof. by vm_compute. Qed.

Lemma new_line_letter (c : ascii) (d : string) :
  occurs c "DataFile" = true →
  new_line (String c "") d ("DataFile=" +:+ String c ".eeg" +:+ nl)
  = "DataFile=" +:+ d +:+ ".eeg" +:+ nl →
  d = String c "".
Proof.
  cbn [occurs]. rewrite !orb_true_iff, !bool_decide_eq_true.
  intros Hc. repeat (destruct Hc as [Hc|Hc]); try discriminate; subst c.
  all: rewrite new_line_match
    by (apply (bool_decide_unpack _); vm_compute; exact I).
  all: unfold replace; cbn [is_empty].
  all: rewrite !app_String, !app_empty_l.
  all: cbn -[String.append].
  all: unfold nl; intros H;
    pose proof (f_equal String.length H) as Hlen;
    repeat (rewrite ?length_app_s in Hlen; cbn [String.length] in Hlen);
    (destruct d as [|x [|y d']]; cbn [String.length] in Hlen; try lia);
    rewrite ?app_String, ?app_empty_l in H; congruence.
Qed.

(** ** Lemmas on [pop] and on the description *)

Lemma pop_absent (d : list (string * field)) (key : string) : key ∉ d.*1 → pop d key = d.
Proof.
  induction d as [|[k v] d IH]; [done|]. rewrite fmap_cons, not_elem_of_cons.
  cbn [fst pop]. intros [Hne Hd]. rewrite decide_False by done.
  by rewrite IH.
Qed.

Lemma pop_filter (d : list (string * field)) (key : string) :
  NoDup d.*1 → pop d key = filter (λ kv, kv.1 ≠ key) d.
Proof.
  induction d as [|[k v] d IH]; [done|]. rewrite fmap_cons, NoDup_cons.
  cbn [fst pop]. intros [Hk Hd]. destruct (decide (k = key)) as [->|Hne].
  - rewrite filter_cons_False by (cbn; tauto).
    rewrite <- IH by done. by rewrite pop_absent.
  - rewrite filter_cons_True by done. by rewrite IH.
Qed.

Lemma NoDup_filter_keys (P : string * field → Prop) `{∀ kv, Decision (P kv)}
    (d : list (string * field)) :
  NoDup d.*1 → NoDup (filter P d).*1.
Proof.
  intros Hd. eapply sublist_NoDup; [exact Hd|].
  apply fmap_sublist, sublist_filter.
Qed.

Lemma filter_iff_in {A : Type} (P Q : A → Prop) `{∀ x, Decision (P x)}
    `{∀ x, Decision (Q x)} (l : list A) :
  Forall (λ x, P x ↔ Q x) l → filter P l = filter Q l.
Proof.
  induction 1 as [|x l Hx _ IH]; [done|].
  destruct (decide (P x)) as [HP|HP].
  - rewrite !filter_cons_True by tauto. by rewrite IH.
  - rewrite !filter_cons_False by tauto. done.
Qed.

Lemma fold_pop_filter (ks : list string) (d : list (string * field)) :
  NoDup d.*1 → fold_left pop ks d = filter (λ kv, kv.1 ∉ ks) d.
Proof.
  revert d. induction ks as [|k ks IH]; intros d Hd.
  - cbn [fold_left]. symmetry. induction d as [|kv d IHd]; [done|].
    rewrite filter_cons_True by apply not_elem_of_nil.
    rewrite fmap_cons, NoDup_cons in Hd. f_equal. apply IHd, Hd.
  - cbn [fold_left]. rewrite pop_filter by done.
    rewrite IH by by apply NoDup_filter_keys.
    rewrite list_filter_filter. apply list_filter_iff.
    intros kv. rewrite not_elem_of_cons. tauto.
Qed.

(** The loop that pops the keys of the [None] fields keeps exactly the
    other fields, in their order. *)
Lemma pop_None_fields (d : list (string * field)) :
  NoDup d.*1 →
  fold_left pop (filter (λ kv, kv.2 = FNone) d).*1 d
  = filter (λ kv, kv.2 ≠ FNone) d.
Proof.
  intros Hd. rewrite fold_pop_filter by done.
  induction d as [|[k v] d IH]; [done|].
  rewrite fmap_cons, NoDup_cons in Hd. destruct Hd as [Hk Hd]. cbn [fst] in Hk.
  destruct (decide (v = FNone)) as [->|Hv].
  - rewrite (filter_cons_True (λ kv, kv.2 = FNone)) by done.
    rewrite fmap_cons. cbn [fst].
    rewrite filter_cons_False by (cbn; rewrite elem_of_cons; tauto).
    rewrite filter_cons_False by (cbn; tauto).
    rewrite <- IH by done. apply filter_iff_in.
    apply Forall_forall. intros [k' v'] Hin. cbn [fst].
    rewrite not_elem_of_cons. split; [tauto|]. intros Hnot. split; [|done].
    intros ->. apply Hk. apply list_elem_of_fmap. by exists (k, v').
  - rewrite (filter_cons_False (λ kv, kv.2 = FNone)) by done.
    rewrite filter_cons_True.
    + rewrite filter_cons_True by done. by rewrite IH.
    + cbn [fst]. intros (kv & -> & Hin%list_elem_of_filter)%list_elem_of_fmap.
      apply Hk. apply list_elem_of_fmap. exists kv. tauto.
Qed.

(** ** Lemmas on [split_str] *)

Lemma split_from_nonempty (sep : string) (k : nat) (s : string) :
  split_from sep k s ≠ [].
Proof.
  revert k. induction s as [|c s IH]; intros k; [done|].
  cbn [split_from]. destruct k; [|apply IH].
  destruct (String.prefix sep (String c s)); [done|].
  by destruct (split_from sep 0 s).
Qed.

Lemma split_from_skip (sep : string) (k : nat) (s : string) :
  split_from sep k s = split_from sep 0 (skip_chars k s).
Proof.
  revert k. induction s as [|c s IH]; intros [|k]; try done.
  cbn [split_from skip_chars]. apply IH.
Qed.

(** Joining the pieces of a string with the separator gives it back. *)
Lemma join_split_str (a : ascii) (sep s : string) :
  join (String a sep) (split_str s (String a sep)) = s.
Proof.
  unfold split_str. remember (String.length s) as n eqn:Hn.
  revert s Hn. induction (lt_wf n) as [n _ IH]. intros s ->.
  destruct s as [|c s]; [done|]. cbn [split_from].
  destruct (String.prefix (String a sep) (String c s)) eqn:Hpre.
  - destruct (prefix_inv _ _ Hpre) as [t Ht].
    rewrite split_from_skip.
    replace (String.length (String a sep) - 1)%nat with (String.length sep)
      by (cbn [String.length]; lia).
    rewrite app_String in Ht. injection Ht as Hc Hs. subst c s.
    rewrite skip_chars_app.
    assert (join (String a sep) (split_from (String a sep) 0 t) = t) as Ht.
    { eapply IH; [|done]. cbn [String.length]. rewrite length_app_s. lia. }
    destruct (split_from (String a sep) 0 t) as [|p ps] eqn:E;
      [by apply split_from_nonempty in E|].
    unfold join in *. cbn [String.concat] in *.
    by rewrite app_empty_l, Ht, app_String.
  - assert (join (String a sep) (split_from (String a sep) 0 s) = s) as Hs.
    { eapply IH; [|done]. cbn [String.length]. lia. }
    destruct (split_from (String a sep) 0 s) as [|p ps] eqn:E;
      [by apply split_from_nonempty in E|].
    unfold join in *. destruct ps as [|q ps'].
    + cbn [String.concat] in *. by rewrite Hs.
    + change (String.concat (String a sep) (String c p :: q :: ps'))
        with (String c p +:+ String a sep
              +:+ String.concat (String a sep) (q :: ps')).
      change (String.concat (String a sep) (p :: q :: ps'))
        with (p +:+ String a sep
              +:+ String.concat (String a sep) (q :: ps')) in Hs.
      by rewrite app_String, Hs.
Qed.

(** ** Lemmas on [print_dir_tree] *)

Lemma length_split (c : ascii) (s : string) :
  length (split c s) = S (count_char c s).
Proof.
  induction s as [|a s IH]; [done|]. cbn [split count_char].
  destruct (decide (a = c)); cbn [length]; [by rewrite IH|].
  destruct (split c s); [done|]. cbn [length Nat.add] in *. lia.
Qed.

Lemma fold_print (g : string → string) (ls : list string) (w : world) :
  fold_left (λ w l, print (g l) w) ls w
  = {| files := files w; stdout := stdout w ++ (g <$> ls) |}.
Proof.
  revert w. induction ls as [|l ls IH]; intros w.
  - cbn. rewrite app_nil_r. by destruct w.
  - cbn [fold_left]. rewrite IH. unfold print. cbn [files stdout].
    by rewrite <- app_assoc.
Qed.

Lemma split_from_whole (sep s : string) :
  is_empty sep = false → contains sep s = false →
  split_from sep 0 s = [s].
Proof.
  intros Hsep. induction s as [|c s IH]; [done|]. cbn [contains split_from].
  intros [-> Hs]%orb_false_elim. by rewrite IH.
Qed.

Lemma print_tree_fold
    (walk : list (string * list string * list string)) (w : world) :
  fold_left
    (λ w '(root, dirs, files),
       let path := split os_sep root in
       let w := print2 (repeat_str (length path - 1) "-----")
                  (basename root) w in
       fold_left
         (λ w file, print2 (repeat_str (length path) "-----") file w)
         files w)
    walk w
  = {| files := files w;
       stdout := stdout w ++ concat (tree_lines <$> walk) |}.
Proof.
  revert w. induction walk as [|[[root dirs] fs] walk IH]; intros w.
  - cbn. rewrite app_nil_r. by destruct w.
  - cbn [fold_left]. rewrite IH. cbv zeta. unfold print2.
    rewrite (fold_print
               (λ file, repeat_str (length (split os_sep root)) "-----"
                        +:+ " " +:+ file)).
    unfold print. cbn [files stdout fmap list_fmap concat tree_lines].
    rewrite !length_split. cbn [Nat.sub]. rewrite Nat.sub_0_r.
    f_equal. by rewrite <- !app_assoc.
Qed.

(** ** Lemmas on the reference lines of two basenames *)

Lemma app_inj_r (s1 s2 t : string) : s1 +:+ t = s2 +:+ t → s1 = s2.
Proof.
  revert s2. induction s1 as [|c s1 IH]; intros [|c' s2] H.
  - done.
  - apply (f_equal String.length) in H. rewrite app_empty_l, app_String in H.
    cbn [String.length] in H. rewrite length_app_s in H. lia.
  - apply (f_equal String.length) in H. rewrite app_empty_l, app_String in H.
    cbn [String.length] in H. rewrite length_app_s in H. lia.
  - rewrite !app_String in H. injection H as -> H. f_equal. by apply IH.
Qed.

Lemma search_lines_disjoint (b d ref : string) :
  b ≠ d → ref ∈ search_lines d → ref ∉ search_lines b.
Proof.
  intros Hne. unfold search_lines. rewrite !elem_of_cons, !elem_of_nil.
  intros [->|[->|[]]] [H|[H|[]]].
  - apply Hne. symmetry. eapply app_inj_r.
    by apply (inj (String.append "DataFile=")) in H.
  - cbv [String.append] in H. discriminate.
  - cbv [String.append] in H. discriminate.
  - apply Hne. symmetry. eapply app_inj_r.
    by apply (inj (String.append "MarkerFile=")) in H.
Qed.

(** The path is a directory once [_mkdir_p] has returned. *)
Lemma mkdir_p_returns_directory (path : string) (overwrite verbose : bool)
    (w w' : world) :
  _mkdir_p path overwrite verbose w = (w', Ok tt) →
  os_path_isdir w' path = true.
Proof.
  intros H.
  destruct (mkdir_p_unfold path overwrite verbose w)
    as (w1 & w2 & r & _ & Hmk & [[-> Heq]|[(name & -> & Hdir & Heq)
       |(e & -> & Heq)]]); rewrite Heq in H.
  - injection H as <-. apply os_makedirs_spec in Hmk as (_ & _ & _ & Hok).
    destruct verbose; [rewrite os_path_isdir_print|]; by apply Hok.
  - by injection H as <-.
  - done.
Qed.

(** With [overwrite], what is below the path goes; the rest stays. *)
Lemma mkdir_p_overwrite_below (path : string) (verbose : bool) (w : world) :
  os_path_isdir w path = true →
  (∀ k, resolve path `prefix_of` k → k ≠ resolve path →
        files (_mkdir_p path true verbose w).1 !! k = None)
  ∧ (∀ k, ¬ resolve path `prefix_of` k → ¬ k `prefix_of` resolve path →
          files (_mkdir_p path true verbose w).1 !! k = files w !! k).
Proof.
  intros Hdir.
  destruct (mkdir_p_unfold path true verbose w) as (w1 & w2 & r & Hw1 & Hmk & H).
  rewrite Hdir in Hw1. cbn [andb] in Hw1.
  assert (files w1 = filter (λ kv, ¬ resolve path `prefix_of` kv.1) (files w))
    as Hfiles by (subst w1; by destruct verbose).
  assert (files (_mkdir_p path true verbose w).1 = files w2) as ->.
  { destruct H as [[_ ->]|[(name & _ & _ & ->)|(e & _ & ->)]]; [|done..].
    by destruct verbose. }
  apply os_makedirs_spec in Hmk as (_ & _ & Hother & _). split.
  - intros k Hpre Hne. rewrite Hother.
    + rewrite Hfiles. apply map_lookup_filter_None. right.
      intros n _ Hnot. by apply Hnot.
    + intros Hk. apply Hne. by apply (anti_symm prefix).
  - intros k Hnot Hnot'. rewrite Hother by done. rewrite Hfiles.
    destruct (files w !! k) as [n|] eqn:Hk.
    + by apply map_lookup_filter_Some.
    + apply map_lookup_filter_None. by left.
Qed.

(** * The properties of the specification *)

(** ** [make_bids_filename] *)

(** C2: whatever the order in which the keyword arguments are written at the
    call ([kwargs'] is any rearrangement of [kwargs]), the name is made of the
    tokens of the entities that are not [None], each rendered [key-value], in
    the order sub, ses, task, acq, run, proc, space, recording, joined by
    [_], with a string suffix as the last token; and the docstring's call
    gives [sub-test_ses-two_task-mytask_data.csv]. *)
Theorem make_bids_filename_canonical_order
    (kwargs kwargs' : list (string * value)) :
  NoDup kwargs.*1 →
  Forall (λ k, k ∈ parameters) kwargs.*1 →
  kwargs ≡ₚ kwargs' →
  Forall (λ v, entity_ok v = true)
    [argument kwargs "subject"; argument kwargs "session";
     argument kwargs "task"; argument kwargs "acquisition";
     argument kwargs "processing"; argument kwargs "recording";
     argument kwargs "space"] →
  run_ok (argument kwargs "run") = true →
  call_make_bids_filename kwargs'
  = Ok (with_prefix (argument kwargs "prefix")
          (join "_"
             (entity_tokens
                [("sub", argument kwargs "subject");
                 ("ses", argument kwargs "session");
                 ("task", argument kwargs "task");
                 ("acq", argument kwargs "acquisition");
                 ("run", normalize_run (argument kwargs "run"));
                 ("proc", argument kwargs "processing");
                 ("space", argument kwargs "space");
                 ("recording", argument kwargs "recording")]
              ++ suffix_tokens (argument kwargs "suffix"))))
  ∧ make_bids_filename (VStr "test") (VStr "two") (VStr "mytask") VNone
      VNone VNone VNone VNone (VStr "data.csv") VNone
    = Ok "sub-test_ses-two_task-mytask_data.csv".
Proof.
  intros Hnodup Hparams Hperm Hall Hrun. split; [|reflexivity].
  unfold call_make_bids_filename.
  rewrite list_find_parameters.
  2:{ by rewrite <- Hperm. }
  cbv zeta. rewrite !(argument_Permutation kwargs kwargs') by done.
  by apply make_bids_filename_ok.
Qed.

Lemma make_bids_filename_canonical_order_witness :
  call_make_bids_filename
    [("suffix", VStr "data.csv"); ("run", VInt 3); ("task", VStr "mytask");
     ("subject", VStr "test")]
  = Ok "sub-test_task-mytask_run-03_data.csv"
  ∧ make_bids_filename (VStr "test") (VStr "two") (VStr "mytask") VNone
      VNone VNone VNone VNone (VStr "data.csv") VNone
    = Ok "sub-test_ses-two_task-mytask_data.csv".
Proof.
  apply (make_bids_filename_canonical_order
           [("subject", VStr "test"); ("task", VStr "mytask");
            ("run", VInt 3); ("suffix", VStr "data.csv")]
           [("suffix", VStr "data.csv"); ("run", VInt 3);
            ("task", VStr "mytask"); ("subject", VStr "test")]).
  - apply (bool_decide_unpack _). vm_compute. exact I.
  - apply (bool_decide_unpack _). vm_compute. exact I.
  - apply (reverse_Permutation
             [("suffix", VStr "data.csv"); ("run", VInt 3);
              ("task", VStr "mytask"); ("subject", VStr "test")]).
  - apply (bool_decide_unpack _). vm_compute. exact I.
  - reflexivity.
Defined.

(** C3: when the string of some entity value (for [run], the string it is
    formatted to) holds [-], [_] or [/], [make_bids_filename] raises and
    returns no name; when the other values are strings or [None] the error
    is the one of [_check_key_val], for a pair of the table that holds such
    a character. Conversely [_check_key_val] returns the pair unchanged when
    the value holds none of the three. *)
Theorem make_bids_filename_unallowed
    (subject session task acquisition run processing recording space
       suffix prefix : value) (key s : string) :
  (key, VStr s) ∈ canonical subject session task acquisition
                    (normalize_run run) processing recording space →
  has_unallowed s = true →
  (∃ msg, make_bids_filename subject session task acquisition run processing
            recording space suffix prefix = Raise (ValueError msg))
  ∧ (Forall (λ v, str_or_None v = true)
       [subject; session; task; acquisition; processing; recording; space] →
     ∃ k' s',
       (k', VStr s') ∈ canonical subject session task acquisition
                         (normalize_run run) processing recording space
       ∧ has_unallowed s' = true
       ∧ make_bids_filename subject session task acquisition run processing
           recording space suffix prefix
         = Raise (ValueError (key_val_msg k' (VStr s'))))
  ∧ (∀ k val, has_unallowed val = false →
       _check_key_val k (VStr val) = Ok (k, VStr val)).
Proof.
  intros Hin Hs.
  assert (Htyped :
    Forall (λ v, str_or_None v = true)
      [subject; session; task; acquisition; processing; recording; space] →
    ∃ k' s',
      (k', VStr s') ∈ canonical subject session task acquisition
                        (normalize_run run) processing recording space
      ∧ has_unallowed s' = true
      ∧ make_bids_filename subject session task acquisition run processing
          recording space suffix prefix
        = Raise (ValueError (key_val_msg k' (VStr s')))).
  { intros Hall. rewrite !Forall_cons in Hall.
    destruct Hall as (? & ? & ? & ? & ? & ? & ? & _).
    assert (str_or_None (normalize_run run) = true) by by destruct run.
    destruct (first_unallowed_Some _ _ _ Hin Hs) as (k' & s' & Hf & ? & ?).
    exists k', s'. split; [done|]. split; [done|].
    rewrite make_bids_filename_unfold. cbv zeta.
    rewrite check_types_ok.
    2:{ unfold canonical, values. cbn [fmap list_fmap snd].
        repeat (apply Forall_cons; split; [done|]). apply Forall_nil_2. }
    cbn [mbind res_bind].
    rewrite (filename_tokens_raise _ _ k' s'); [done| |done].
    unfold canonical. repeat (apply Forall_cons; split; [done|]).
    apply Forall_nil_2. }
  split; [|split; [exact Htyped|]].
  - destruct (decide (Forall (λ v, str_or_None v = true)
       [subject; session; task; acquisition; processing; recording; space]))
      as [Hall|Hnall].
    + destruct (Htyped Hall) as (k' & s' & _ & _ & ->). eauto.
    + apply not_Forall_Exists in Hnall; [|apply _].
      rewrite make_bids_filename_unfold. cbv zeta.
      destruct (check_types_raise
                  (values (canonical subject session task acquisition
                             (normalize_run run) processing recording space)))
        as (v & _ & ->); [|cbn; eauto].
      unfold canonical, values. cbn [fmap list_fmap snd].
      assert (Hnot : ∀ v, ¬ str_or_None v = true → str_or_None v = false)
        by (intros v; by destruct (str_or_None v)).
      rewrite !Exists_cons in Hnall. rewrite !Exists_cons.
      destruct Hnall as [?|[?|[?|[?|[?|[?|[?|H]]]]]]];
        [auto 12 using Hnot ..|by inversion H].
  - intros k val Hval. by apply check_key_val_ok.
Qed.

Lemma make_bids_filename_unallowed_witness :
  (∃ msg, make_bids_filename (VStr "01") (VStr "my_session") VNone VNone
            VNone VNone VNone VNone VNone VNone = Raise (ValueError msg))
  ∧ _check_key_val "ses" (VStr "two") = Ok ("ses", VStr "two").
Proof.
  destruct (make_bids_filename_unallowed (VStr "01") (VStr "my_session")
              VNone VNone VNone VNone VNone VNone VNone VNone
              "ses" "my_session") as (Hraise & _ & Hconv).
  - apply (bool_decide_unpack _). vm_compute. exact I.
  - reflexivity.
  - split; [exact Hraise|]. apply Hconv. reflexivity.
Defined.

(** C4 (the code departs from the claim): with the eight entities all
    [None] the guard of line 126 does not fire, since it looks at the keys
    of the table, which are always strings. No error is raised: the result
    is the suffix alone (joined onto the prefix), and the empty name when
    there is no suffix either. In fact no call at all raises the error of
    that guard. *)
Theorem make_bids_filename_no_entity (suffix prefix : value) :
  make_bids_filename VNone VNone VNone VNone VNone VNone VNone VNone
    suffix prefix
  = Ok (with_prefix prefix (join "_" (suffix_tokens suffix)))
  ∧ make_bids_filename VNone VNone VNone VNone VNone VNone VNone VNone
      VNone VNone = Ok ""
  ∧ make_bids_filename VNone VNone VNone VNone VNone VNone VNone VNone
      (VStr "data.csv") VNone = Ok "data.csv"
  ∧ (∀ subject session task acquisition run processing recording space,
       make_bids_filename subject session task acquisition run processing
         recording space suffix prefix
       ≠ Raise (ValueError "At least one parameter must be given.")).
Proof.
  split; [|split; [done|split; [done|]]].
  - rewrite make_bids_filename_ok; [done| |done].
    repeat (apply Forall_cons; split; [done|]). apply Forall_nil_2.
  - intros subject session task acquisition run processing recording space.
    rewrite make_bids_filename_unfold. cbv zeta.
    destruct (check_types_cases
                (values (canonical subject session task acquisition
                           (normalize_run run) processing recording space)))
      as [->|[v ->]]; [|cbn; intros H; cbv in H; discriminate].
    cbn [mbind res_bind].
    destruct (filename_tokens_cases
                (canonical subject session task acquisition
                   (normalize_run run) processing recording space) [])
      as [[tokens ->]|[(k & v & ->)|[msg ->]]]; cbn [mbind res_bind];
      [done| |done].
    unfold key_val_msg. intros H. cbv [String.append] in H. discriminate.
Qed.

(** C8: a [run] that is an integer [n] is replaced by the string
    ['{:02}'.format(n)], at least two characters wide, and from there on
    treated as a [run] given as that string. For a natural number this is
    [n] in decimal, with a leading zero below ten and in full from ten on,
    and the name holds the token [run-] followed by it. A [run] given as a
    string yields [run-] and that string as it is. So [run=7] gives
    [run-07], [run=100] gives [run-100] and [run='7'] gives [run-7]. *)
Theorem make_bids_filename_run
    (subject session task acquisition processing recording space
       suffix prefix : value) (n : Z) (s : string) :
  Forall (λ v, entity_ok v = true)
    [subject; session; task; acquisition; processing; recording; space] →
  has_unallowed s = false →
  make_bids_filename subject session task acquisition (VInt n) processing
    recording space suffix prefix
  = make_bids_filename subject session task acquisition (VStr (format_02 n))
      processing recording space suffix prefix
  ∧ (2 ≤ String.length (format_02 n))%nat
  ∧ (0 ≤ n →
     make_bids_filename subject session task acquisition (VInt n) processing
       recording space suffix prefix
     = Ok (with_prefix prefix
             (join "_"
                (entity_tokens [("sub", subject); ("ses", session);
                                ("task", task); ("acq", acquisition)]
                 ++ ["run-" +:+ format_02 n]
                 ++ entity_tokens [("proc", processing); ("space", space);
                                   ("recording", recording)]
                 ++ suffix_tokens suffix))))
  ∧ (0 ≤ n < 10 → format_02 n = "0" +:+ str_int n
                  ∧ String.length (format_02 n) = 2%nat)
  ∧ (10 ≤ n → format_02 n = str_int n)
  ∧ make_bids_filename subject session task acquisition (VStr s) processing
      recording space suffix prefix
    = Ok (with_prefix prefix
            (join "_"
               (entity_tokens [("sub", subject); ("ses", session);
                               ("task", task); ("acq", acquisition)]
                ++ ["run-" +:+ s]
                ++ entity_tokens [("proc", processing); ("space", space);
                                  ("recording", recording)]
                ++ suffix_tokens suffix)))
  ∧ make_bids_filename VNone VNone VNone VNone (VInt 7) VNone VNone VNone
      VNone VNone = Ok "run-07"
  ∧ make_bids_filename VNone VNone VNone VNone (VInt 100) VNone VNone VNone
      VNone VNone = Ok "run-100"
  ∧ make_bids_filename VNone VNone VNone VNone (VStr "7") VNone VNone VNone
      VNone VNone = Ok "run-7".
Proof.
  intros Hall Hs.
  assert (Hsplit : ∀ v,
    entity_tokens (canonical subject session task acquisition (VStr v)
                     processing recording space)
    = entity_tokens [("sub", subject); ("ses", session);
                     ("task", task); ("acq", acquisition)]
      ++ ["run-" +:+ v]
      ++ entity_tokens [("proc", processing); ("space", space);
                        ("recording", recording)]).
  { intros v. unfold canonical, entity_tokens.
    change [("sub", subject); ("ses", session); ("task", task);
            ("acq", acquisition); ("run", VStr v); ("proc", processing);
            ("space", space); ("recording", recording)]
      with ([("sub", subject); ("ses", session); ("task", task);
             ("acq", acquisition)]
            ++ [("run", VStr v)]
            ++ [("proc", processing); ("space", space);
                ("recording", recording)]).
    by rewrite !omap_app. }
  split; [by rewrite !make_bids_filename_unfold|].
  split; [apply format_02_length|].
  split; [|split; [|split; [|split; [|by repeat split]]]].
  - intros Hn. rewrite make_bids_filename_ok; [|done|by apply Z.leb_le].
    cbn [normalize_run]. by rewrite Hsplit, <- !app_assoc.
  - intros Hlt. rewrite format_02_small by lia. split; [done|].
    rewrite app_String, app_empty_l. cbn [String.length].
    by rewrite str_int_small by lia.
  - apply format_02_large.
  - rewrite make_bids_filename_ok; [|done|].
    + cbn [normalize_run]. by rewrite Hsplit, <- !app_assoc.
    + cbn [run_ok entity_ok]. by rewrite Hs.
Qed.

Lemma make_bids_filename_run_witness :
  make_bids_filename (VStr "test") VNone VNone VNone (VInt 7) VNone VNone
    VNone (VStr "data.csv") VNone = Ok "sub-test_run-07_data.csv"
  ∧ make_bids_filename (VStr "test") VNone VNone VNone (VStr "7") VNone VNone
      VNone (VStr "data.csv") VNone = Ok "sub-test_run-7_data.csv".
Proof.
  destruct (make_bids_filename_run (VStr "test") VNone VNone VNone VNone VNone
              VNone (VStr "data.csv") VNone 7 "7")
    as (_ & _ & Hint & _ & _ & Hstr & _).
  - apply (bool_decide_unpack _). vm_compute. exact I.
  - reflexivity.
  - split; [apply Hint; lia|exact Hstr].
Defined.

(** C10: a suffix or a prefix that is not a string (so [None] or, say, an
    integer) raises nothing: [_check_types] is run on the eight entities
    only, the suffix is left out of the name and the prefix is not
    prepended. The call behaves as the one without suffix and prefix, and
    with sound entities it returns the name made of the entity tokens. *)
Theorem make_bids_filename_nonstring_suffix_prefix
    (subject session task acquisition run processing recording space
       suffix prefix other : value) :
  isinstance_str suffix = false →
  isinstance_str prefix = false →
  make_bids_filename subject session task acquisition run processing
    recording space suffix other
  = make_bids_filename subject session task acquisition run processing
      recording space VNone other
  ∧ make_bids_filename subject session task acquisition run processing
      recording space other prefix
    = make_bids_filename subject session task acquisition run processing
        recording space other VNone
  ∧ (Forall (λ v, entity_ok v = true)
       [subject; session; task; acquisition; processing; recording; space] →
     run_ok run = true →
     make_bids_filename subject session task acquisition run processing
       recording space suffix prefix
     = Ok (join "_"
             (entity_tokens
                [("sub", subject); ("ses", session); ("task", task);
                 ("acq", acquisition); ("run", normalize_run run);
                 ("proc", processing); ("space", space);
                 ("recording", recording)]))).
Proof.
  intros Hsuffix Hprefix.
  assert (suffix_tokens suffix = []) as Hs by by destruct suffix.
  assert (∀ name, with_prefix prefix name = name) as Hp
    by (intros; by destruct prefix).
  repeat split.
  - rewrite !make_bids_filename_unfold. cbv zeta. by rewrite Hs.
  - rewrite !make_bids_filename_unfold. cbv zeta.
    destruct (_check_types _); [|done]. cbn [mbind res_bind].
    destruct (filename_tokens _ _); [|done]. cbn [mbind res_bind].
    by rewrite Hp.
  - intros Hall Hrun.
    rewrite make_bids_filename_ok by done.
    by rewrite Hs, Hp, app_nil_r.
Qed.

Lemma make_bids_filename_nonstring_suffix_prefix_witness :
  make_bids_filename (VStr "test") VNone (VStr "mytask") VNone VNone VNone
    VNone VNone (VInt 5) (VInt 12)
  = Ok "sub-test_task-mytask".
Proof.
  destruct (make_bids_filename_nonstring_suffix_prefix (VStr "test") VNone
              (VStr "mytask") VNone VNone VNone VNone VNone
              (VInt 5) (VInt 12) VNone) as (_ & _ & Hok);
    [reflexivity..|].
  apply Hok; [|reflexivity].
  apply (bool_decide_unpack _). vm_compute. exact I.
Defined.

(** ** [copyfile_brainvision] *)

(** C1, as stated, fails: a header [foo.vhdr] written with CR LF line ends
    is copied to [bar.vhdr] with every line ending in a lone line feed. The
    line [[Common Infos]], which is no reference line, is not the line of
    the source byte for byte: its CR is gone. The text that C1 describes
    (the source with its two reference lines renamed) is not the text of
    the destination. *)
Lemma copyfile_brainvision_vhdr_crlf_not_identical :
  read_text crlf_header "foo.vhdr"
  = Ok ("[Common Infos]" +:+ crlf +:+ "DataFile=foo.eeg" +:+ crlf
        +:+ "MarkerFile=foo.vmrk" +:+ crlf)
  ∧ (copyfile_brainvision os_path_splitext "foo.vhdr" "bar.vhdr"
       crlf_header).2 = Ok tt
  ∧ read_text
      (copyfile_brainvision os_path_splitext "foo.vhdr" "bar.vhdr"
         crlf_header).1 "bar.vhdr"
    = Ok ("[Common Infos]" +:+ nl +:+ "DataFile=bar.eeg" +:+ nl
          +:+ "MarkerFile=bar.vmrk" +:+ nl)
  ∧ read_text
      (copyfile_brainvision os_path_splitext "foo.vhdr" "bar.vhdr"
         crlf_header).1 "bar.vhdr"
    ≠ Ok ("[Common Infos]" +:+ crlf +:+ "DataFile=bar.eeg" +:+ crlf
          +:+ "MarkerFile=bar.vmrk" +:+ crlf).
Proof.
  split; [by vm_compute|]. split; [by vm_compute|].
  split; [by vm_compute|]. vm_compute. discriminate.
Qed.

(** C1, amended: a [.vhdr] file of basename [foo] copied to a destination of
    basename [bar]. The source is read in text mode, so the lines copied
    are those of its text with every line end (CR LF or a lone CR) turned
    into a line feed: for a source without CR that text is the source
    itself, for a source whose lines end in CR LF it is the same lines
    ending in a line feed. The copy succeeds; the text of the destination
    holds no CR and is made of as many lines, in the same order: a line
    that reads [DataFile=foo.eeg] (resp. [MarkerFile=foo.vmrk]) reads
    [DataFile=bar.eeg] (resp. [MarkerFile=bar.vmrk]) in the destination,
    and every other line of the destination is the line as read, character
    for character. *)
Theorem copyfile_brainvision_vhdr (_parse_ext : string → string * string)
    (src dest content fname_src fname_dest : string) (w : world) :
  read_text w src = Ok content →
  can_open_w w dest = true →
  _parse_ext src = (fname_src, ".vhdr") →
  _parse_ext dest = (fname_dest, ".vhdr") →
  basename fname_src = "foo" →
  basename fname_dest = "bar" →
  ∃ w' content' ls ls',
    copyfile_brainvision _parse_ext src dest w = (w', Ok tt)
    ∧ read_text w' dest = Ok content'
    ∧ lines_of (universal_newlines content) ls
    ∧ (∀ ks, lines_of (universal_newlines content) ks → ks = ls)
    ∧ lines_of content' ls'
    ∧ Forall2 (λ l l',
        (l = "DataFile=foo.eeg" +:+ nl → l' = "DataFile=bar.eeg" +:+ nl)
        ∧ (l = "MarkerFile=foo.vmrk" +:+ nl
           → l' = "MarkerFile=bar.vmrk" +:+ nl)
        ∧ (strip l = "DataFile=foo.eeg" → strip l' = "DataFile=bar.eeg")
        ∧ (strip l = "MarkerFile=foo.vmrk"
           → strip l' = "MarkerFile=bar.vmrk")
        ∧ (strip l ≠ "DataFile=foo.eeg" → strip l ≠ "MarkerFile=foo.vmrk"
           → l' = l)) ls ls'
    ∧ occurs CR content' = false
    ∧ (occurs CR content = false → lines_of content ls)
    ∧ (∀ ks, Forall (λ k, occurs CR k = false ∧ occurs LF k = false) ks →
         content = String.concat "" ((λ k, k +:+ crlf) <$> ks) →
         ls = (λ k, k +:+ nl) <$> ks).
Proof.
  intros Hread Hopen Hsrc Hdest Hfoo Hbar.
  destruct (copyfile_brainvision_text_read _parse_ext src dest content
              fname_src fname_dest ".vhdr" w) as (w' & Hcopy & Hdest');
    [done..|by left|].
  rewrite Hfoo, Hbar in Hdest'.
  set (ls := readlines (universal_newlines content)) in *.
  exists w', (String.concat "" (new_line "foo" "bar" <$> ls)), ls,
    (new_line "foo" "bar" <$> ls).
  split; [done|]. split; [done|].
  split; [by apply lines_of_readlines|].
  split; [intros ks Hks; by apply lines_of_readlines|].
  split; [|split; [|split; [|split]]].
  - split; [done|]. rewrite lines_wf_new_line_foo. apply readlines_wf.
  - apply Forall2_fmap_r, Forall_Forall2_diag, Forall_forall.
    intros l _. apply new_line_foo_line.
  - apply occurs_concat, Forall_fmap.
    eapply Forall_impl; [apply readlines_no_CR|].
    intros l Hl. cbn. by rewrite new_line_foo_occurs_CR.
  - intros Hcr. rewrite <- (universal_newlines_id content Hcr) at 1.
    by apply lines_of_readlines.
  - intros ks Hks ->. symmetry. apply lines_of_readlines.
    rewrite universal_newlines_crlf
      by (eapply Forall_impl; [exact Hks|]; by intros k [? ?]).
    split; [done|]. apply lines_wf_terminated, Forall_fmap.
    eapply Forall_impl; [exact Hks|]. intros k [_ Hlf]. cbn.
    by rewrite terminated_app, Hlf.
Qed.

Lemma copyfile_brainvision_vhdr_witness :
  ∃ w' content' ls ls',
    copyfile_brainvision os_path_splitext "rec/foo.vhdr" "out/bar.vhdr"
      recording_foo = (w', Ok tt)
    ∧ read_text w' "out/bar.vhdr" = Ok content'
    ∧ lines_of (universal_newlines header_foo) ls
    ∧ (∀ ks, lines_of (universal_newlines header_foo) ks → ks = ls)
    ∧ lines_of content' ls'
    ∧ Forall2 (λ l l',
        (l = "DataFile=foo.eeg" +:+ nl → l' = "DataFile=bar.eeg" +:+ nl)
        ∧ (l = "MarkerFile=foo.vmrk" +:+ nl
           → l' = "MarkerFile=bar.vmrk" +:+ nl)
        ∧ (strip l = "DataFile=foo.eeg" → strip l' = "DataFile=bar.eeg")
        ∧ (strip l = "MarkerFile=foo.vmrk"
           → strip l' = "MarkerFile=bar.vmrk")
        ∧ (strip l ≠ "DataFile=foo.eeg" → strip l ≠ "MarkerFile=foo.vmrk"
           → l' = l)) ls ls'
    ∧ occurs CR content' = false
    ∧ (occurs CR header_foo = false → lines_of header_foo ls)
    ∧ (∀ ks, Forall (λ k, occurs CR k = false ∧ occurs LF k = false) ks →
         header_foo = String.concat "" ((λ k, k +:+ crlf) <$> ks) →
         ls = (λ k, k +:+ nl) <$> ks).
Proof.
  apply (copyfile_brainvision_vhdr os_path_splitext "rec/foo.vhdr"
           "out/bar.vhdr" header_foo "rec/foo" "out/bar" recording_foo).
  - vm_compute. reflexivity.
  - vm_compute. reflexivity.
  - vm_compute. reflexivity.
  - vm_compute. reflexivity.
  - vm_compute. reflexivity.
  - vm_compute. reflexivity.
Defined.

(** C5, as stated, fails: the line [  DataFile=foo.eeg ] of a header [foo]
    carries white space on both sides, and the copy to [bar] does not hold
    it verbatim: it reads [  DataFile=bar.eeg ]. *)
Lemma copyfile_brainvision_padded_line_not_verbatim :
  read_text padded_header "foo.vhdr" = Ok ("  DataFile=foo.eeg " +:+ nl)
  ∧ strip ("  DataFile=foo.eeg " +:+ nl) = "DataFile=foo.eeg"
  ∧ read_text
      (copyfile_brainvision os_path_splitext "foo.vhdr" "bar.vhdr"
         padded_header).1 "bar.vhdr"
    = Ok ("  DataFile=bar.eeg " +:+ nl)
  ∧ read_text
      (copyfile_brainvision os_path_splitext "foo.vhdr" "bar.vhdr"
         padded_header).1 "bar.vhdr"
    ≠ Ok ("  DataFile=foo.eeg " +:+ nl).
Proof.
  split; [by vm_compute|]. split; [by vm_compute|].
  split; [by vm_compute|]. vm_compute. discriminate.
Qed.

(** C5, amended: the loop compares the trimmed line, so a reference line of
    the source basename between leading and trailing white space is
    rewritten: it is written with [replace] applied to it, the white space
    staying where it was; for [foo] copied to [bar] the line reads
    [DataFile=bar.eeg] (resp. [MarkerFile=bar.vmrk]) between the same white
    space. Only a line whose trimmed content is no reference line is copied
    verbatim. *)
Theorem copyfile_brainvision_padded_line
    (_parse_ext : string → string * string)
    (src dest content fname_src fname_dest ext : string) (w : world) :
  read_text w src = Ok content →
  can_open_w w dest = true →
  _parse_ext src = (fname_src, ext) →
  _parse_ext dest = (fname_dest, ext) →
  ext = ".vhdr" ∨ ext = ".vmrk" →
  let written := new_line (basename fname_src) (basename fname_dest) in
  (∃ w', copyfile_brainvision _parse_ext src dest w = (w', Ok tt)
         ∧ read_text w' dest
           = Ok (String.concat ""
                   (written <$> readlines (universal_newlines content))))
  ∧ (∀ w1 w2 ref,
       all_chars is_space w1 = true → all_chars is_space w2 = true →
       ref ∈ search_lines (basename fname_src) →
       strip (w1 +:+ ref +:+ w2) = ref
       ∧ written (w1 +:+ ref +:+ w2)
         = replace (w1 +:+ ref +:+ w2) (basename fname_src)
             (basename fname_dest))
  ∧ (∀ l, strip l ∉ search_lines (basename fname_src) → written l = l)
  ∧ (∀ w1 w2,
       all_chars is_space w1 = true → all_chars is_space w2 = true →
       new_line "foo" "bar" (w1 +:+ "DataFile=foo.eeg" +:+ w2)
       = w1 +:+ "DataFile=bar.eeg" +:+ w2
       ∧ new_line "foo" "bar" (w1 +:+ "MarkerFile=foo.vmrk" +:+ w2)
         = w1 +:+ "MarkerFile=bar.vmrk" +:+ w2).
Proof.
  intros Hread Hopen Hsrc Hdest Hext written.
  split; [by eapply copyfile_brainvision_text_read|].
  split; [|split].
  - intros w1 w2 ref Hw1 Hw2 Href.
    destruct (search_lines_strip _ _ Href) as [Hl Hr].
    assert (strip (w1 +:+ ref +:+ w2) = ref) as Hstrip
      by by apply strip_decorated.
    split; [done|]. apply new_line_match. by rewrite Hstrip.
  - intros l Hl. by apply new_line_other.
  - intros w1 w2 Hw1 Hw2.
    split; [by apply new_line_DataFile|by apply new_line_MarkerFile].
Qed.

Lemma copyfile_brainvision_padded_line_witness :
  ∃ w', copyfile_brainvision os_path_splitext "foo.vhdr" "bar.vhdr"
          padded_header = (w', Ok tt)
        ∧ read_text w' "bar.vhdr"
          = Ok (String.concat ""
                  (new_line "foo" "bar"
                     <$> readlines
                           (universal_newlines
                              (text ["  DataFile=foo.eeg "])))).
Proof.
  apply (copyfile_brainvision_padded_line os_path_splitext "foo.vhdr"
           "bar.vhdr" (text ["  DataFile=foo.eeg "]) "foo" "bar" ".vhdr"
           padded_header).
  - vm_compute. reflexivity.
  - vm_compute. reflexivity.
  - vm_compute. reflexivity.
  - vm_compute. reflexivity.
  - left. reflexivity.
Defined.

(** C6, as stated, fails: a marker file [foo.vmrk] that holds the line
    [MarkerFile=foo.vmrk] is copied to [bar.vmrk] with that line rewritten
    to [MarkerFile=bar.vmrk], not verbatim. *)
Lemma copyfile_brainvision_vmrk_marker_not_verbatim :
  (readlines <$> read_text self_naming_markers "foo.vmrk")
  = Ok ["DataFile=foo.eeg" +:+ nl; "MarkerFile=foo.vmrk" +:+ nl]
  ∧ (readlines <$>
       read_text
         (copyfile_brainvision os_path_splitext "foo.vmrk" "bar.vmrk"
            self_naming_markers).1 "bar.vmrk")
    = Ok ["DataFile=bar.eeg" +:+ nl; "MarkerFile=bar.vmrk" +:+ nl]
  ∧ (readlines <$>
       read_text
         (copyfile_brainvision os_path_splitext "foo.vmrk" "bar.vmrk"
            self_naming_markers).1 "bar.vmrk")
    ≠ Ok ["DataFile=bar.eeg" +:+ nl; "MarkerFile=foo.vmrk" +:+ nl].
Proof.
  split; [by vm_compute|]. split; [by vm_compute|].
  vm_compute. discriminate.
Qed.

(** C6, amended: the lines looked for do not depend on the member. When a
    [.vmrk] member is copied, a line whose trimmed content is
    [DataFile=<source basename>.eeg] or [MarkerFile=<source basename>.vmrk]
    is written with [replace] applied to it, every other line is copied
    verbatim, and the text written is the one a [.vhdr] member of the same
    content would get. *)
Theorem copyfile_brainvision_vmrk (_parse_ext : string → string * string)
    (src dest content fname_src fname_dest : string) (w : world) :
  read_text w src = Ok content →
  can_open_w w dest = true →
  _parse_ext src = (fname_src, ".vmrk") →
  _parse_ext dest = (fname_dest, ".vmrk") →
  let written := new_line (basename fname_src) (basename fname_dest) in
  (∃ w', copyfile_brainvision _parse_ext src dest w = (w', Ok tt)
         ∧ read_text w' dest
           = Ok (String.concat ""
                   (written <$> readlines (universal_newlines content))))
  ∧ (∀ l, strip l = "DataFile=" +:+ basename fname_src +:+ ".eeg"
          ∨ strip l = "MarkerFile=" +:+ basename fname_src +:+ ".vmrk" →
          written l = replace l (basename fname_src) (basename fname_dest))
  ∧ (∀ l, strip l ≠ "DataFile=" +:+ basename fname_src +:+ ".eeg" →
          strip l ≠ "MarkerFile=" +:+ basename fname_src +:+ ".vmrk" →
          written l = l)
  ∧ (∀ parse_vhdr : string → string * string,
       parse_vhdr src = (fname_src, ".vhdr") →
       parse_vhdr dest = (fname_dest, ".vhdr") →
       copyfile_brainvision parse_vhdr src dest w
       = copyfile_brainvision _parse_ext src dest w).
Proof.
  intros Hread Hopen Hsrc Hdest written.
  split; [eapply copyfile_brainvision_text_read; eauto|].
  split; [|split].
  - intros l Hl. apply new_line_match. unfold search_lines.
    rewrite !elem_of_cons. tauto.
  - intros l Hd Hm. apply new_line_other. unfold search_lines.
    rewrite !elem_of_cons, elem_of_nil. tauto.
  - intros parse_vhdr Hsrc' Hdest'.
    rewrite (copyfile_brainvision_text parse_vhdr src dest content fname_src
               fname_dest ".vhdr") by auto.
    by rewrite (copyfile_brainvision_text _parse_ext src dest content
                  fname_src fname_dest ".vmrk") by auto.
Qed.

Lemma copyfile_brainvision_vmrk_witness :
  ∃ w', copyfile_brainvision os_path_splitext "rec/foo.vmrk" "out/bar.vmrk"
          recording_foo = (w', Ok tt)
        ∧ read_text w' "out/bar.vmrk"
          = Ok (String.concat ""
                  (new_line "foo" "bar"
                     <$> readlines (universal_newlines markers_foo))).
Proof.
  apply (copyfile_brainvision_vmrk os_path_splitext "rec/foo.vmrk"
           "out/bar.vmrk" markers_foo "rec/foo" "out/bar" recording_foo).
  - vm_compute. reflexivity.
  - vm_compute. reflexivity.
  - vm_compute. reflexivity.
  - vm_compute. reflexivity.
Defined.

(** C7: [copyfile_brainvision] raises [IOError] when the source does not
    exist, and [ValueError] when the two extensions differ or when the
    shared extension is none of [.eeg], [.vhdr], [.vmrk]; in each case the
    world is returned as it was, so no destination has been created. *)
Theorem copyfile_brainvision_errors (_parse_ext : string → string * string)
    (src dest : string) (w : world) :
  (os_path_exists w src = false →
   copyfile_brainvision _parse_ext src dest w
   = (w, Raise (IOError ("File does not exist: " +:+ src +:+ nl))))
  ∧ (os_path_exists w src = true →
     (_parse_ext src).2 ≠ (_parse_ext dest).2 →
     copyfile_brainvision _parse_ext src dest w
     = (w, Raise (ValueError
                    ("Need to move data with same extension but got "
                     +:+ (_parse_ext src).2 +:+ ", "
                     +:+ (_parse_ext dest).2))))
  ∧ (os_path_exists w src = true →
     (_parse_ext src).2 = (_parse_ext dest).2 →
     (_parse_ext src).2 ∉ [".eeg"; ".vhdr"; ".vmrk"] →
     copyfile_brainvision _parse_ext src dest w
     = (w, Raise (ValueError
                    ("Expecting file ending in one of "
                     +:+ "['.eeg', '.vhdr', '.vmrk'], but got "
                     +:+ (_parse_ext src).2)))).
Proof.
  unfold copyfile_brainvision.
  destruct (_parse_ext src) as [fname_src ext_src].
  destruct (_parse_ext dest) as [fname_dest ext_dest]. cbn [snd].
  split; [|split].
  - by intros ->.
  - intros -> Hne. cbn [negb]. by rewrite bool_decide_eq_false_2.
  - intros -> -> Hnotin. cbn [negb].
    rewrite bool_decide_eq_true_2 by done. cbn [negb].
    by rewrite bool_decide_eq_false_2.
Qed.

Lemma copyfile_brainvision_errors_witness :
  copyfile_brainvision os_path_splitext "rec/foo.vhdr" "out/foo.eeg"
    recording_foo
  = (recording_foo,
     Raise (ValueError
              "Need to move data with same extension but got .vhdr, .eeg"))
  ∧ os_path_exists recording_foo "out/foo.eeg" = false
  ∧ copyfile_brainvision os_path_splitext "rec/foo.txt" "out/foo.txt"
      recording_foo
    = (recording_foo,
       Raise (IOError ("File does not exist: rec/foo.txt" +:+ nl))).
Proof.
  split; [|split].
  - apply (copyfile_brainvision_errors os_path_splitext "rec/foo.vhdr"
             "out/foo.eeg" recording_foo).
    + vm_compute. reflexivity.
    + vm_compute. discriminate.
  - vm_compute. reflexivity.
  - apply (copyfile_brainvision_errors os_path_splitext "rec/foo.txt"
             "out/foo.txt" recording_foo).
    vm_compute. reflexivity.
Defined.

(** ** [make_bids_folders] *)

(** C9: with arguments that are strings or [None] and a sound session,
    [make_bids_folders] returns the path joined from the root (when given),
    [sub-<subject>], [ses-<session>] (when given) and the kind (when given);
    when these segments are plain this is the string with one [/] between
    them. With [make_dir=False] the world is returned as it was; with
    [make_dir=True] the same path is returned once [_mkdir_p] has made the
    directory (and the error of [_mkdir_p] is passed on when it fails). In
    particular subject ['01'], session ['s1'], kind ['meg'],
    root ['proj'] and [make_dir=False] give [proj/sub-01/ses-s1/meg] and
    leave the world alone. *)
Theorem make_bids_folders_path (subject session kind root : value)
    (overwrite verbose : bool) (w : world) :
  Forall (λ v, str_or_None v = true) [subject; kind; session; root] →
  entity_ok session = true →
  let path :=
    with_prefix root
      (os_path_join ("sub-" +:+ str subject)
         (optional_segment "ses-" session ++ optional_segment "" kind)) in
  make_bids_folders subject session kind root false overwrite verbose w
  = (w, Ok path)
  ∧ (∀ w', _mkdir_p path overwrite verbose w = (w', Ok tt) →
       make_bids_folders subject session kind root true overwrite verbose w
       = (w', Ok path))
  ∧ (∀ w' e, _mkdir_p path overwrite verbose w = (w', Raise e) →
       make_bids_folders subject session kind root true overwrite verbose w
       = (w', Raise e))
  ∧ (Forall (λ s, is_empty s = false ∧ endswith_char s os_sep = false)
       (optional_segment "" root) →
     Forall (λ s, plain_segment s = true)
       (["sub-" +:+ str subject] ++ optional_segment "ses-" session
        ++ optional_segment "" kind) →
     path = join "/" (optional_segment "" root ++ ["sub-" +:+ str subject]
                      ++ optional_segment "ses-" session
                      ++ optional_segment "" kind))
  ∧ make_bids_folders (VStr "01") (VStr "s1") (VStr "meg") (VStr "proj")
      false overwrite verbose w
    = (w, Ok "proj/sub-01/ses-s1/meg").
Proof.
  intros Htyped Hses path.
  split; [by rewrite make_bids_folders_unfold|].
  split; [|split; [|split; [|reflexivity]]].
  - intros w' Hmk. rewrite make_bids_folders_unfold by done.
    cbv zeta. fold path. by rewrite Hmk.
  - intros w' e Hmk. rewrite make_bids_folders_unfold by done.
    cbv zeta. fold path. by rewrite Hmk.
  - intros Hroot Hsegs. cbn [app] in Hsegs.
    apply Forall_cons in Hsegs as [Hsub Hrest].
    destruct (plain_segment_inv _ Hsub) as (Hsube & Hsubstart & Hsubend).
    subst path. rewrite os_path_join_plain by done.
    destruct root as [|r|n]; [done| |done].
    cbn [with_prefix optional_segment app] in *.
    apply Forall_cons in Hroot as [[Hre Hrend] _].
    rewrite app_empty_l in *. unfold os_path_join. cbn [fold_left]. unfold join_step.
    rewrite startswith_join, Hsubstart, Hre, Hrend by done.
    reflexivity.
Qed.

Lemma make_bids_folders_path_witness :
  make_bids_folders (VStr "sub_01") (VStr "mysession") VNone
    (VStr "path/to/project") false true false recording_foo
  = (recording_foo, Ok "path/to/project/sub-sub_01/ses-mysession").
Proof.
  apply (make_bids_folders_path (VStr "sub_01") (VStr "mysession") VNone
           (VStr "path/to/project") true false recording_foo).
  - apply (bool_decide_unpack _). vm_compute. exact I.
  - reflexivity.
Defined.

(** * Further properties *)

(** ** [make_bids_filename] *)

(** X1: a name made of sound entities, at least one of them given, with
    neither suffix nor prefix, can be read back: cut at [_] and then at [-]
    it gives the key and the value of every given entity, in the order of
    the table. *)
Theorem make_bids_filename_parse
    (subject session task acquisition run processing recording space : value) :
  Forall (λ v, entity_ok v = true)
    [subject; session; task; acquisition; processing; recording; space] →
  run_ok run = true →
  given [("sub", subject); ("ses", session); ("task", task);
         ("acq", acquisition); ("run", normalize_run run);
         ("proc", processing); ("space", space);
         ("recording", recording)] ≠ [] →
  ∃ name,
    make_bids_filename subject session task acquisition run processing
      recording space VNone VNone = Ok name
    ∧ parse_bids_filename name
      = given [("sub", subject); ("ses", session); ("task", task);
               ("acq", acquisition); ("run", normalize_run run);
               ("proc", processing); ("space", space);
               ("recording", recording)].
Proof.
  intros Hall Hrun Hgiven. eexists. split.
  - by apply make_bids_filename_ok.
  - cbn [suffix_tokens with_prefix]. rewrite app_nil_r.
    apply parse_entity_tokens; [|done]. by apply canonical_sound.
Qed.

Lemma make_bids_filename_parse_witness :
  ∃ name,
    make_bids_filename (VStr "01") VNone (VStr "rest") VNone (VInt 2) VNone
      VNone VNone VNone VNone = Ok name
    ∧ parse_bids_filename name
      = [["sub"; "01"]; ["task"; "rest"]; ["run"; "02"]].
Proof.
  apply (make_bids_filename_parse (VStr "01") VNone (VStr "rest") VNone
           (VInt 2) VNone VNone VNone).
  - apply (bool_decide_unpack _). vm_compute. exact I.
  - reflexivity.
  - vm_compute. discriminate.
Defined.

(** X2: without suffix and prefix the name determines the entities: two
    calls with sound entities that return the same name were given the same
    values, [run] being compared once formatted (so [run=7] and [run='07']
    count as the same). *)
Theorem make_bids_filename_injective
    (subject session task acquisition run processing recording space
     subject' session' task' acquisition' run' processing' recording' space'
       : value) :
  Forall (λ v, entity_ok v = true)
    [subject; session; task; acquisition; processing; recording; space] →
  run_ok run = true →
  Forall (λ v, entity_ok v = true)
    [subject'; session'; task'; acquisition'; processing'; recording';
     space'] →
  run_ok run' = true →
  make_bids_filename subject session task acquisition run processing
    recording space VNone VNone
  = make_bids_filename subject' session' task' acquisition' run' processing'
      recording' space' VNone VNone →
  subject = subject' ∧ session = session' ∧ task = task'
  ∧ acquisition = acquisition' ∧ normalize_run run = normalize_run run'
  ∧ processing = processing' ∧ recording = recording' ∧ space = space'.
Proof.
  intros Hall Hrun Hall' Hrun' Heq.
  rewrite !make_bids_filename_ok in Heq by done.
  cbn [suffix_tokens with_prefix] in Heq. rewrite !app_nil_r in Heq.
  pose proof (canonical_sound _ _ _ _ _ _ _ _ Hall Hrun) as Hs.
  pose proof (canonical_sound _ _ _ _ _ _ _ _ Hall' Hrun') as Hs'.
  set (items := canonical subject session task acquisition
                  (normalize_run run) processing recording space) in *.
  set (items' := canonical subject' session' task' acquisition'
                   (normalize_run run') processing' recording' space') in *.
  assert (join "_" (entity_tokens items) = join "_" (entity_tokens items'))
    as Hjoin by congruence.
  clear Heq. rename Hjoin into Heq.
  assert (given items = given items') as Hgiven.
  { destruct (decide (given items = [])) as [Hnil|Hne].
    - rewrite Hnil. symmetry. apply given_nil, join_empty; [done|].
      rewrite <- Heq. apply given_nil in Hnil. by rewrite Hnil.
    - destruct (decide (given items' = [])) as [Hnil'|Hne'].
      + exfalso. apply Hne. apply given_nil, join_empty; [done|].
        rewrite Heq. apply given_nil in Hnil'. by rewrite Hnil'.
      + rewrite <- (parse_entity_tokens items), <- (parse_entity_tokens items')
          by done. by rewrite Heq. }
  assert (items = items') as Hitems.
  { apply given_inj; [done| | | |done].
    - apply (bool_decide_unpack _). by vm_compute.
    - eapply Forall_impl; [exact Hs|]. by intros kv [_ ?].
    - eapply Forall_impl; [exact Hs'|]. by intros kv [_ ?]. }
  unfold items, items', canonical in Hitems.
  by injection Hitems as -> -> -> -> -> -> -> ->.
Qed.

Lemma make_bids_filename_injective_witness :
  VStr "01" = VStr "01" ∧ VNone = VNone ∧ VStr "rest" = VStr "rest"
  ∧ VNone = VNone ∧ normalize_run (VInt 7) = normalize_run (VStr "07")
  ∧ VNone = VNone ∧ VNone = VNone ∧ VNone = VNone.
Proof.
  apply (make_bids_filename_injective (VStr "01") VNone (VStr "rest") VNone
           (VInt 7) VNone VNone VNone (VStr "01") VNone (VStr "rest") VNone
           (VStr "07") VNone VNone VNone).
  - apply (bool_decide_unpack _). vm_compute. exact I.
  - reflexivity.
  - apply (bool_decide_unpack _). vm_compute. exact I.
  - reflexivity.
  - reflexivity.
Defined.

(** X3: with sound entities and a suffix that is [None] or a string without
    [/], the name holds no [/]: it is one path component. A string prefix
    then only adds leading directories: the last component of the result is
    the name that the call without prefix returns. *)
Theorem make_bids_filename_component
    (subject session task acquisition run processing recording space
       suffix : value) :
  Forall (λ v, entity_ok v = true)
    [subject; session; task; acquisition; processing; recording; space] →
  run_ok run = true →
  Forall (λ s, occurs "/" s = false) (suffix_tokens suffix) →
  ∃ name,
    make_bids_filename subject session task acquisition run processing
      recording space suffix VNone = Ok name
    ∧ occurs "/" name = false
    ∧ ∀ p, ∃ path,
        make_bids_filename subject session task acquisition run processing
          recording space suffix (VStr p) = Ok path
        ∧ basename path = name.
Proof.
  intros Hall Hrun Hsuffix. eexists. split; [by apply make_bids_filename_ok|].
  cbn [with_prefix].
  assert (occurs "/"
            (join "_"
               (entity_tokens
                  (canonical subject session task acquisition
                     (normalize_run run) processing recording space)
                ++ suffix_tokens suffix)) = false) as Hname.
  { apply occurs_join; [done|]. apply Forall_app. split; [|done].
    destruct (entity_tokens_given _
                (canonical_sound _ _ _ _ _ _ _ _ Hall Hrun)) as [Htok _].
    eapply Forall_impl; [exact Htok|]. by intros t (_ & ? & _). }
  split; [done|]. intros p. eexists.
  split; [by apply make_bids_filename_ok|].
  cbn [with_prefix]. unfold os_path_join. cbn [fold_left].
  by apply basename_join_step.
Qed.

Lemma make_bids_filename_component_witness :
  ∃ name,
    make_bids_filename (VStr "01") VNone (VStr "rest") VNone VNone VNone
      VNone VNone (VStr "meg.fif") VNone = Ok name
    ∧ occurs "/" name = false
    ∧ ∀ p, ∃ path,
        make_bids_filename (VStr "01") VNone (VStr "rest") VNone VNone VNone
          VNone VNone (VStr "meg.fif") (VStr p) = Ok path
        ∧ basename path = name.
Proof.
  apply (make_bids_filename_component (VStr "01") VNone (VStr "rest") VNone
           VNone VNone VNone VNone (VStr "meg.fif")).
  - apply (bool_decide_unpack _). vm_compute. exact I.
  - reflexivity.
  - apply (bool_decide_unpack _). vm_compute. exact I.
Defined.

(** X4: only [run] may be an integer. An integer given for any other entity
    makes [_check_types] raise, whatever the other arguments are (also when
    one of them holds a refused character: the types are checked first). *)
Theorem make_bids_filename_type_error
    (subject session task acquisition run processing recording space
       suffix prefix : value) :
  Exists (λ v, str_or_None v = false)
    [subject; session; task; acquisition; processing; recording; space] →
  make_bids_filename subject session task acquisition run processing
    recording space suffix prefix
  = Raise (ValueError ("All values must be either None or strings. "
                       +:+ "Found type <class 'int'>.")).
Proof.
  intros Hex. rewrite make_bids_filename_unfold. cbv zeta.
  destruct (check_types_raise
              (values (canonical subject session task acquisition
                         (normalize_run run) processing recording space)))
    as (v & Hv & Hraise).
  - unfold canonical, values. cbn [fmap list_fmap snd].
    rewrite !Exists_cons in Hex. rewrite !Exists_cons.
    destruct Hex as [?|[?|[?|[?|[?|[?|[?|H]]]]]]];
      [auto 12..|by inversion H].
  - rewrite Hraise. cbn [mbind res_bind].
    assert (type_repr v = "<class 'int'>") as ->; [|done].
    clear -Hraise. destruct v as [|s|n]; [exfalso..|done].
    all: revert Hraise; generalize (values
           (canonical subject session task acquisition (normalize_run run)
              processing recording space)); intros l;
         induction l as [|v' l IH]; [done|]; cbn [_check_types];
         destruct (negb _) eqn:E; [|done];
         destruct v'; try done; intros H; cbv in H; discriminate.
Qed.

Lemma make_bids_filename_type_error_witness :
  make_bids_filename (VStr "01") (VInt 2) (VStr "my_task") VNone VNone VNone
    VNone VNone VNone VNone
  = Raise (ValueError ("All values must be either None or strings. "
                       +:+ "Found type <class 'int'>.")).
Proof.
  apply (make_bids_filename_type_error (VStr "01") (VInt 2) (VStr "my_task")
           VNone VNone VNone VNone VNone VNone VNone).
  apply (bool_decide_unpack _). vm_compute. exact I.
Defined.

(** ** [_mkdir_p] *)

(** X5: when [_mkdir_p] returns, the path is a directory, whether it has
    just been made or was there before. *)
Theorem mkdir_p_isdir (path : string) (overwrite verbose : bool)
    (w w' : world) :
  _mkdir_p path overwrite verbose w = (w', Ok tt) →
  os_path_isdir w' path = true.
Proof.
  intros H.
  destruct (mkdir_p_unfold path overwrite verbose w)
    as (w1 & w2 & r & _ & Hmk & [[-> Heq]|[(name & -> & Hdir & Heq)
       |(e & -> & Heq)]]); rewrite Heq in H.
  - injection H as <-. apply os_makedirs_spec in Hmk as (_ & _ & _ & Hok).
    destruct verbose; [rewrite os_path_isdir_print|]; by apply Hok.
  - by injection H as <-.
  - done.
Qed.

Lemma mkdir_p_isdir_witness :
  os_path_isdir (_mkdir_p "out/sub-01/meg" true false recording_foo).1
    "out/sub-01/meg" = true.
Proof.
  apply (mkdir_p_isdir "out/sub-01/meg" true false recording_foo).
  vm_compute. reflexivity.
Defined.

(** X6: with [overwrite] set, a path that is a directory is replaced by an
    empty one: whatever [_mkdir_p] returns, nothing is left below the path,
    and what lies neither below nor above the path is as it was. *)
Theorem mkdir_p_overwrite (path : string) (verbose : bool) (w : world) :
  os_path_isdir w path = true →
  (∀ k, resolve path `prefix_of` k → k ≠ resolve path →
        files (_mkdir_p path true verbose w).1 !! k = None)
  ∧ (∀ k, ¬ resolve path `prefix_of` k → ¬ k `prefix_of` resolve path →
          files (_mkdir_p path true verbose w).1 !! k = files w !! k).
Proof.
  intros Hdir.
  destruct (mkdir_p_unfold path true verbose w) as (w1 & w2 & r & Hw1 & Hmk & H).
  rewrite Hdir in Hw1. cbn [andb] in Hw1.
  assert (files w1 = filter (λ kv, ¬ resolve path `prefix_of` kv.1) (files w))
    as Hfiles by (subst w1; by destruct verbose).
  assert (files (_mkdir_p path true verbose w).1 = files w2) as ->.
  { destruct H as [[_ ->]|[(name & _ & _ & ->)|(e & _ & ->)]]; [|done..].
    by destruct verbose. }
  apply os_makedirs_spec in Hmk as (_ & _ & Hother & _). split.
  - intros k Hpre Hne. rewrite Hother.
    + rewrite Hfiles. apply map_lookup_filter_None. right.
      intros n _ Hnot. by apply Hnot.
    + intros Hk. apply Hne. by apply (anti_symm prefix).
  - intros k Hnot Hnot'. rewrite Hother by done. rewrite Hfiles.
    destruct (files w !! k) as [n|] eqn:Hk.
    + by apply map_lookup_filter_Some.
    + apply map_lookup_filter_None. by left.
Qed.

Lemma mkdir_p_overwrite_witness :
  files (_mkdir_p "rec" true false recording_foo).1 !! ["rec"; "foo.vhdr"]
  = None
  ∧ files (_mkdir_p "rec" true false recording_foo).1 !! ["out"]
    = Some Dir.
Proof.
  destruct (mkdir_p_overwrite "rec" false recording_foo) as [Hbelow Hother].
  - vm_compute. reflexivity.
  - split.
    + apply Hbelow; [|vm_compute; discriminate].
      exists ["foo.vhdr"]. vm_compute. reflexivity.
    + rewrite Hother; [vm_compute; reflexivity|..].
      * intros [k Hk]. vm_compute in Hk. discriminate.
      * intros [k Hk]. vm_compute in Hk. discriminate.
Defined.

(** X7: without [overwrite], [_mkdir_p] removes and changes nothing: every
    file and directory there was is still there, with its content, whether
    the call succeeds or raises. *)
Theorem mkdir_p_keeps (path : string) (verbose : bool) (w : world)
    (k : list string) (n : node) :
  files w !! k = Some n →
  files (_mkdir_p path false verbose w).1 !! k = Some n.
Proof.
  intros Hk.
  destruct (mkdir_p_unfold path false verbose w) as (w1 & w2 & r & Hw1 & Hmk & H).
  cbn [andb] in Hw1. subst w1.
  apply os_makedirs_spec in Hmk as (_ & Hkeep & _ & _).
  destruct H as [[_ ->]|[(name & _ & _ & ->)|(e & _ & ->)]];
    [destruct verbose|..]; by apply Hkeep.
Qed.

Lemma mkdir_p_keeps_witness :
  files (_mkdir_p "rec/sub-01" false true recording_foo).1
    !! ["rec"; "foo.vhdr"] = Some (File header_foo).
Proof.
  apply (mkdir_p_keeps "rec/sub-01" true recording_foo).
  vm_compute. reflexivity.
Defined.

(** X8: without [overwrite], on a path that is a directory already (the
    directories above it being there) [_mkdir_p] succeeds and does nothing:
    files and console are as before. *)
Theorem mkdir_p_existing_directory (path : string) (verbose : bool)
    (w : world) :
  os_path_isdir w path = true →
  Forall (λ p, is_Some (files w !! p)) (ancestors (resolve path)) →
  _mkdir_p path false verbose w = (w, Ok tt).
Proof.
  intros Hdir Hanc. destruct (os_path_isdir_lookup _ _ Hdir) as [Hp Hkey].
  unfold _mkdir_p. cbn [andb]. unfold os_makedirs. rewrite Hp.
  rewrite makedirs_from_exists; [|done|cbn [app]; by rewrite Hkey].
  by rewrite Hdir.
Qed.

Lemma mkdir_p_existing_directory_witness :
  _mkdir_p "./rec/" false true recording_foo = (recording_foo, Ok tt).
Proof.
  apply (mkdir_p_existing_directory "./rec/" true recording_foo).
  - vm_compute. reflexivity.
  - apply (bool_decide_unpack _). vm_compute. exact I.
Defined.

(** X9: on a path that is a regular file (the directories above it being
    there) [_mkdir_p] raises the [EEXIST] error of [os.makedirs], which
    names the path as it was passed, with or without [overwrite], and
    changes nothing: the file is not replaced by a directory. *)
Theorem mkdir_p_existing_file (path content : string)
    (overwrite verbose : bool) (w : world) :
  read_text w path = Ok content →
  Forall (λ p, is_Some (files w !! p)) (ancestors (resolve path)) →
  _mkdir_p path overwrite verbose w
  = (w, Raise (OSError EEXIST path)).
Proof.
  intros Hread Hanc. unfold read_text in Hread.
  destruct (lookup_path w path) as [[c|]|] eqn:Hlook; [|done..].
  assert (os_path_isdir w path = false) as Hdir
    by (unfold os_path_isdir; by rewrite Hlook).
  unfold lookup_path in Hlook. destruct (is_empty path) eqn:Hp; [done|].
  unfold _mkdir_p. rewrite Hdir, andb_false_r. unfold os_makedirs.
  rewrite Hp.
  rewrite makedirs_from_exists; [|done|cbn [app]; by rewrite Hlook].
  cbn [app]. rewrite makedirs_name_leaf. by rewrite Hdir.
Qed.

Lemma mkdir_p_existing_file_witness :
  _mkdir_p "./rec/foo.vhdr" true true recording_foo
  = (recording_foo, Raise (OSError EEXIST "./rec/foo.vhdr")).
Proof.
  apply (mkdir_p_existing_file "./rec/foo.vhdr" header_foo true true
           recording_foo).
  - vm_compute. reflexivity.
  - apply (bool_decide_unpack _). vm_compute. exact I.
Defined.

(** ** [make_bids_folders] *)

(** X10: the arguments are checked before anything is made. With an
    argument that is neither a string nor [None], or with a session that
    holds [-], [_] or [/], [make_bids_folders] raises [ValueError] and the
    world is as it was, also when [make_dir] is set: no directory has been
    created and none overwritten. *)
Theorem make_bids_folders_invalid (subject session kind root : value)
    (make_dir overwrite verbose : bool) (w : world) :
  Exists (λ v, str_or_None v = false) [subject; kind; session; root]
  ∨ (∃ s, session = VStr s ∧ has_unallowed s = true) →
  ∃ msg,
    make_bids_folders subject session kind root make_dir overwrite verbose w
    = (w, Raise (ValueError msg)).
Proof.
  intros [Htype|(s & -> & Hs)]; unfold make_bids_folders.
  - destruct (check_types_raise _ Htype) as (v & _ & ->). by eexists.
  - destruct (check_types_cases [subject; kind; VStr s; root])
      as [->|[v ->]]; [|by eexists].
    cbn [mbind res_bind is_None negb].
    rewrite check_key_val_raise by done. by eexists.
Qed.

Lemma make_bids_folders_invalid_witness :
  ∃ msg,
    make_bids_folders (VStr "sub_01") (VStr "my_session") (VStr "meg")
      (VStr "path/to/project") true true false recording_foo
    = (recording_foo, Raise (ValueError msg)).
Proof.
  apply (make_bids_folders_invalid (VStr "sub_01") (VStr "my_session")
           (VStr "meg") (VStr "path/to/project") true true false
           recording_foo).
  right. exists "my_session". split; reflexivity.
Defined.

(** X11: when [make_bids_folders] is called with [make_dir] set and returns
    a path, that path is a directory of the world it leaves. *)
Theorem make_bids_folders_makes (subject session kind root : value)
    (overwrite verbose : bool) (w w' : world) (path : string) :
  make_bids_folders subject session kind root true overwrite verbose w
  = (w', Ok path) →
  os_path_isdir w' path = true.
Proof.
  unfold make_bids_folders.
  destruct (_ ;; os_path_join_list _) as [p|e]; [|done].
  set (full := match root with VStr r => os_path_join r [p] | _ => p end).
  destruct (_mkdir_p full overwrite verbose w) as [w1 [[]|e]] eqn:Hmk; [|done].
  intros [= <- <-]. by eapply mkdir_p_returns_directory.
Qed.

Lemma make_bids_folders_makes_witness :
  os_path_isdir
    (make_bids_folders (VStr "01") (VStr "s1") (VStr "meg") (VStr "out")
       true true false recording_foo).1 "out/sub-01/ses-s1/meg" = true.
Proof.
  apply (make_bids_folders_makes (VStr "01") (VStr "s1") (VStr "meg")
           (VStr "out") true false recording_foo).
  vm_compute. reflexivity.
Defined.

(** ** [copyfile_brainvision], further *)

(** X12: an [.eeg] member is duplicated as it is: after the copy the
    destination holds the content of the source, character for character,
    and the source still holds it. *)
Theorem copyfile_brainvision_eeg (_parse_ext : string → string * string)
    (src dest content fname_src fname_dest : string) (w : world) :
  read_text w src = Ok content →
  can_open_w w dest = true →
  resolve src ≠ resolve dest →
  _parse_ext src = (fname_src, ".eeg") →
  _parse_ext dest = (fname_dest, ".eeg") →
  ∃ w', copyfile_brainvision _parse_ext src dest w = (w', Ok tt)
        ∧ read_text w' dest = Ok content
        ∧ read_text w' src = Ok content.
Proof.
  intros Hread Hopen Hne Hsrc Hdest.
  exists (set_files (insert (resolve dest) (File content)) w).
  destruct (can_open_w_resolve _ _ Hopen) as [Hp Hr].
  split; [|split; [by apply read_text_insert|by rewrite read_text_other]].
  unfold copyfile_brainvision.
  rewrite (read_text_exists _ _ _ Hread). cbn [negb].
  rewrite Hsrc, Hdest. rewrite bool_decide_eq_true_2 by done. cbn [negb].
  unfold sh_copyfile. rewrite (bool_decide_eq_false_2 (resolve src = _)) by done.
  rewrite andb_false_r, Hread, open_w_ok by done.
  by rewrite write_insert, app_empty_l.
Qed.

Lemma copyfile_brainvision_eeg_witness :
  ∃ w', copyfile_brainvision os_path_splitext "rec/foo.vhdr.eeg"
          "out/bar.eeg" (set_files (insert ["rec"; "foo.vhdr.eeg"]
                                      (File "binary")) recording_foo)
        = (w', Ok tt)
        ∧ read_text w' "out/bar.eeg" = Ok "binary"
        ∧ read_text w' "rec/foo.vhdr.eeg" = Ok "binary".
Proof.
  apply (copyfile_brainvision_eeg os_path_splitext "rec/foo.vhdr.eeg"
           "out/bar.eeg" "binary" "rec/foo.vhdr" "out/bar").
  - vm_compute. reflexivity.
  - vm_compute. reflexivity.
  - vm_compute. discriminate.
  - vm_compute. reflexivity.
  - vm_compute. reflexivity.
Defined.

(** X13: a copy touches the destination only. Whatever the member and
    whether the call returns or raises, every other file and directory is as
    before (the source too, unless it is the destination) and nothing is
    printed. *)
Theorem copyfile_brainvision_only_dest (_parse_ext : string → string * string)
    (src dest : string) (w : world) (k : list string) :
  k ≠ resolve dest →
  files (copyfile_brainvision _parse_ext src dest w).1 !! k = files w !! k
  ∧ stdout (copyfile_brainvision _parse_ext src dest w).1 = stdout w.
Proof.
  intros Hk.
  destruct (copyfile_brainvision _parse_ext src dest w) as [w' r] eqn:E.
  apply copyfile_brainvision_frame in E as [Hout Hfiles]. cbn [fst].
  split; [by apply Hfiles|done].
Qed.

Lemma copyfile_brainvision_only_dest_witness :
  files (copyfile_brainvision os_path_splitext "rec/foo.vhdr" "out/bar.vhdr"
           recording_foo).1 !! ["rec"; "foo.vmrk"]
  = files recording_foo !! ["rec"; "foo.vmrk"]
  ∧ stdout (copyfile_brainvision os_path_splitext "rec/foo.vhdr"
              "out/bar.vhdr" recording_foo).1 = stdout recording_foo.
Proof.
  apply (copyfile_brainvision_only_dest os_path_splitext "rec/foo.vhdr"
           "out/bar.vhdr" recording_foo ["rec"; "foo.vmrk"]).
  vm_compute. discriminate.
Defined.

(** X14: when the destination cannot be opened for writing (its directory
    is missing, or it is a directory itself) the copy of a member with a
    sound extension raises the error of the operating system and leaves the
    world as it was. *)
Theorem copyfile_brainvision_unwritable
    (_parse_ext : string → string * string)
    (src dest content fname_src fname_dest ext : string) (w : world) :
  read_text w src = Ok content →
  can_open_w w dest = false →
  _parse_ext src = (fname_src, ext) →
  _parse_ext dest = (fname_dest, ext) →
  ext ∈ bv_ext →
  ∃ code,
    copyfile_brainvision _parse_ext src dest w
    = (w, Raise (OSError code dest)).
Proof.
  intros Hread Hopen Hsrc Hdest Hext.
  destruct (open_w_cases dest w) as [[Hcan _]|[_ [code Hfail]]];
    [congruence|].
  exists code. unfold copyfile_brainvision.
  rewrite (read_text_exists _ _ _ Hread). cbn [negb].
  rewrite Hsrc, Hdest. rewrite bool_decide_eq_true_2 by done. cbn [negb].
  rewrite (bool_decide_eq_true_2 (ext ∈ bv_ext)) by done. cbn [negb].
  destruct (bool_decide (ext = ".eeg")).
  - unfold sh_copyfile.
    assert (bool_decide (is_Some (lookup_path w dest))
            && bool_decide (resolve src = resolve dest) = false) as ->.
    { apply andb_false_iff.
      destruct (decide (resolve src = resolve dest)) as [Heq|Hne];
        [|right; by apply bool_decide_eq_false_2].
      left. apply bool_decide_eq_false_2. intros [n Hn].
      destruct (read_text_lookup _ _ _ Hread) as (_ & Hr & Hfile).
      unfold can_open_w in Hopen. rewrite Hn in Hopen.
      unfold lookup_path in Hn. destruct (is_empty dest); [done|].
      rewrite <- Heq in Hn. unfold lookup_key in Hn.
      destruct (resolve src); [done|]. rewrite Hfile in Hn.
      injection Hn as <-. done. }
    by rewrite Hread, Hfail.
  - by rewrite Hread, Hfail.
Qed.

Lemma copyfile_brainvision_unwritable_witness :
  ∃ code,
    copyfile_brainvision os_path_splitext "rec/foo.vhdr" "new/bar.vhdr"
      recording_foo
    = (recording_foo, Raise (OSError code "new/bar.vhdr")).
Proof.
  apply (copyfile_brainvision_unwritable os_path_splitext "rec/foo.vhdr"
           "new/bar.vhdr" header_foo "rec/foo" "new/bar" ".vhdr"
           recording_foo).
  - vm_compute. reflexivity.
  - vm_compute. reflexivity.
  - vm_compute. reflexivity.
  - vm_compute. reflexivity.
  - apply (bool_decide_unpack _). vm_compute. exact I.
Defined.

(** X15: a text member in which no line as read, once trimmed, is a
    reference line of the source basename is copied with nothing renamed:
    the destination holds the text of the source as text mode reads it,
    every CR LF and every lone CR turned into a line feed. A source without
    CR is thus copied verbatim, and a source whose lines end in CR LF comes
    out with the same lines ending in a line feed. *)
Theorem copyfile_brainvision_no_reference
    (_parse_ext : string → string * string)
    (src dest content fname_src fname_dest ext : string) (w : world) :
  read_text w src = Ok content →
  can_open_w w dest = true →
  _parse_ext src = (fname_src, ext) →
  _parse_ext dest = (fname_dest, ext) →
  ext = ".vhdr" ∨ ext = ".vmrk" →
  Forall (λ l, strip l ∉ search_lines (basename fname_src))
    (readlines (universal_newlines content)) →
  ∃ w', copyfile_brainvision _parse_ext src dest w = (w', Ok tt)
        ∧ read_text w' dest = Ok (universal_newlines content)
        ∧ (occurs CR content = false → read_text w' dest = Ok content)
        ∧ (∀ ls, Forall (λ l, occurs CR l = false) ls →
             content = String.concat "" ((λ l, l +:+ crlf) <$> ls) →
             read_text w' dest = Ok (text ls)).
Proof.
  intros Hread Hopen Hsrc Hdest Hext Hnone.
  destruct (copyfile_brainvision_text_read _parse_ext src dest content
              fname_src fname_dest ext w) as (w' & Hcopy & Hdest'); [done..|].
  assert (read_text w' dest = Ok (universal_newlines content)) as Hun.
  { rewrite Hdest'. f_equal.
    rewrite fmap_id_lines; [apply concat_readlines|].
    eapply Forall_impl; [exact Hnone|]. intros l Hl. by apply new_line_other. }
  exists w'. split; [done|]. split; [done|]. split.
  - intros Hcr. by rewrite Hun, universal_newlines_id.
  - intros ls Hls ->. by rewrite Hun, universal_newlines_crlf.
Qed.

Lemma copyfile_brainvision_no_reference_witness :
  ∃ w', copyfile_brainvision os_path_splitext "rec/foo.vmrk" "out/bar.vmrk"
          (set_files (insert ["rec"; "foo.vmrk"]
                        (File ("[Marker Infos]" +:+ crlf
                               +:+ "DataFile=baz.eeg" +:+ crlf)))
             recording_foo)
        = (w', Ok tt)
        ∧ read_text w' "out/bar.vmrk"
          = Ok ("[Marker Infos]" +:+ nl +:+ "DataFile=baz.eeg" +:+ nl).
Proof.
  destruct (copyfile_brainvision_no_reference os_path_splitext "rec/foo.vmrk"
              "out/bar.vmrk"
              ("[Marker Infos]" +:+ crlf +:+ "DataFile=baz.eeg" +:+ crlf)
              "rec/foo" "out/bar" ".vmrk"
              (set_files (insert ["rec"; "foo.vmrk"]
                            (File ("[Marker Infos]" +:+ crlf
                                   +:+ "DataFile=baz.eeg" +:+ crlf)))
                 recording_foo))
    as (w' & Hcopy & _ & _ & Hcrlf).
  - vm_compute. reflexivity.
  - vm_compute. reflexivity.
  - vm_compute. reflexivity.
  - vm_compute. reflexivity.
  - right. reflexivity.
  - apply (bool_decide_unpack _). vm_compute. exact I.
  - exists w'. split; [exact Hcopy|].
    apply (Hcrlf ["[Marker Infos]"; "DataFile=baz.eeg"]).
    + apply (bool_decide_unpack _). vm_compute. exact I.
    + vm_compute. reflexivity.
Defined.

(** X16: a text member copied to a destination of the same basename (to
    another directory, say) is copied with no line changed, whatever its
    lines are, since replacing the basename by itself changes no line: the
    destination holds the text of the source as text mode reads it, every
    CR LF and every lone CR turned into a line feed, which for a source
    without CR is the source verbatim. *)
Theorem copyfile_brainvision_same_basename
    (_parse_ext : string → string * string)
    (src dest content fname_src fname_dest ext : string) (w : world) :
  read_text w src = Ok content →
  can_open_w w dest = true →
  _parse_ext src = (fname_src, ext) →
  _parse_ext dest = (fname_dest, ext) →
  ext = ".vhdr" ∨ ext = ".vmrk" →
  basename fname_src = basename fname_dest →
  ∃ w', copyfile_brainvision _parse_ext src dest w = (w', Ok tt)
        ∧ read_text w' dest = Ok (universal_newlines content)
        ∧ (occurs CR content = false → read_text w' dest = Ok content)
        ∧ (∀ ls, Forall (λ l, occurs CR l = false) ls →
             content = String.concat "" ((λ l, l +:+ crlf) <$> ls) →
             read_text w' dest = Ok (text ls)).
Proof.
  intros Hread Hopen Hsrc Hdest Hext Hsame.
  destruct (copyfile_brainvision_text_read _parse_ext src dest content
              fname_src fname_dest ext w) as (w' & Hcopy & Hdest'); [done..|].
  assert (read_text w' dest = Ok (universal_newlines content)) as Hun.
  { rewrite Hdest', Hsame. f_equal.
    rewrite fmap_id_lines; [apply concat_readlines|].
    apply Forall_forall. intros l _. apply new_line_same. }
  exists w'. split; [done|]. split; [done|]. split.
  - intros Hcr. by rewrite Hun, universal_newlines_id.
  - intros ls Hls ->. by rewrite Hun, universal_newlines_crlf.
Qed.

Lemma copyfile_brainvision_same_basename_witness :
  ∃ w', copyfile_brainvision os_path_splitext "rec/foo.vhdr" "out/foo.vhdr"
          recording_foo = (w', Ok tt)
        ∧ read_text w' "out/foo.vhdr" = Ok header_foo.
Proof.
  destruct (copyfile_brainvision_same_basename os_path_splitext
              "rec/foo.vhdr" "out/foo.vhdr" header_foo "rec/foo" "out/foo"
              ".vhdr" recording_foo) as (w' & Hcopy & _ & Hsame & _).
  - vm_compute. reflexivity.
  - vm_compute. reflexivity.
  - vm_compute. reflexivity.
  - vm_compute. reflexivity.
  - left. reflexivity.
  - vm_compute. reflexivity.
  - exists w'. split; [exact Hcopy|]. apply Hsame. vm_compute. reflexivity.
Defined.

(** X17: the renaming for any plain source basename (one whose first
    character is no white space and occurs nowhere in the fixed text of the
    reference lines). A line that is [DataFile=<source>.eeg] or
    [MarkerFile=<source>.vmrk] between white space is written as
    [DataFile=<destination>.eeg], resp. [MarkerFile=<destination>.vmrk],
    between the same white space, so that it trims to the reference line of
    the destination; every other line is written as it is. *)
Theorem copyfile_brainvision_plain_basename
    (_parse_ext : string → string * string)
    (src dest content fname_src fname_dest ext : string) (w : world) :
  read_text w src = Ok content →
  can_open_w w dest = true →
  _parse_ext src = (fname_src, ext) →
  _parse_ext dest = (fname_dest, ext) →
  ext = ".vhdr" ∨ ext = ".vmrk" →
  plain_basename (basename fname_src) = true →
  let written := new_line (basename fname_src) (basename fname_dest) in
  (∃ w', copyfile_brainvision _parse_ext src dest w = (w', Ok tt)
         ∧ read_text w' dest
           = Ok (String.concat ""
                   (written <$> readlines (universal_newlines content))))
  ∧ (∀ w1 w2,
       all_chars is_space w1 = true → all_chars is_space w2 = true →
       written (w1 +:+ ("DataFile=" +:+ basename fname_src +:+ ".eeg") +:+ w2)
       = w1 +:+ ("DataFile=" +:+ basename fname_dest +:+ ".eeg") +:+ w2
       ∧ written (w1 +:+ ("MarkerFile=" +:+ basename fname_src +:+ ".vmrk")
                  +:+ w2)
         = w1 +:+ ("MarkerFile=" +:+ basename fname_dest +:+ ".vmrk") +:+ w2)
  ∧ (∀ l,
       (strip l = "DataFile=" +:+ basename fname_src +:+ ".eeg"
        → strip (written l) = "DataFile=" +:+ basename fname_dest +:+ ".eeg")
       ∧ (strip l = "MarkerFile=" +:+ basename fname_src +:+ ".vmrk"
          → strip (written l)
            = "MarkerFile=" +:+ basename fname_dest +:+ ".vmrk")
       ∧ (strip l ∉ search_lines (basename fname_src) → written l = l)).
Proof.
  intros Hread Hopen Hsrc Hdest Hext Hplain written.
  set (b := basename fname_src) in *. set (d := basename fname_dest) in *.
  split; [by eapply copyfile_brainvision_text_read|]. split.
  - intros w1 w2 Hw1 Hw2.
    destruct (new_line_plain b d w1 w2 ("DataFile=" +:+ b +:+ ".eeg"))
      as [HD _]; [done..|].
    destruct (new_line_plain b d w1 w2 ("MarkerFile=" +:+ b +:+ ".vmrk"))
      as [_ HM]; [done..|].
    split; [by apply HD|by apply HM].
  - intros l.
    assert (Hstrip : ∀ w1 w2 pre post,
      all_chars is_space w1 = true → all_chars is_space w2 = true →
      pre = "DataFile=" ∧ post = ".eeg"
      ∨ pre = "MarkerFile=" ∧ post = ".vmrk" →
      strip (w1 +:+ (pre +:+ d +:+ post) +:+ w2) = pre +:+ d +:+ post).
    { intros w1 w2 pre post Hw1 Hw2 Hpp.
      destruct (search_lines_strip d (pre +:+ d +:+ post)) as [? ?].
      - unfold search_lines. destruct Hpp as [[-> ->]|[-> ->]];
          [by left|right; by left].
      - by apply strip_decorated. }
    destruct (new_line_plain_cases b d l Hplain)
      as [(w1 & w2 & pre & post & Hw1 & Hw2 & Hpp & Hl & Hnew)|[Hnot Hnew]].
    + assert (strip l = pre +:+ b +:+ post) as Hs.
      { rewrite Hl. destruct (search_lines_strip b (pre +:+ b +:+ post))
          as [? ?]; [|by apply strip_decorated].
        unfold search_lines. destruct Hpp as [[-> ->]|[-> ->]];
          [by left|right; by left]. }
      fold written in Hnew. rewrite Hnew, Hs, Hstrip by done.
      split; [|split].
      * destruct Hpp as [[-> ->]|[-> ->]]; [done|]. intros H.
        cbv [String.append] in H. discriminate.
      * destruct Hpp as [[-> ->]|[-> ->]]; [|done]. intros H.
        cbv [String.append] in H. discriminate.
      * intros Hnot. exfalso. apply Hnot. unfold search_lines.
        destruct Hpp as [[-> ->]|[-> ->]]; [by left|right; by left].
    + fold written in Hnew. rewrite Hnew. split; [|split]; [| |done].
      * intros Hs. exfalso. apply Hnot. rewrite Hs. by left.
      * intros Hs. exfalso. apply Hnot. rewrite Hs. right. by left.
Qed.

Lemma copyfile_brainvision_plain_basename_witness :
  ∃ w', copyfile_brainvision os_path_splitext "rec/foo.vhdr"
          "out/sub-01_task-rest_eeg.vhdr" recording_foo = (w', Ok tt)
        ∧ read_text w' "out/sub-01_task-rest_eeg.vhdr"
          = Ok (String.concat ""
                  (new_line "foo" "sub-01_task-rest_eeg"
                     <$> readlines (universal_newlines header_foo))).
Proof.
  apply (copyfile_brainvision_plain_basename os_path_splitext "rec/foo.vhdr"
           "out/sub-01_task-rest_eeg.vhdr" header_foo "rec/foo"
           "out/sub-01_task-rest_eeg" ".vhdr" recording_foo).
  - vm_compute. reflexivity.
  - vm_compute. reflexivity.
  - vm_compute. reflexivity.
  - vm_compute. reflexivity.
  - left. reflexivity.
  - vm_compute. reflexivity.
Defined.

(** X18: renaming there and back. A text member of plain basename copied to
    a plain destination basename (without line feed and CR), and the copy
    copied again to the first basename, gives back the text of the source
    as text mode reads it (every CR LF and every lone CR turned into a line
    feed; for a source without CR, the source itself), provided no line
    read from the source was a reference line of the destination basename
    already. *)
Theorem copyfile_brainvision_round_trip
    (_parse_ext : string → string * string)
    (src dest back content fname_src fname_dest fname_back ext : string)
    (w : world) :
  read_text w src = Ok content →
  can_open_w w dest = true →
  _parse_ext src = (fname_src, ext) →
  _parse_ext dest = (fname_dest, ext) →
  _parse_ext back = (fname_back, ext) →
  ext = ".vhdr" ∨ ext = ".vmrk" →
  basename fname_back = basename fname_src →
  plain_basename (basename fname_src) = true →
  plain_basename (basename fname_dest) = true →
  occurs CR (basename fname_dest) = false →
  Forall (λ l, strip l ∉ search_lines (basename fname_dest))
    (readlines (universal_newlines content)) →
  can_open_w (copyfile_brainvision _parse_ext src dest w).1 back = true →
  ∃ w1 w2,
    copyfile_brainvision _parse_ext src dest w = (w1, Ok tt)
    ∧ copyfile_brainvision _parse_ext dest back w1 = (w2, Ok tt)
    ∧ read_text w2 back = Ok (universal_newlines content)
    ∧ (occurs CR content = false → read_text w2 back = Ok content).
Proof.
  intros Hread Hopen Hsrc Hdest Hback Hext Hsame Hb Hd Hdcr Hnone Hopen'.
  set (b := basename fname_src) in *. set (d := basename fname_dest) in *.
  destruct (copyfile_brainvision_text_read _parse_ext src dest content
              fname_src fname_dest ext w) as (w1 & Hcopy & Hdest'); [done..|].
  rewrite Hcopy in Hopen'. cbn [fst] in Hopen'.
  destruct (copyfile_brainvision_text_read _parse_ext dest back _
              fname_dest fname_back ext w1 Hdest' Hopen' Hdest Hback Hext)
    as (w2 & Hcopy' & Hback').
  assert (read_text w2 back = Ok (universal_newlines content)) as Hun.
  { rewrite Hback', Hsame. fold b d. f_equal.
    destruct (plain_basename_inv b Hb)
      as (_ & _ & _ & _ & _ & _ & _ & _ & Hblf).
    destruct (plain_basename_inv d Hd)
      as (_ & _ & _ & _ & _ & _ & _ & _ & Hdlf).
    rewrite universal_newlines_id.
    2:{ apply occurs_concat, Forall_fmap.
        eapply Forall_impl; [apply readlines_no_CR|].
        intros l Hl. cbn. by apply new_line_plain_no_CR. }
    rewrite readlines_concat.
    2:{ rewrite lines_wf_fmap; [apply readlines_wf|..];
          intros l; by apply new_line_plain_shape. }
    rewrite <- list_fmap_compose.
    rewrite fmap_id_lines; [apply concat_readlines|].
    eapply Forall_impl; [exact Hnone|]. intros l Hl. cbn.
    destruct (new_line_plain_cases b d l Hb)
      as [(w1' & w2' & pre & post & Hw1 & Hw2 & Hpp & Hline & ->)|[_ ->]].
    - rewrite Hline.
      destruct (new_line_plain d b w1' w2' (pre +:+ d +:+ post) Hd Hw1 Hw2)
        as [HD HM].
      destruct Hpp as [[-> ->]|[-> ->]]; [by apply HD|by apply HM].
    - by apply new_line_other. }
  exists w1, w2. split; [done|]. split; [done|]. split; [done|].
  intros Hcr. by rewrite Hun, universal_newlines_id.
Qed.

Lemma copyfile_brainvision_round_trip_witness :
  ∃ w1 w2,
    copyfile_brainvision os_path_splitext "rec/foo.vhdr" "out/bar.vhdr"
      recording_foo = (w1, Ok tt)
    ∧ copyfile_brainvision os_path_splitext "out/bar.vhdr" "out/foo.vhdr" w1
      = (w2, Ok tt)
    ∧ read_text w2 "out/foo.vhdr" = Ok header_foo.
Proof.
  destruct (copyfile_brainvision_round_trip os_path_splitext "rec/foo.vhdr"
              "out/bar.vhdr" "out/foo.vhdr" header_foo "rec/foo" "out/bar"
              "out/foo" ".vhdr" recording_foo)
    as (w1 & w2 & Hcopy & Hcopy' & _ & Hsame).
  - vm_compute. reflexivity.
  - vm_compute. reflexivity.
  - vm_compute. reflexivity.
  - vm_compute. reflexivity.
  - vm_compute. reflexivity.
  - left. reflexivity.
  - vm_compute. reflexivity.
  - vm_compute. reflexivity.
  - vm_compute. reflexivity.
  - vm_compute. reflexivity.
  - apply (bool_decide_unpack _). vm_compute. exact I.
  - vm_compute. reflexivity.
  - exists w1, w2. split; [exact Hcopy|]. split; [exact Hcopy'|].
    apply Hsame. vm_compute. reflexivity.
Defined.

(** X19: a source basename that is a single letter of [DataFile] is not
    renamed properly. [replace] is applied to the whole reference line, so
    the letter is replaced wherever it stands, in [DataFile] and [.eeg] too:
    the line written is the reference line of the destination only in the
    case where the destination basename is that same letter. *)
Theorem copyfile_brainvision_letter_basename
    (_parse_ext : string → string * string)
    (src dest fname_src fname_dest ext : string) (c : ascii) (w : world) :
  occurs c "DataFile" = true →
  basename fname_src = String c "" →
  read_text w src = Ok ("DataFile=" +:+ String c ".eeg" +:+ nl) →
  can_open_w w dest = true →
  _parse_ext src = (fname_src, ext) →
  _parse_ext dest = (fname_dest, ext) →
  ext = ".vhdr" ∨ ext = ".vmrk" →
  ∃ w' content',
    copyfile_brainvision _parse_ext src dest w = (w', Ok tt)
    ∧ read_text w' dest = Ok content'
    ∧ (content' = "DataFile=" +:+ basename fname_dest +:+ ".eeg" +:+ nl →
       basename fname_dest = String c "").
Proof.
  intros Hc Hb Hread Hopen Hsrc Hdest Hext.
  destruct (copyfile_brainvision_text_read _parse_ext src dest _
              fname_src fname_dest ext w Hread Hopen Hsrc Hdest Hext)
    as (w' & Hcopy & Hdest').
  rewrite universal_newlines_id in Hdest'.
  2:{ clear -Hc. revert Hc. cbn [occurs].
      rewrite !orb_true_iff, !bool_decide_eq_true.
      intros Hc. repeat (destruct Hc as [Hc|Hc]); try discriminate;
        by subst c. }
  exists w'. eexists. split; [done|]. split; [done|].
  rewrite Hb. intros Hcontent. apply (new_line_letter c); [done|].
  rewrite <- Hcontent. rewrite readlines_single; [done|].
  clear -Hc. revert Hc. cbn [occurs].
  rewrite !orb_true_iff, !bool_decide_eq_true.
  intros Hc. repeat (destruct Hc as [Hc|Hc]); try discriminate; by subst c.
Qed.

Lemma copyfile_brainvision_letter_basename_witness :
  ∃ w' content',
    copyfile_brainvision os_path_splitext "a.vhdr" "b.vhdr"
      {| files := <[ ["a.vhdr"] := File ("DataFile=a.eeg" +:+ nl) ]> ∅;
         stdout := [] |} = (w', Ok tt)
    ∧ read_text w' "b.vhdr" = Ok content'
    ∧ (content' = "DataFile=" +:+ basename "b" +:+ ".eeg" +:+ nl →
       basename "b" = "a").
Proof.
  apply (copyfile_brainvision_letter_basename os_path_splitext "a.vhdr"
           "b.vhdr" "a" "b" ".vhdr" "a").
  - vm_compute. reflexivity.
  - vm_compute. reflexivity.
  - vm_compute. reflexivity.
  - vm_compute. reflexivity.
  - vm_compute. reflexivity.
  - vm_compute. reflexivity.
  - left. reflexivity.
Defined.

(** ** [make_dataset_description] and [_write_json] *)

(** X20: what [make_dataset_description] writes. When the file
    [dataset_description.json] of the folder can be opened for writing, the
    call returns and the file holds the JSON text of the fields that are not
    [None], in the order of the table, followed by a line feed; the field
    [BIDSVersion] is always among them, and authors, funding and references
    given as one string are stored as the list of its pieces. No other file
    is touched, and the two messages are printed with [verbose] only. *)
Theorem make_dataset_description_written (BIDS_VERSION : string)
    (json_dumps : fdict → string) (path : string)
    (name data_license authors acknowledgements how_to_acknowledge funding
       references_and_links doi : field) (verbose : bool) (w : world) :
  let fname := os_path_join path ["dataset_description.json"] in
  let kept :=
    filter (λ kv, kv.2 ≠ FNone)
      [("Name", name); ("BIDSVersion", FStr BIDS_VERSION);
       ("License", data_license); ("Authors", split_field authors);
       ("Acknowledgements", acknowledgements);
       ("HowToAcknowledge", how_to_acknowledge);
       ("Funding", split_field funding);
       ("ReferencesAndLinks", split_field references_and_links);
       ("DatasetDOI", doi)] in
  can_open_w w fname = true →
  ∃ w',
    make_dataset_description BIDS_VERSION json_dumps path name data_license
      authors acknowledgements how_to_acknowledge funding
      references_and_links doi verbose w = (w', Ok tt)
    ∧ read_text w' fname = Ok (json_dumps kept +:+ nl)
    ∧ ("BIDSVersion", FStr BIDS_VERSION) ∈ kept
    ∧ stdout w'
      = stdout w
        ++ (if verbose
            then [nl +:+ "Writing '" +:+ fname +:+ "'..." +:+ nl;
                  json_dumps kept]
            else [])
    ∧ ∀ k, k ≠ resolve fname → files w' !! k = files w !! k.
Proof.
  intros fname kept Hopen.
  unfold make_dataset_description. fold fname.
  rewrite pop_None_fields by (apply (bool_decide_unpack _); by vm_compute).
  unfold description_table. fold kept. unfold _write_json.
  rewrite open_w_ok by done. rewrite !write_insert, app_empty_l.
  destruct (can_open_w_resolve _ _ Hopen) as [Hp Hr].
  eexists. split; [done|]. split; [|split; [|split]].
  - destruct verbose; by apply read_text_insert.
  - subst kept. apply list_elem_of_filter. split; [done|].
    right. by left.
  - destruct verbose; cbn [stdout print set_files]; [|by rewrite app_nil_r].
    by rewrite <- app_assoc.
  - intros k Hk. destruct verbose; cbn [files print set_files];
      by rewrite lookup_insert_ne.
Qed.

Lemma make_dataset_description_written_witness :
  ∃ w',
    make_dataset_description "1.1.1" json_dumps_indent4 "out" (FStr "Rest")
      FNone (FStr "A. Author, B. Author") FNone FNone FNone FNone FNone
      false recording_foo = (w', Ok tt)
    ∧ read_text w' "out/dataset_description.json"
      = Ok (json_dumps_indent4
              [("Name", FStr "Rest"); ("BIDSVersion", FStr "1.1.1");
               ("Authors", FList ["A. Author"; "B. Author"])] +:+ nl).
Proof.
  destruct (make_dataset_description_written "1.1.1" json_dumps_indent4 "out"
              (FStr "Rest") FNone (FStr "A. Author, B. Author") FNone FNone
              FNone FNone FNone false recording_foo)
    as (w' & Hcall & Hread & _).
  - vm_compute. reflexivity.
  - exists w'. split; [exact Hcall|exact Hread].
Defined.

(** X21: when that file cannot be opened for writing (the folder is
    missing, say) [make_dataset_description] raises the error of the
    operating system; the world is as it was and nothing is printed, even
    with [verbose]. *)
Theorem make_dataset_description_unwritable (BIDS_VERSION : string)
    (json_dumps : fdict → string) (path : string)
    (name data_license authors acknowledgements how_to_acknowledge funding
       references_and_links doi : field) (verbose : bool) (w : world) :
  can_open_w w (os_path_join path ["dataset_description.json"]) = false →
  ∃ code,
    make_dataset_description BIDS_VERSION json_dumps path name data_license
      authors acknowledgements how_to_acknowledge funding
      references_and_links doi verbose w
    = (w, Raise (OSError code
                   (os_path_join path ["dataset_description.json"]))).
Proof.
  intros Hopen.
  destruct (open_w_cases (os_path_join path ["dataset_description.json"]) w)
    as [[Hcan _]|[_ [code Hfail]]]; [congruence|].
  exists code. unfold make_dataset_description, _write_json.
  by rewrite Hfail.
Qed.

Lemma make_dataset_description_unwritable_witness :
  ∃ code,
    make_dataset_description "1.1.1" json_dumps_indent4 "new" (FStr "Rest")
      FNone FNone FNone FNone FNone FNone FNone true recording_foo
    = (recording_foo,
       Raise (OSError code (os_path_join "new" ["dataset_description.json"]))).
Proof.
  apply (make_dataset_description_unwritable "1.1.1" json_dumps_indent4 "new"
           (FStr "Rest") FNone FNone FNone FNone FNone FNone FNone true
           recording_foo).
  vm_compute. reflexivity.
Defined.

(** X22: the normalisation of authors, funding and references keeps all
    there is in the string: the field stored is the list of the pieces
    between the occurrences of [', '], joining them with [', '] gives the
    string back, and a string without [', '] becomes the list of that one
    string. *)
Theorem split_field_pieces (s : string) :
  ∃ l, split_field (FStr s) = FList l
       ∧ l ≠ []
       ∧ join ", " l = s
       ∧ (contains ", " s = false → l = [s]).
Proof.
  exists (split_str s ", "). split; [done|]. split; [|split].
  - apply split_from_nonempty.
  - apply join_split_str.
  - intros Hs. by apply split_from_whole.
Qed.

Lemma split_field_pieces_witness :
  ∃ l, split_field (FStr "A. Author, B. Author") = FList l
       ∧ l ≠ []
       ∧ join ", " l = "A. Author, B. Author"
       ∧ (contains ", " "A. Author, B. Author" = false
          → l = ["A. Author, B. Author"]).
Proof. exact (split_field_pieces "A. Author, B. Author"). Defined.

(** ** [print_dir_tree] *)

(** X23: [print_dir_tree] changes no file. For every directory that the
    walk yields it prints one line, the name of the directory after five
    dashes for each separator of its path, followed by one line for each of
    its files, one level deeper. *)
Theorem print_dir_tree_lines
    (os_walk : world → string → list (string * list string * list string))
    (dir : string) (w : world) :
  files (print_dir_tree os_walk dir w) = files w
  ∧ stdout (print_dir_tree os_walk dir w)
    = stdout w ++ concat (tree_lines <$> os_walk w dir).
Proof. unfold print_dir_tree. by rewrite print_tree_fold. Qed.

(** ** The pointers after a copy *)

(** X24: after a text member of plain basename has been copied to another
    basename (without line feed), no line of the destination is a reference
    line of the old basename any more: every pointer names the new
    basename. *)
Theorem copyfile_brainvision_no_old_pointer
    (_parse_ext : string → string * string)
    (src dest content fname_src fname_dest ext : string) (w : world) :
  read_text w src = Ok content →
  can_open_w w dest = true →
  _parse_ext src = (fname_src, ext) →
  _parse_ext dest = (fname_dest, ext) →
  ext = ".vhdr" ∨ ext = ".vmrk" →
  plain_basename (basename fname_src) = true →
  occurs LF (basename fname_dest) = false →
  basename fname_src ≠ basename fname_dest →
  ∃ w' content',
    copyfile_brainvision _parse_ext src dest w = (w', Ok tt)
    ∧ read_text w' dest = Ok content'
    ∧ length (readlines content')
      = length (readlines (universal_newlines content))
    ∧ Forall (λ l, strip l ∉ search_lines (basename fname_src))
        (readlines content').
Proof.
  intros Hread Hopen Hsrc Hdest Hext Hb Hd Hne.
  set (b := basename fname_src) in *. set (d := basename fname_dest) in *.
  destruct (copyfile_brainvision_text_read _parse_ext src dest content
              fname_src fname_dest ext w) as (w' & Hcopy & Hdest'); [done..|].
  fold b d in Hdest'. exists w'. eexists. split; [done|]. split; [done|].
  rewrite readlines_concat.
  2:{ rewrite lines_wf_fmap; [apply readlines_wf|..];
        intros l; by apply new_line_plain_shape. }
  split; [by rewrite length_fmap|].
  apply Forall_fmap, Forall_forall. intros l _. cbn.
  destruct (new_line_plain_cases b d l Hb)
    as [(w1 & w2 & pre & post & Hw1 & Hw2 & Hpp & _ & ->)|[Hnot ->]];
    [|done].
  assert (pre +:+ d +:+ post ∈ search_lines d) as Hin.
  { unfold search_lines. destruct Hpp as [[-> ->]|[-> ->]];
      [by left|right; by left]. }
  destruct (search_lines_strip d _ Hin) as [? ?].
  rewrite strip_decorated by done. by eapply search_lines_disjoint.
Qed.

Lemma copyfile_brainvision_no_old_pointer_witness :
  ∃ w' content',
    copyfile_brainvision os_path_splitext "rec/foo.vhdr" "out/bar.vhdr"
      recording_foo = (w', Ok tt)
    ∧ read_text w' "out/bar.vhdr" = Ok content'
    ∧ length (readlines content')
      = length (readlines (universal_newlines header_foo))
    ∧ Forall (λ l, strip l ∉ search_lines (basename "rec/foo"))
        (readlines content').
Proof.
  apply (copyfile_brainvision_no_old_pointer os_path_splitext "rec/foo.vhdr"
           "out/bar.vhdr" header_foo "rec/foo" "out/bar" ".vhdr"
           recording_foo).
  - vm_compute. reflexivity.
  - vm_compute. reflexivity.
  - vm_compute. reflexivity.
  - vm_compute. reflexivity.
  - left. reflexivity.
  - vm_compute. reflexivity.
  - vm_compute. reflexivity.
  - vm_compute. discriminate.
Defined.

(** ** [make_bids_folders] with [overwrite] *)

(** X25: [make_bids_folders] called with [make_dir] and [overwrite] set (the
    defaults) on a folder that exists already empties it: whatever lay below
    the returned path is gone, while what lies neither below nor above it is
    as it was. *)
Theorem make_bids_folders_overwrite (subject session kind root : value)
    (verbose : bool) (w w' : world) (path : string) :
  make_bids_folders subject session kind root true true verbose w
  = (w', Ok path) →
  os_path_isdir w path = true →
  (∀ k, resolve path `prefix_of` k → k ≠ resolve path → files w' !! k = None)
  ∧ (∀ k, ¬ resolve path `prefix_of` k → ¬ k `prefix_of` resolve path →
          files w' !! k = files w !! k).
Proof.
  unfold make_bids_folders.
  destruct (_ ;; os_path_join_list _) as [p|e]; [|done].
  set (full := match root with VStr r => os_path_join r [p] | _ => p end).
  destruct (_mkdir_p full true verbose w) as [w1 [[]|e]] eqn:Hmk; [|done].
  intros [= <- <-] Hdir.
  destruct (mkdir_p_overwrite_below full verbose w Hdir) as [Hbelow Hother].
  rewrite Hmk in Hbelow, Hother. by split.
Qed.

Lemma make_bids_folders_overwrite_witness :
  files (make_bids_folders (VStr "01") VNone VNone (VStr "rec") true true
           false
           (set_files (insert ["rec"; "sub-01"; "old.vhdr"] (File "x"))
              (set_files (insert ["rec"; "sub-01"] Dir) recording_foo))).1
    !! ["rec"; "sub-01"; "old.vhdr"] = None.
Proof.
  eapply (make_bids_folders_overwrite (VStr "01") VNone VNone (VStr "rec")
            false
            (set_files (insert ["rec"; "sub-01"; "old.vhdr"] (File "x"))
               (set_files (insert ["rec"; "sub-01"] Dir) recording_foo))).
  - vm_compute. reflexivity.
  - vm_compute. reflexivity.
  - exists ["old.vhdr"]. vm_compute. reflexivity.
  - vm_compute. discriminate.
Defined.
